(** * reserve-api: the booking coordination core, embedded in Rocq

    A shallow embedding of the TypeScript sources
      - models/Slot.ts, models/Booking.ts, models/User.ts
      - utils/redis.ts                 (RedisClient.acquireLock / releaseLock,
                                        retryStrategy)
      - services/BookingService.ts     (createBooking / cancelBooking,
                                        getAvailableSlots, getBookingById,
                                        getBookingByConfirmationCode)
      - services/QueueService.ts       (addJob)
      - services/NotificationService.ts (send)
      - middleware/auth.ts             (extractTokenFromHeader, getAuthContext,
                                        requireAuth / requireRole)
      - schema/resolvers.ts            (handleError, Query.booking,
                                        Query.bookingByConfirmationCode,
                                        Mutation.cancelBooking,
                                        Mutation.blockSlot, Mutation.unblockSlot)

    Conventions of the embedding.
      - A JavaScript [Date] is the integer number of milliseconds since the
        epoch ([Z]); a JavaScript integer [number] is a [Z] (the values are
        GraphQL [Int]s and SQL [int]s, far below 2^53).
      - Asynchronous methods are computations in the monad [M]: a function
        from the state of the outside world (database, Redis, queue, clock)
        to a completion (normal return or thrown exception) and a new world.
        An exception does not undo the effects that preceded it.
      - The entity maps of the database are [gmap]s from primary key to row.
      - The storage layer takes every row it is given, but for a booking
        saved with its [slot] relation [null]: the range of the [int]
        columns, the precision of the [decimal] ones and the syntax of
        the [uuid] ones are not modelled.
      - [connect], [startTransaction] and [release] of the query runner
        resolve ([createBookingWith] leaves them open), and
        [rollbackTransaction] resolves also when no transaction is open.
      - Logging is not modelled. *)

From stdpp Require Import gmap strings list fin_maps pretty sorting.
From Stdlib Require Import ZArith Ascii String.

Local Open Scope string_scope.
Local Open Scope Z_scope.

(* ===================================================================== *)
(** ** Enumerations *)
(* ===================================================================== *)

(** models/Slot.ts: [enum SlotStatus]. *)
Inductive SlotStatus := AVAILABLE | HELD | BOOKED | BLOCKED.

(** models/Booking.ts: [enum BookingStatus]. *)
Inductive BookingStatus := PENDING | CONFIRMED | CANCELLED | COMPLETED | NO_SHOW.

(** models/User.ts: [enum UserRole]. *)
Inductive UserRole := GUEST | MEMBER | ADMIN.

#[global] Instance SlotStatus_eq_dec : EqDecision SlotStatus.
Proof. solve_decision. Defined.

#[global] Instance BookingStatus_eq_dec : EqDecision BookingStatus.
Proof. solve_decision. Defined.

#[global] Instance UserRole_eq_dec : EqDecision UserRole.
Proof. solve_decision. Defined.

(* ===================================================================== *)
(** ** Entities *)
(* ===================================================================== *)

(** models/Slot.ts: [class Slot].  The columns that no modelled code reads
    or writes ([durationMinutes], [currency], [createdAt], [updatedAt]) are
    left out.  [price] is in minor currency units. *)
Record Slot := mkSlot {
  slot_id : string;
  slot_venueId : string;
  date : string;
  startTime : Z;
  endTime : Z;
  capacity : Z;
  remainingCapacity : Z;
  slot_status : SlotStatus;
  price : option Z;
  slot_metadata : gmap string (option string);
  heldUntil : option Z
}.

(** models/Booking.ts: [class Booking] ([metadata], [createdAt] and
    [updatedAt] left out).  [booking_id] and [confirmationCode] are [None]
    while the property is still undefined, that is before the entity was
    inserted. *)
Record Booking := mkBooking {
  booking_id : option string;
  userId : string;
  slotId : string;
  booking_venueId : string;
  confirmationCode : option string;
  booking_status : BookingStatus;
  guestCount : Z;
  notes : option string;
  bookingDate : string;
  cancelledAt : option Z;
  cancellationReason : option string;
  confirmedAt : option Z;
  completedAt : option Z;
  totalPrice : option Z
}.

(** models/User.ts: [class User], the part the coordinator consumes. *)
Record User := mkUser {
  user_id : string;
  role : UserRole;
  isActive : bool
}.

Definition Slot_set_remainingCapacity (s : Slot) (r : Z) : Slot :=
  mkSlot (slot_id s) (slot_venueId s) (date s) (startTime s) (endTime s)
         (capacity s) r (slot_status s) (price s) (slot_metadata s) (heldUntil s).

Definition Slot_set_status (s : Slot) (st : SlotStatus) : Slot :=
  mkSlot (slot_id s) (slot_venueId s) (date s) (startTime s) (endTime s)
         (capacity s) (remainingCapacity s) st (price s) (slot_metadata s)
         (heldUntil s).

Definition Slot_set_metadata (s : Slot) (md : gmap string (option string)) : Slot :=
  mkSlot (slot_id s) (slot_venueId s) (date s) (startTime s) (endTime s)
         (capacity s) (remainingCapacity s) (slot_status s) (price s) md
         (heldUntil s).

Definition Booking_set_confirmationCode (b : Booking) (c : option string) : Booking :=
  mkBooking (booking_id b) (userId b) (slotId b) (booking_venueId b) c
            (booking_status b) (guestCount b) (notes b) (bookingDate b)
            (cancelledAt b) (cancellationReason b) (confirmedAt b)
            (completedAt b) (totalPrice b).

Definition Booking_set_id (b : Booking) (i : option string) : Booking :=
  mkBooking i (userId b) (slotId b) (booking_venueId b) (confirmationCode b)
            (booking_status b) (guestCount b) (notes b) (bookingDate b)
            (cancelledAt b) (cancellationReason b) (confirmedAt b)
            (completedAt b) (totalPrice b).

(** The three assignments at the head of the cancel transaction:
    [status = CANCELLED; cancelledAt = new Date(); cancellationReason = reason]. *)
Definition Booking_set_cancelled (b : Booking) (now : Z) (reason : option string)
  : Booking :=
  mkBooking (booking_id b) (userId b) (slotId b) (booking_venueId b)
            (confirmationCode b) CANCELLED (guestCount b) (notes b)
            (bookingDate b) (Some now) reason (confirmedAt b)
            (completedAt b) (totalPrice b).

(* ===================================================================== *)
(** ** Process environment *)
(* ===================================================================== *)

(** The variables of [process.env] the modelled code reads.  A numeric
    variable is [None] when unset (or empty), and otherwise holds the integer
    [parseInt(_, 10)] reads from it. *)
Record ProcessEnv := mkEnv {
  MAX_CONCURRENT_BOOKINGS_PER_USER : option Z;
  MAX_BOOKING_ADVANCE_DAYS : option Z;
  BOOKING_CANCELLATION_WINDOW_HOURS : option Z;
  SNS_TOPIC_ARN : string
}.

(** [parseInt(process.env.X || 'd', 10)]. *)
Definition envInt (v : option Z) (d : Z) : Z := default d v.

Definition defaultEnv : ProcessEnv := mkEnv None None None "".

Definition MS_PER_HOUR : Z := 3600000.
Definition MS_PER_DAY : Z := 86400000.

(* ===================================================================== *)
(** ** String helpers of the JavaScript runtime *)
(* ===================================================================== *)

(** [String.prototype.toUpperCase] on one ASCII character. *)
Definition toUpperAscii (c : ascii) : ascii :=
  let n := nat_of_ascii c in
  if ((97 <=? n)%nat && (n <=? 122)%nat)%bool then ascii_of_nat (n - 32) else c.

Fixpoint toUpperCase (s : string) : string :=
  match s with
  | EmptyString => EmptyString
  | String c s' => String (toUpperAscii c) (toUpperCase s')
  end.

(** [s.replace(/-/g, '')]. *)
Fixpoint removeHyphens (s : string) : string :=
  match s with
  | EmptyString => EmptyString
  | String c s' =>
      if Ascii.eqb c "-"%char then removeHyphens s'
      else String c (removeHyphens s')
  end.

Definition isLowerHex (c : ascii) : bool :=
  let n := nat_of_ascii c in
  (((48 <=? n)%nat && (n <=? 57)%nat) || ((97 <=? n)%nat && (n <=? 102)%nat))%bool.

Definition isUpperHex (c : ascii) : bool :=
  let n := nat_of_ascii c in
  (((48 <=? n)%nat && (n <=? 57)%nat) || ((65 <=? n)%nat && (n <=? 70)%nat))%bool.

Fixpoint allChars (p : ascii -> bool) (s : string) : bool :=
  match s with
  | EmptyString => true
  | String c s' => (p c && allChars p s')%bool
  end.

Definition isHyphen (c : ascii) : bool := Ascii.eqb c "-"%char.

(** The textual shape of what [uuidv4()] of the [uuid] package returns:
    groups of 8, 4, 4, 4 and 12 lower-case hexadecimal digits separated by
    hyphens. *)
Definition uuidShape : list (ascii -> bool) :=
  (replicate 8 isLowerHex ++ [isHyphen] ++ replicate 4 isLowerHex ++ [isHyphen]
   ++ replicate 4 isLowerHex ++ [isHyphen] ++ replicate 4 isLowerHex
   ++ [isHyphen] ++ replicate 12 isLowerHex)%list.

Fixpoint matchesShape (shape : list (ascii -> bool)) (s : string) : bool :=
  match shape, s with
  | [], EmptyString => true
  | p :: shape', String c s' => (p c && matchesShape shape' s')%bool
  | _, _ => false
  end.

Definition isUuid (s : string) : bool := matchesShape uuidShape s.

(* ===================================================================== *)
(** ** models/Slot.ts: getters and methods *)
(* ===================================================================== *)

Module Slot.

(** [get isAvailable()]. *)
Definition isAvailable (this : Slot) : bool :=
  bool_decide (slot_status this = AVAILABLE) && (0 <? remainingCapacity this).

(** [get isPast()]: [new Date(this.endTime) < new Date()]; [now] is the
    value of [new Date()]. *)
Definition isPast (this : Slot) (now : Z) : bool :=
  endTime this <? now.

(** [canAccommodate(guestCount)]. *)
Definition canAccommodate (this : Slot) (guestCount : Z) : bool :=
  isAvailable this && (guestCount <=? remainingCapacity this).

End Slot.

(* ===================================================================== *)
(** ** models/Booking.ts: hook and getter *)
(* ===================================================================== *)

Module Booking.

(** JavaScript truthiness of the [confirmationCode] property. *)
Definition hasConfirmationCode (this : Booking) : bool :=
  match confirmationCode this with
  | None => false
  | Some c => negb (String.eqb c "")
  end.

(** [@BeforeInsert() generateConfirmationCode()]; [uuid] is the value the
    call [uuidv4()] returns. *)
Definition generateConfirmationCode (this : Booking) (uuid : string) : Booking :=
  if negb (hasConfirmationCode this) then
    let raw := toUpperCase (substring 0 8 (removeHyphens uuid)) in
    Booking_set_confirmationCode this (Some ("RSV-" +:+ raw))
  else this.

(** [get isCancellable()].  [cutoff] is computed as in the source, and as
    in the source nothing reads it. *)
Definition isCancellable (this : Booking) (env : ProcessEnv) (now : Z) : bool :=
  if bool_decide (booking_status this = CANCELLED)
     || bool_decide (booking_status this = COMPLETED)
  then false
  else
    let cancellationWindowHours :=
      envInt (BOOKING_CANCELLATION_WINDOW_HOURS env) 24 in
    let cutoff := now + cancellationWindowHours * MS_PER_HOUR in
    true.

End Booking.

(* ===================================================================== *)
(** ** The outside world *)
(* ===================================================================== *)

(** What [throw] carries: the [BookingError] class of BookingService.ts,
    [GraphQLError] with its [extensions.code] and [extensions.http.status],
    and every other [Error] (plain [new Error(..)] of the middleware, and the
    failures raised by the PostgreSQL, Redis and BullMQ clients). *)
Inductive Error :=
| BookingError (message code : string) (statusCode : Z)
| GraphQLError (message code : string) (httpStatus : option Z)
| JsError (message : string).

(** The three tables, keyed by primary key. *)
Record Database := mkDatabase {
  users : gmap string User;
  bookings : gmap string Booking;
  slots : gmap string Slot
}.

(** A Redis string key: its value and, when set with PX or EX, the instant
    at which it expires. *)
Record RedisEntry := mkRedisEntry {
  entry_value : string;
  expiresAt : option Z
}.

(** A job handed to BullMQ: its name and the fields of its payload. *)
Record Job := mkJob {
  job_name : string;
  job_data : list (string * string)
}.

(** models of services/NotificationService.ts *)
Inductive NotificationType :=
| BOOKING_CONFIRMED | BOOKING_CANCELLED | BOOKING_REMINDER
| SLOT_AVAILABLE | WAITLIST_PROMOTED.

Record NotificationPayload := mkNotification {
  notif_type : NotificationType;
  notif_userId : string;
  notif_data : list (string * string)
}.

(** The payload published on the SLOT_UPDATED topic. *)
Record SlotUpdate := mkSlotUpdate {
  su_slotId : string;
  su_venueId : string;
  su_status : SlotStatus;
  su_remainingCapacity : Z
}.

(** The calls made to the infrastructure, in the order they are made. *)
Inductive Call :=
| CallAcquireLock (key : string)
| CallReleaseLock (key : string)
| CallConnect
| CallStartTransaction (isolation : string)
| CallCommit
| CallRollback
| CallRelease
| CallCacheDel (key : string)
| CallAddJob (name : string)
| CallSnsPublish.

(** Which infrastructure calls fail, and with what message.  The head of
    [commitFaults] decides the next [commitTransaction] ([None], or an empty
    list: the commit succeeds).  All other infrastructure calls of the
    modelled code (reads, saves, lock commands) are taken to succeed. *)
Record Faults := mkFaults {
  commitFaults : list (option string);
  rollbackFault : option string;
  cacheDelFault : option string;
  addJobFault : option string;
  snsFault : option string
}.

Definition noFaults : Faults := mkFaults [] None None None None.

(** The values the generators produce at their next call: the primary key
    PostgreSQL assigns to the next inserted booking, the result of the next
    [uuidv4()], and the base-36 digits of the next [Math.random()]. *)
Record Entropy := mkEntropy {
  nextBookingId : string;
  nextUuid : string;
  nextRandom : string
}.

Record World := mkWorld {
  db : Database;                   (* committed rows *)
  tx : option Database;            (* rows as seen by the open transaction *)
  redis : gmap string RedisEntry;
  clock : Z;                       (* new Date() / Date.now() *)
  env : ProcessEnv;
  entropy : Entropy;
  faults : Faults;
  jobs : list Job;                 (* queue contents, oldest first *)
  notifications : list NotificationPayload;  (* published to SNS *)
  published : list SlotUpdate;     (* pubsub, SLOT_UPDATED topic *)
  trace : list Call                (* oldest first *)
}.

Definition set_db (w : World) (d : Database) : World :=
  mkWorld d (tx w) (redis w) (clock w) (env w) (entropy w) (faults w)
          (jobs w) (notifications w) (published w) (trace w).

Definition set_tx (w : World) (t : option Database) : World :=
  mkWorld (db w) t (redis w) (clock w) (env w) (entropy w) (faults w)
          (jobs w) (notifications w) (published w) (trace w).

Definition set_redis (w : World) (r : gmap string RedisEntry) : World :=
  mkWorld (db w) (tx w) r (clock w) (env w) (entropy w) (faults w)
          (jobs w) (notifications w) (published w) (trace w).

Definition set_faults (w : World) (f : Faults) : World :=
  mkWorld (db w) (tx w) (redis w) (clock w) (env w) (entropy w) f
          (jobs w) (notifications w) (published w) (trace w).

Definition set_jobs (w : World) (j : list Job) : World :=
  mkWorld (db w) (tx w) (redis w) (clock w) (env w) (entropy w) (faults w)
          j (notifications w) (published w) (trace w).

Definition set_notifications (w : World) (n : list NotificationPayload) : World :=
  mkWorld (db w) (tx w) (redis w) (clock w) (env w) (entropy w) (faults w)
          (jobs w) n (published w) (trace w).

Definition set_published (w : World) (p : list SlotUpdate) : World :=
  mkWorld (db w) (tx w) (redis w) (clock w) (env w) (entropy w) (faults w)
          (jobs w) (notifications w) p (trace w).

Definition set_trace (w : World) (t : list Call) : World :=
  mkWorld (db w) (tx w) (redis w) (clock w) (env w) (entropy w) (faults w)
          (jobs w) (notifications w) (published w) t.

Definition set_bookings (d : Database) (b : gmap string Booking) : Database :=
  mkDatabase (users d) b (slots d).

Definition set_slots (d : Database) (s : gmap string Slot) : Database :=
  mkDatabase (users d) (bookings d) s.

Definition set_commitFaults (f : Faults) (c : list (option string)) : Faults :=
  mkFaults c (rollbackFault f) (cacheDelFault f) (addJobFault f) (snsFault f).

(* ===================================================================== *)
(** ** The monad of asynchronous methods *)
(* ===================================================================== *)

Inductive Completion (A : Type) :=
| Return (a : A)
| Throw (e : Error).
Arguments Return {A} a.
Arguments Throw {A} e.

Definition M (A : Type) : Type := World -> Completion A * World.

#[global] Instance M_ret : MRet M := fun A a w => (Return a, w).

#[global] Instance M_bind : MBind M := fun A B f m w =>
  match m w with
  | (Return a, w') => f a w'
  | (Throw e, w') => (Throw e, w')
  end.

Definition throw {A} (e : Error) : M A := fun w => (Throw e, w).

Definition gets {A} (f : World -> A) : M A := fun w => (Return (f w), w).

Definition modify (f : World -> World) : M unit := fun w => (Return tt, f w).

(** [if (c) { throw e; }] *)
Definition throwIf (c : bool) (e : Error) : M unit :=
  if c then throw e else mret tt.

(** [try { body } catch (error) { handler(error) }] *)
Definition tryCatch {A} (body : M A) (handler : Error -> M A) : M A := fun w =>
  match body w with
  | (Return a, w') => (Return a, w')
  | (Throw e, w') => handler e w'
  end.

(** [try { body } finally { fin }]: the completion of [body] stands unless
    [fin] itself throws. *)
Definition tryFinally {A} (body : M A) (fin : M unit) : M A := fun w =>
  match body w with
  | (c, w') =>
      match fin w' with
      | (Return _, w'') => (c, w'')
      | (Throw e, w'') => (Throw e, w'')
      end
  end.

Definition record (c : Call) : M unit :=
  modify (fun w => set_trace w (trace w ++ [c])).

(** A call that fails when the world says so. *)
Definition failWhen (f : option string) : M unit :=
  match f with
  | Some msg => throw (JsError msg)
  | None => mret tt
  end.

(** [new Date()] *)
Definition newDate : M Z := gets clock.

(* ===================================================================== *)
(** ** The Redis commands used by the sources *)
(* ===================================================================== *)

(** A key whose expiry instant has been reached is gone. *)
Definition entryLive (now : Z) (e : RedisEntry) : bool :=
  match expiresAt e with
  | Some t => now <? t
  | None => true
  end.

(** GET key *)
Definition redisGet (r : gmap string RedisEntry) (now : Z) (k : string)
  : option string :=
  match r !! k with
  | Some e => if entryLive now e then Some (entry_value e) else None
  | None => None
  end.

(** DEL key: the number of keys removed, and the store afterwards. *)
Definition redisDel (r : gmap string RedisEntry) (now : Z) (k : string)
  : Z * gmap string RedisEntry :=
  match redisGet r now k with
  | Some _ => (1, delete k r)
  | None => (0, r)
  end.

(** SET key value PX ttl NX: [true] for the reply OK, [false] for nil. *)
Definition redisSetPxNx (r : gmap string RedisEntry) (now : Z) (k v : string)
    (ttlMs : Z) : bool * gmap string RedisEntry :=
  match redisGet r now k with
  | Some _ => (false, r)
  | None => (true, <[k := mkRedisEntry v (Some (now + ttlMs))]> r)
  end.

(** The Lua script of [releaseLock], run by EVAL as one command:
<<
      if redis.call("get", KEYS[1]) == ARGV[1] then
        return redis.call("del", KEYS[1])
      else
        return 0
      end
>> *)
Definition releaseScript (r : gmap string RedisEntry) (now : Z)
    (key1 argv1 : string) : Z * gmap string RedisEntry :=
  if bool_decide (redisGet r now key1 = Some argv1)
  then redisDel r now key1
  else (0, r).

(* ===================================================================== *)
(** ** utils/redis.ts *)
(* ===================================================================== *)

Module RedisClient.

(** [static async acquireLock(key, ttlMs = 10000)] *)
Definition acquireLock (key : string) (ttlMs : Z) : M (option string) :=
  now ← gets clock;
  rnd ← gets (fun w => nextRandom (entropy w));
  let lockId := "lock:" +:+ pretty now +:+ ":" +:+ rnd in
  record (CallAcquireLock ("lock:" +:+ key));;
  r ← gets redis;
  let result := redisSetPxNx r now ("lock:" +:+ key) lockId ttlMs in
  modify (fun w => set_redis w result.2);;
  mret (if result.1 then Some lockId else None).

(** [static async releaseLock(key, lockId)] *)
Definition releaseLock (key lockId : string) : M bool :=
  record (CallReleaseLock ("lock:" +:+ key));;
  r ← gets redis;
  now ← gets clock;
  let result := releaseScript r now ("lock:" +:+ key) lockId in
  modify (fun w => set_redis w result.2);;
  mret (result.1 =? 1).

End RedisClient.

(* ===================================================================== *)
(** ** TypeORM: repositories and the query runner *)
(* ===================================================================== *)

(** [!o] for a value that is either an entity or null. *)
Definition isNull {A} (o : option A) : bool :=
  match o with
  | Some _ => false
  | None => true
  end.

(** The rows an open transaction sees. *)
Definition txView (w : World) : Database := default (db w) (tx w).

(** A transaction works on its own copy of the rows, taken when it starts;
    a commit that succeeds publishes the copy, a rollback drops it, and a
    commit that fails leaves the transaction open. *)
Module QueryRunner.

(** [queryRunner.connect()] *)
Definition connect : M unit := record CallConnect.

(** [queryRunner.startTransaction(isolation?)] *)
Definition startTransaction (isolation : string) : M unit :=
  record (CallStartTransaction isolation);;
  modify (fun w => set_tx w (Some (db w))).

(** [queryRunner.commitTransaction()] *)
Definition commitTransaction : M unit :=
  record CallCommit;;
  f ← gets faults;
  modify (fun w => set_faults w (set_commitFaults f (tail (commitFaults f))));;
  failWhen (mjoin (head (commitFaults f)));;
  modify (fun w => set_tx (set_db w (txView w)) None).

(** [queryRunner.rollbackTransaction()] *)
Definition rollbackTransaction : M unit :=
  record CallRollback;;
  f ← gets faults;
  failWhen (rollbackFault f);;
  modify (fun w => set_tx w None).

(** [queryRunner.release()] *)
Definition release : M unit := record CallRelease.

(** [manager.getRepository(Slot).createQueryBuilder('slot')
      .setLock('pessimistic_write').where('slot.id = :slotId').getOne()] *)
Definition getSlotForUpdate (slotId : string) : M (option Slot) :=
  gets (fun w => slots (txView w) !! slotId).

(** [manager.save(slot)] *)
Definition saveSlot (s : Slot) : M unit :=
  modify (fun w =>
    let d := txView w in
    set_tx w (Some (set_slots d (<[slot_id s := s]> (slots d))))).

(** [manager.save(booking)].  An entity without primary key is inserted:
    the [BeforeInsert] hook runs and the database assigns the key.  An
    entity that has one is written under that key.  The saved entity is
    returned.

    [slotRelation] is the [slot] property of the entity: [None] when the
    property is not set (an entity made by [manager.create], or loaded
    without the relation), [Some None] when the relation was loaded and is
    [null], [Some (Some s)] when it was loaded with its row.  The relation
    owns the join column: with the relation [null] the statement writes
    NULL into [slot_id], which the column (declared without [nullable])
    refuses, and [save] rejects. *)
Definition saveBooking (b : Booking) (slotRelation : option (option Slot))
  : M Booking :=
  match slotRelation with
  | Some None =>
      throw (JsError "null value in column slot_id violates not-null constraint")
  | _ =>
      e ← gets entropy;
      let '(key, b') :=
        match booking_id b with
        | None =>
            (nextBookingId e,
             Booking_set_id (Booking.generateConfirmationCode b (nextUuid e))
                            (Some (nextBookingId e)))
        | Some key => (key, b)
        end in
      modify (fun w =>
        let d := txView w in
        set_tx w (Some (set_bookings d (<[key := b']> (bookings d)))));;
      mret b'
  end.

End QueryRunner.

(** The rows selected by [{ where: { id, isActive: true } }]. *)
Definition findActiveUser (d : Database) (id : string) : option User :=
  match users d !! id with
  | Some u => if isActive u then Some u else None
  | None => None
  end.

Definition isConfirmedBookingOf (user : string) (b : Booking) : bool :=
  String.eqb (userId b) user && bool_decide (booking_status b = CONFIRMED).

(** The rows selected by [{ where: { userId, status: CONFIRMED } }]. *)
Definition confirmedBookingsOf (d : Database) (user : string) : list Booking :=
  List.filter (isConfirmedBookingOf user) (map_to_list (bookings d)).*2.

(** The rows selected by [{ where: { userId, slotId, status: CONFIRMED } }]. *)
Definition confirmedBookingsOn (d : Database) (user slot : string) : list Booking :=
  List.filter (fun b => isConfirmedBookingOf user b && String.eqb (slotId b) slot)
              (map_to_list (bookings d)).*2.

(** [this.userRepo.findOne({ where: { id: userId, isActive: true } })] *)
Definition userRepo_findOneActive (id : string) : M (option User) :=
  gets (fun w => findActiveUser (db w) id).

(** [this.bookingRepo.count({ where: { userId, status: CONFIRMED } })] *)
Definition bookingRepo_countConfirmed (user : string) : M Z :=
  gets (fun w => Z.of_nat (List.length (confirmedBookingsOf (db w) user))).

(** [this.bookingRepo.findOne({ where: { userId, slotId, status: CONFIRMED } })] *)
Definition bookingRepo_findConfirmed (user slot : string) : M (option Booking) :=
  gets (fun w => head (confirmedBookingsOn (db w) user slot)).

(** [this.bookingRepo.findOne({ where: { id: bookingId } })]: the row.  The
    relations [getBookingById] asks for are only handed on to the caller. *)
Definition bookingRepo_findOne (id : string) : M (option Booking) :=
  gets (fun w => bookings (db w) !! id).

(** [this.bookingRepo.findOne({ where: { id: bookingId }, relations: ['slot'] })]
    of [cancelBooking]: the row, and the [slot] relation loaded with it,
    which is [null] ([None]) when the slot row is missing. *)
Definition bookingRepo_findOneWithSlot (id : string)
  : M (option (Booking * option Slot)) :=
  gets (fun w =>
    match bookings (db w) !! id with
    | Some b => Some (b, slots (db w) !! slotId b)
    | None => None
    end).

(** [slotRepo.findOne({ where: { id } })] of the resolvers *)
Definition slotRepo_findOne (id : string) : M (option Slot) :=
  gets (fun w => slots (db w) !! id).

(** [slotRepo.save(slot)] of the resolvers: outside any transaction. *)
Definition slotRepo_save (s : Slot) : M unit :=
  modify (fun w => set_db w (set_slots (db w) (<[slot_id s := s]> (slots (db w))))).

(* ===================================================================== *)
(** ** services/QueueService.ts and services/NotificationService.ts *)
(* ===================================================================== *)

Module QueueService.

(** [async addJob(name, data, options?)] *)
Definition addJob (name : string) (data : list (string * string)) : M Job :=
  record (CallAddJob name);;
  f ← gets faults;
  failWhen (addJobFault f);;
  let job := mkJob name data in
  modify (fun w => set_jobs w (jobs w ++ [job]));;
  mret job.

End QueueService.

Module NotificationService.

(** [async send(payload)]: a failure of [sns.publish] is caught and
    logged ("Don't throw -- notifications should not break the booking
    flow"). *)
Definition send (payload : NotificationPayload) : M unit :=
  tryCatch
    (topicArn ← gets (fun w => SNS_TOPIC_ARN (env w));
     if String.eqb topicArn "" then mret tt
     else
       record CallSnsPublish;;
       f ← gets faults;
       failWhen (snsFault f);;
       modify (fun w => set_notifications w (notifications w ++ [payload])))
    (fun _ => mret tt).

End NotificationService.

(* ===================================================================== *)
(** ** services/BookingService.ts *)
(* ===================================================================== *)

Record CreateBookingInput := mkCreateBookingInput {
  create_userId : string;
  create_slotId : string;
  create_venueId : string;
  create_guestCount : Z;
  create_notes : option string
}.

Record CancelBookingInput := mkCancelBookingInput {
  cancel_bookingId : string;
  cancel_userId : string;
  cancel_reason : option string
}.

Module BookingService.

(** [private async invalidateSlotCache(venueId, date)] *)
Definition invalidateSlotCache (venueId date : string) : M unit :=
  let cacheKey := "slots:" +:+ venueId +:+ ":" +:+ date in
  record (CallCacheDel cacheKey);;
  f ← gets faults;
  failWhen (cacheDelFault f);;
  modify (fun w => set_redis w (redisDel (redis w) (clock w) cacheKey).2).

(** [slot.price ? Number(slot.price) * guestCount : undefined].  The
    [decimal] column is loaded as a string, and a string of digits is
    truthy also when it reads 0.00: only a [null] price gives
    [undefined]. *)
Definition totalPriceOf (slot : Slot) (guestCount : Z) : option Z :=
  match price slot with
  | Some p => Some (p * guestCount)
  | None => None
  end.

(** The second half of the [try] block of [createBooking], from the
    comment "Create booking" to [return booking]; [slot] is the row read
    under the lock. *)
Definition createBookingPersist (input : CreateBookingInput) (slot : Slot)
  : M Booking :=
  let userId := create_userId input in
  let slotId := create_slotId input in
  let venueId := create_venueId input in
  let guestCount := create_guestCount input in
  (* Create booking *)
  confirmedAt ← newDate;
  booking ← QueryRunner.saveBooking
    (mkBooking None userId slotId venueId None CONFIRMED guestCount
       (create_notes input) (date slot) None None (Some confirmedAt) None
       (totalPriceOf slot guestCount))
    None;
  (* Update slot capacity *)
  let slot1 :=
    Slot_set_remainingCapacity slot (remainingCapacity slot - guestCount) in
  let slot2 :=
    if remainingCapacity slot1 =? 0 then Slot_set_status slot1 BOOKED
    else slot1 in
  QueryRunner.saveSlot slot2;;
  QueryRunner.commitTransaction;;
  (* Invalidate cache *)
  invalidateSlotCache venueId (date slot2);;
  (* Queue async tasks *)
  QueueService.addJob "booking:confirmed"
    [("bookingId", default "" (booking_id booking)); ("userId", userId);
     ("confirmationCode", default "" (confirmationCode booking))];;
  (* Send notification *)
  NotificationService.send
    (mkNotification BOOKING_CONFIRMED userId
       [("bookingId", default "" (booking_id booking));
        ("confirmationCode", default "" (confirmationCode booking));
        ("date", date slot2);
        ("startTime", pretty (startTime slot2))]);;
  mret booking.

(** The [try] block of [createBooking]: the checks, then
    [createBookingPersist]. *)
Definition createBookingBody (input : CreateBookingInput) : M Booking :=
  let userId := create_userId input in
  let slotId := create_slotId input in
  let guestCount := create_guestCount input in
  (* Verify user exists and is active *)
  user ← userRepo_findOneActive userId;
  throwIf (isNull user)
    (BookingError "User not found or inactive" "USER_NOT_FOUND" 404);;
  (* Check user's concurrent booking limit *)
  activeBookings ← bookingRepo_countConfirmed userId;
  maxConcurrent ← gets (fun w =>
    envInt (MAX_CONCURRENT_BOOKINGS_PER_USER (env w)) 5);
  throwIf (maxConcurrent <=? activeBookings)
    (BookingError
       ("Maximum concurrent bookings (" +:+ pretty maxConcurrent +:+ ") reached")
       "MAX_BOOKINGS_REACHED" 429);;
  (* Fetch slot with row-level lock *)
  found ← QueryRunner.getSlotForUpdate slotId;
  match found with
  | None => throw (BookingError "Slot not found" "SLOT_NOT_FOUND" 404)
  | Some slot =>
    throwIf (bool_decide (slot_status slot = BLOCKED))
      (BookingError "This slot is not available for booking" "SLOT_BLOCKED" 400);;
    throwIf (negb (Slot.canAccommodate slot guestCount))
      (BookingError
         ("Insufficient capacity. Available: " +:+ pretty (remainingCapacity slot)
          +:+ ", Requested: " +:+ pretty guestCount)
         "INSUFFICIENT_CAPACITY" 400);;
    now ← newDate;
    throwIf (Slot.isPast slot now)
      (BookingError "Cannot book a slot in the past" "SLOT_IN_PAST" 400);;
    (* Check advance booking window; [setDate(getDate() + n)] moves the
       date by n calendar days, taken here as n days of 24 hours *)
    maxAdvanceDays ← gets (fun w => envInt (MAX_BOOKING_ADVANCE_DAYS (env w)) 90);
    maxDate ← (now' ← newDate; mret (now' + maxAdvanceDays * MS_PER_DAY));
    throwIf (maxDate <? startTime slot)
      (BookingError
         ("Cannot book more than " +:+ pretty maxAdvanceDays +:+ " days in advance")
         "ADVANCE_LIMIT_EXCEEDED" 400);;
    (* Check for duplicate booking *)
    existingBooking ← bookingRepo_findConfirmed userId slotId;
    throwIf (negb (isNull existingBooking))
      (BookingError "You already have a booking for this slot"
         "DUPLICATE_BOOKING" 409);;
    createBookingPersist input slot
  end.

(** [async createBooking(input)] *)
Definition createBooking (input : CreateBookingInput) : M Booking :=
  (* Acquire distributed lock to prevent double-booking *)
  let lockKey := "booking:slot:" +:+ create_slotId input in
  lockId ← RedisClient.acquireLock lockKey 15000;
  match lockId with
  | None =>
      throw (BookingError
               "This slot is currently being processed. Please try again."
               "SLOT_LOCKED" 409)
  | Some lockId =>
      QueryRunner.connect;;
      QueryRunner.startTransaction "SERIALIZABLE";;
      tryFinally
        (tryCatch (createBookingBody input)
           (fun error => QueryRunner.rollbackTransaction;; throw error))
        (QueryRunner.release;;
         RedisClient.releaseLock lockKey lockId;;
         mret tt)
  end.

(** The body of the [try] block of [cancelBooking]; [booking] is the
    entity [findOne] returned and [slotRelation] its [slot] property. *)
Definition cancelBookingBody (booking : Booking) (slotRelation : option Slot)
    (userId : string) (reason : option string) : M Booking :=
  now ← newDate;
  booking ← QueryRunner.saveBooking (Booking_set_cancelled booking now reason)
                                    (Some slotRelation);
  (* Restore slot capacity *)
  found ← QueryRunner.getSlotForUpdate (slotId booking);
  match found with
  | Some slot =>
      let slot1 :=
        Slot_set_remainingCapacity slot
          (remainingCapacity slot + guestCount booking) in
      let slot2 :=
        if bool_decide (slot_status slot1 = BOOKED)
           && (0 <? remainingCapacity slot1)
        then Slot_set_status slot1 AVAILABLE
        else slot1 in
      QueryRunner.saveSlot slot2
  | None => mret tt
  end;;
  QueryRunner.commitTransaction;;
  (* Invalidate cache *)
  invalidateSlotCache (booking_venueId booking) (bookingDate booking);;
  (* Queue refund / notification processing *)
  QueueService.addJob "booking:cancelled"
    [("bookingId", default "" (booking_id booking)); ("userId", userId);
     ("slotId", slotId booking)];;
  NotificationService.send
    (mkNotification BOOKING_CANCELLED userId
       [("bookingId", default "" (booking_id booking));
        ("confirmationCode", default "" (confirmationCode booking))]);;
  mret booking.

(** [async cancelBooking(input)] *)
Definition cancelBooking (input : CancelBookingInput) : M Booking :=
  found ← bookingRepo_findOneWithSlot (cancel_bookingId input);
  match found with
  | None => throw (BookingError "Booking not found" "BOOKING_NOT_FOUND" 404)
  | Some loaded =>
      let booking := loaded.1 in
      throwIf (negb (String.eqb (userId booking) (cancel_userId input)))
        (BookingError "Not authorized to cancel this booking" "UNAUTHORIZED" 403);;
      cancellable ← gets (fun w => Booking.isCancellable booking (env w) (clock w));
      throwIf (negb cancellable)
        (BookingError "This booking can no longer be cancelled"
           "CANCELLATION_NOT_ALLOWED" 400);;
      QueryRunner.connect;;
      QueryRunner.startTransaction "";;
      tryFinally
        (tryCatch (cancelBookingBody booking loaded.2 (cancel_userId input)
                                     (cancel_reason input))
           (fun error => QueryRunner.rollbackTransaction;; throw error))
        QueryRunner.release
  end.

End BookingService.

(* ===================================================================== *)
(** ** middleware/auth.ts *)
(* ===================================================================== *)

Record AuthPayload := mkAuthPayload {
  auth_userId : string;
  auth_role : UserRole
}.

Record AuthenticatedContext := mkAuthContext {
  auth_user : option AuthPayload;
  isAuthenticated : bool
}.

Definition UserRole_toString (r : UserRole) : string :=
  match r with
  | GUEST => "guest"
  | MEMBER => "member"
  | ADMIN => "admin"
  end.

(** [requireAuth(context)]; the payload is returned for the callers that go
    on to read [context.user!]. *)
Definition requireAuth (context : AuthenticatedContext) : M AuthPayload :=
  match isAuthenticated context, auth_user context with
  | true, Some user => mret user
  | _, _ => throw (JsError "Authentication required")
  end.

(** [requireRole(context, ...roles)] *)
Definition requireRole (context : AuthenticatedContext) (roles : list UserRole)
  : M AuthPayload :=
  user ← requireAuth context;
  throwIf (negb (bool_decide (auth_role user ∈ roles)))
    (JsError ("Insufficient permissions. Required: "
              +:+ String.concat " or " (UserRole_toString <$> roles)));;
  mret user.

(* ===================================================================== *)
(** ** schema/resolvers.ts *)
(* ===================================================================== *)

(** [function handleError(error): never] *)
Definition handleError {A} (error : Error) : M A :=
  match error with
  | BookingError message code statusCode =>
      throw (GraphQLError message code (Some statusCode))
  | GraphQLError _ _ _ => throw error
  | JsError _ =>
      throw (GraphQLError "An unexpected error occurred" "INTERNAL_SERVER_ERROR"
                          None)
  end.

(** [pubsub.publish(SLOT_UPDATED, { slotAvailabilityChanged: {..} })] *)
Definition publishSlotUpdated (slot : Slot) : M unit :=
  modify (fun w =>
    set_published w
      (published w ++ [mkSlotUpdate (slot_id slot) (slot_venueId slot)
                                    (slot_status slot) (remainingCapacity slot)])).

Module Mutation.

(** [cancelBooking: async (_, { input }, ctx)] *)
Definition cancelBooking (bookingId : string) (reason : option string)
    (ctx : AuthenticatedContext) : M Booking :=
  user ← requireAuth ctx;
  tryCatch
    (booking ← BookingService.cancelBooking
                 (mkCancelBookingInput bookingId (auth_userId user) reason);
     found ← slotRepo_findOne (slotId booking);
     match found with
     | Some slot => publishSlotUpdated slot
     | None => mret tt
     end;;
     mret booking)
    handleError.

(** [blockSlot: async (_, { slotId, reason }, ctx)] *)
Definition blockSlot (slotId : string) (reason : option string)
    (ctx : AuthenticatedContext) : M Slot :=
  user ← requireRole ctx [ADMIN];
  found ← slotRepo_findOne slotId;
  match found with
  | None => throw (GraphQLError "Slot not found" "NOT_FOUND" None)
  | Some slot =>
      let slot1 := Slot_set_status slot BLOCKED in
      let slot2 :=
        Slot_set_metadata slot1
          (<["blockedBy" := Some (auth_userId user)]>
             (<["blockReason" := reason]> (slot_metadata slot1))) in
      slotRepo_save slot2;;
      mret slot2
  end.

(** [unblockSlot: async (_, { slotId }, ctx)] *)
Definition unblockSlot (slotId : string) (ctx : AuthenticatedContext) : M Slot :=
  requireRole ctx [ADMIN];;
  found ← slotRepo_findOne slotId;
  match found with
  | None => throw (GraphQLError "Slot not found" "NOT_FOUND" None)
  | Some slot =>
      let slot1 := Slot_set_status slot AVAILABLE in
      slotRepo_save slot1;;
      mret slot1
  end.

End Mutation.

(* ===================================================================== *)
(** ** utils/redis.ts: the reconnection policy *)
(* ===================================================================== *)

(** [retryStrategy(times)]: [None] is the [null] that makes the client give
    up, otherwise the delay in milliseconds before the next attempt. *)
Definition retryStrategy (times : Z) : option Z :=
  if 10 <? times then None
  else
    let delay := Z.min (times * 200) 5000 in
    Some delay.

(* ===================================================================== *)
(** ** services/BookingService.ts: the read operations *)
(* ===================================================================== *)

(** SET key value EX seconds *)
Definition redisSetEx (r : gmap string RedisEntry) (now : Z) (k v : string)
    (seconds : Z) : gmap string RedisEntry :=
  <[k := mkRedisEntry v (Some (now + seconds * 1000))]> r.

(** The [where] clauses of the storage query of [getAvailableSlots]. *)
Definition isListed (venueId day : string) (now : Z) (s : Slot) : bool :=
  String.eqb (slot_venueId s) venueId
  && String.eqb (date s) day
  && bool_decide (slot_status s = AVAILABLE)
  && (0 <? remainingCapacity s)
  && (now <? startTime s).

(** The order of [orderBy('slot.startTime', 'ASC')]. *)
Definition startsNoLater (a b : Slot) : Prop := startTime a <= startTime b.

#[global] Instance startsNoLater_dec : RelDecision startsNoLater.
Proof. intros a b. unfold startsNoLater. apply _. Defined.

(** [this.slotRepo.createQueryBuilder('slot').where(..).andWhere(..)
      .orderBy('slot.startTime', 'ASC').getMany()] *)
Definition availableSlotsQuery (d : Database) (venueId day : string) (now : Z)
  : list Slot :=
  merge_sort startsNoLater
             (List.filter (isListed venueId day now) (map_to_list (slots d)).*2).

(** [getBookingById] and [getBookingByConfirmationCode] load the [user] and
    [slot] relations with the booking; the booking row is what they return
    here. *)

(** [async getBookingById(bookingId)] *)
Definition getBookingById (bookingId : string) : M (option Booking) :=
  bookingRepo_findOne bookingId.

(** [async getBookingByConfirmationCode(code)] *)
Definition getBookingByConfirmationCode (code : string) : M (option Booking) :=
  gets (fun w =>
    head (List.filter (fun b => bool_decide (confirmationCode b = Some code))
                      (map_to_list (bookings (db w))).*2)).

Section AvailabilityCache.

(** [JSON.stringify] on a list of slots, and [JSON.parse]: the value it
    decodes, or the error it throws. *)
Variable JSON_stringify : list Slot -> string.
Variable JSON_parse : string -> Error + list Slot.

(** [return JSON.parse(cached)] *)
Definition returnParsed (cached : string) : M (list Slot) :=
  match JSON_parse cached with
  | inr slots => mret slots
  | inl error => throw error
  end.

(** [async getAvailableSlots(venueId, date)] *)
Definition getAvailableSlots (venueId day : string) : M (list Slot) :=
  let cacheKey := "slots:" +:+ venueId +:+ ":" +:+ day in
  cached ← gets (fun w => redisGet (redis w) (clock w) cacheKey);
  match cached with
  | Some json =>
      if negb (String.eqb json "") then returnParsed json
      else
        now ← newDate;
        slots ← gets (fun w => availableSlotsQuery (db w) venueId day now);
        (* Cache for 60 seconds *)
        modify (fun w =>
          set_redis w (redisSetEx (redis w) (clock w) cacheKey
                                  (JSON_stringify slots) 60));;
        mret slots
  | None =>
      now ← newDate;
      slots ← gets (fun w => availableSlotsQuery (db w) venueId day now);
      (* Cache for 60 seconds *)
      modify (fun w =>
        set_redis w (redisSetEx (redis w) (clock w) cacheKey
                                (JSON_stringify slots) 60));;
      mret slots
  end.

End AvailabilityCache.

(* ===================================================================== *)
(** ** services/BookingService.ts: [createBooking] and its connection *)
(* ===================================================================== *)

Section RunnerConnection.

(** [queryRunner.connect()], [queryRunner.startTransaction('SERIALIZABLE')]
    and [queryRunner.release()] as some connection answers them: each may
    reject.  [QueryRunner.connect], [QueryRunner.startTransaction] and
    [QueryRunner.release] are the answers of a connection in good order. *)
Variable connect : M unit.
Variable startTransaction : M unit.
Variable release : M unit.

(** [async createBooking(input)] on that connection: the first two calls
    come after [acquireLock] and before the [try], the third one opens the
    [finally] block, before [releaseLock]. *)
Definition createBookingWith (input : CreateBookingInput) : M Booking :=
  (* Acquire distributed lock to prevent double-booking *)
  let lockKey := "booking:slot:" +:+ create_slotId input in
  lockId ← RedisClient.acquireLock lockKey 15000;
  match lockId with
  | None =>
      throw (BookingError
               "This slot is currently being processed. Please try again."
               "SLOT_LOCKED" 409)
  | Some lockId =>
      connect;;
      startTransaction;;
      tryFinally
        (tryCatch (BookingService.createBookingBody input)
           (fun error => QueryRunner.rollbackTransaction;; throw error))
        (release;;
         RedisClient.releaseLock lockKey lockId;;
         mret tt)
  end.

End RunnerConnection.

(* ===================================================================== *)
(** ** schema/resolvers.ts: queries *)
(* ===================================================================== *)

Module Query.

(** [booking: async (_, { id }, ctx)] *)
Definition booking (id : string) (ctx : AuthenticatedContext) : M Booking :=
  user ← requireAuth ctx;
  found ← getBookingById id;
  match found with
  | None => throw (GraphQLError "Booking not found" "NOT_FOUND" None)
  | Some booking =>
      (* Users can only view their own bookings unless admin *)
      throwIf (negb (String.eqb (userId booking) (auth_userId user))
               && negb (bool_decide (auth_role user = ADMIN)))
        (GraphQLError "Not authorized" "FORBIDDEN" None);;
      mret booking
  end.

(** [bookingByConfirmationCode: async (_, { code }, ctx)] *)
Definition bookingByConfirmationCode (code : string)
    (ctx : AuthenticatedContext) : M (option Booking) :=
  requireAuth ctx;;
  getBookingByConfirmationCode code.

End Query.

(* ===================================================================== *)
(** ** middleware/auth.ts: the request context *)
(* ===================================================================== *)

(** [s.split(sep)] for a separator of one character. *)
Fixpoint splitOn (sep : ascii) (s : string) : list string :=
  match s with
  | EmptyString => [""]
  | String c s' =>
      if Ascii.eqb c sep then "" :: splitOn sep s'
      else
        match splitOn sep s' with
        | part :: parts => String c part :: parts
        | [] => [String c ""]
        end
  end.

(** [extractTokenFromHeader(authHeader?)] *)
Definition extractTokenFromHeader (authHeader : option string) : option string :=
  match authHeader with
  | None => None
  | Some header =>
      if String.eqb header "" then None
      else
        match splitOn " " header with
        | [scheme; token] =>
            if String.eqb scheme "Bearer" then Some token else None
        | _ => None
        end
  end.

Section AuthContext.

(** [verifyToken(token)]: the payload of a token that [jwt.verify] accepts,
    [None] when it throws. *)
Variable verifyToken : string -> option AuthPayload.

(** [async getAuthContext(req)], as a function of
    [req.headers.authorization]. *)
Definition getAuthContext (authorization : option string) : AuthenticatedContext :=
  match extractTokenFromHeader authorization with
  | None => mkAuthContext None false
  | Some token =>
      if String.eqb token "" then mkAuthContext None false
      else
        match verifyToken token with
        | Some payload => mkAuthContext (Some payload) true
        | None => mkAuthContext None false
        end
  end.

End AuthContext.
(* ===================================================================== *)
(** * Vocabulary of the statements, and proof automation *)
(* ===================================================================== *)

(** The machine code of a domain error ([BookingError.code], or
    [extensions.code] of a [GraphQLError]); other errors have none. *)
Definition errorCode (e : Error) : option string :=
  match e with
  | BookingError _ code _ => Some code
  | GraphQLError _ code _ => Some code
  | JsError _ => None
  end.

(** The machine code of the error a completion throws, if it throws one. *)
Definition thrownCode {A} (c : Completion A) : option string :=
  match c with
  | Throw e => errorCode e
  | Return _ => None
  end.

(** [RaisesAt P m w]: if [m], run in world [w], throws, the error satisfies
    [P].  [Raises P m]: the same in every world. *)
Definition RaisesAt {A} (P : Error -> Prop) (m : M A) (w : World) : Prop :=
  forall e w', m w = (Throw e, w') -> P e.

Definition Raises {A} (P : Error -> Prop) (m : M A) : Prop :=
  forall w, RaisesAt P m w.

(** The Redis key that guards a slot. *)
Definition slotLockKey (slotId : string) : string :=
  "lock:" +:+ ("booking:slot:" +:+ slotId).

(** The booking [createBooking] mints for [input] on [slot] in world [w]. *)
Definition mintedBooking (input : CreateBookingInput) (slot : Slot) (w : World)
  : Booking :=
  mkBooking (Some (nextBookingId (entropy w)))
    (create_userId input) (create_slotId input) (create_venueId input)
    (Some ("RSV-" +:+ toUpperCase (substring 0 8 (removeHyphens (nextUuid (entropy w))))))
    CONFIRMED (create_guestCount input) (create_notes input) (date slot)
    None None (Some (clock w)) None
    (BookingService.totalPriceOf slot (create_guestCount input)).

(** The slot row [createBooking] writes back after a debit of [g]. *)
Definition debitedSlot (slot : Slot) (g : Z) : Slot :=
  if remainingCapacity slot - g =? 0
  then Slot_set_status (Slot_set_remainingCapacity slot (remainingCapacity slot - g)) BOOKED
  else Slot_set_remainingCapacity slot (remainingCapacity slot - g).

(** The slot row [cancelBooking] writes back after a credit of [g]. *)
Definition creditedSlot (slot : Slot) (g : Z) : Slot :=
  if bool_decide (slot_status slot = BOOKED) && (0 <? remainingCapacity slot + g)
  then Slot_set_status (Slot_set_remainingCapacity slot (remainingCapacity slot + g)) AVAILABLE
  else Slot_set_remainingCapacity slot (remainingCapacity slot + g).

(** ** Symbolic execution of the monadic code *)

Ltac munfold :=
  cbv beta iota zeta delta
    [mbind M_bind mret M_ret gets modify throw throwIf record failWhen newDate
     tryCatch tryFinally txView default from_option id
     userRepo_findOneActive bookingRepo_countConfirmed bookingRepo_findConfirmed
     bookingRepo_findOne bookingRepo_findOneWithSlot slotRepo_findOne slotRepo_save
     QueryRunner.connect QueryRunner.startTransaction QueryRunner.commitTransaction
     QueryRunner.rollbackTransaction QueryRunner.release QueryRunner.getSlotForUpdate
     QueryRunner.saveSlot QueryRunner.saveBooking
     QueueService.addJob NotificationService.send
     BookingService.invalidateSlotCache BookingService.createBookingPersist
     BookingService.createBookingBody BookingService.createBooking
     BookingService.cancelBookingBody BookingService.cancelBooking
     RedisClient.acquireLock RedisClient.releaseLock
     requireAuth requireRole handleError publishSlotUpdated
     Mutation.cancelBooking Mutation.blockSlot Mutation.unblockSlot].

Ltac munfold_in H :=
  cbv beta iota zeta delta
    [mbind M_bind mret M_ret gets modify throw throwIf record failWhen newDate
     tryCatch tryFinally txView default from_option id
     userRepo_findOneActive bookingRepo_countConfirmed bookingRepo_findConfirmed
     bookingRepo_findOne bookingRepo_findOneWithSlot slotRepo_findOne slotRepo_save
     QueryRunner.connect QueryRunner.startTransaction QueryRunner.commitTransaction
     QueryRunner.rollbackTransaction QueryRunner.release QueryRunner.getSlotForUpdate
     QueryRunner.saveSlot QueryRunner.saveBooking
     QueueService.addJob NotificationService.send
     BookingService.invalidateSlotCache BookingService.createBookingPersist
     BookingService.createBookingBody BookingService.createBooking
     BookingService.cancelBookingBody BookingService.cancelBooking
     RedisClient.acquireLock RedisClient.releaseLock
     requireAuth requireRole handleError publishSlotUpdated
     Mutation.cancelBooking Mutation.blockSlot Mutation.unblockSlot] in H.

(** The same, leaving [createBookingPersist] folded. *)
Ltac munfold_checks :=
  cbv beta iota zeta delta
    [mbind M_bind mret M_ret gets modify throw throwIf record failWhen newDate
     tryCatch tryFinally txView default from_option id
     userRepo_findOneActive bookingRepo_countConfirmed bookingRepo_findConfirmed
     QueryRunner.connect QueryRunner.startTransaction
     QueryRunner.rollbackTransaction QueryRunner.release QueryRunner.getSlotForUpdate
     BookingService.createBookingBody BookingService.createBooking
     RedisClient.acquireLock RedisClient.releaseLock].

Ltac wsimpl :=
  cbn [db tx redis clock env entropy faults jobs notifications published trace
       set_db set_tx set_redis set_faults set_jobs set_notifications
       set_published set_trace fst snd isNull thrownCode errorCode
       commitFaults rollbackFault cacheDelFault addJobFault snsFault
       set_commitFaults users bookings slots set_bookings set_slots
       booking_id userId slotId booking_venueId confirmationCode booking_status
       guestCount notes bookingDate cancelledAt cancellationReason confirmedAt
       completedAt totalPrice
       Booking_set_id Booking_set_cancelled Booking_set_confirmationCode
       Booking.generateConfirmationCode Booking.hasConfirmationCode
       slot_id slot_venueId date startTime endTime capacity remainingCapacity
       slot_status price slot_metadata heldUntil
       Slot_set_remainingCapacity Slot_set_status Slot_set_metadata
       cancel_bookingId cancel_userId cancel_reason
       create_userId create_slotId create_venueId create_guestCount create_notes
       negb orb head mjoin option_join].

Ltac wsimpl_in H :=
  cbn [db tx redis clock env entropy faults jobs notifications published trace
       set_db set_tx set_redis set_faults set_jobs set_notifications
       set_published set_trace fst snd isNull thrownCode errorCode
       commitFaults rollbackFault cacheDelFault addJobFault snsFault
       set_commitFaults users bookings slots set_bookings set_slots
       booking_id userId slotId booking_venueId confirmationCode booking_status
       guestCount notes bookingDate cancelledAt cancellationReason confirmedAt
       completedAt totalPrice
       Booking_set_id Booking_set_cancelled Booking_set_confirmationCode
       Booking.generateConfirmationCode Booking.hasConfirmationCode
       slot_id slot_venueId date startTime endTime capacity remainingCapacity
       slot_status price slot_metadata heldUntil
       Slot_set_remainingCapacity Slot_set_status Slot_set_metadata
       cancel_bookingId cancel_userId cancel_reason
       create_userId create_slotId create_venueId create_guestCount create_notes
       negb orb head mjoin option_join] in H.

Ltac mrun := munfold; wsimpl.
Ltac mrun_in H := munfold_in H; wsimpl_in H.

(** Case analysis on a test that blocks the evaluation of [H]; the branches
    that end in a completion other than the one [H] asserts are closed. *)
Ltac mcase_in H :=
  match type of H with
  | context [if ?c then _ else _] => destruct c eqn:?
  | context [match ?o with Some _ => _ | None => _ end] => destruct o eqn:?
  end; mrun_in H; try discriminate H.


(** ** Sample data for the concrete runs *)

Definition sampleUser : User := mkUser "u-1" MEMBER true.

Definition sampleSlot : Slot :=
  mkSlot "s-1" "v-1" "2026-03-01" 200000000 203600000 4 4 AVAILABLE None ∅ None.

(** A world with one active member and one free slot that starts 48 hours
    (172 800 000 ms) after the current instant. *)
Definition sampleWorld : World :=
  mkWorld (mkDatabase {["u-1" := sampleUser]} ∅ {["s-1" := sampleSlot]})
          None ∅ 27200000 defaultEnv
          (mkEntropy "b-1" "0a1b2c3d-4e5f-4a6b-8c7d-9e8f7a6b5c4d" "k3j2x")
          noFaults [] [] [] [].

Definition sampleInput : CreateBookingInput :=
  mkCreateBookingInput "u-1" "s-1" "v-1" 2 None.

Definition set_clock (w : World) (t : Z) : World :=
  mkWorld (db w) (tx w) (redis w) t (env w) (entropy w) (faults w)
          (jobs w) (notifications w) (published w) (trace w).

(** [sampleWorld] after user u-1 booked two of the four places of s-1. *)
Definition sampleBooked : World :=
  (BookingService.createBooking sampleInput sampleWorld).2.

Definition sampleBooking : Booking :=
  mintedBooking sampleInput sampleSlot sampleWorld.

(** The owner cancels booking b-1. *)
Definition sampleCancel : CancelBookingInput :=
  mkCancelBookingInput "b-1" "u-1" (Some "change of plans").

(** The same database twelve hours (43 200 000 ms) before the slot starts. *)
Definition sampleBookedLate : World := set_clock sampleBooked 156800000.




(** [sampleWorld] with Redis unreachable when the cache is invalidated, and
    with the queue unreachable when the job is added. *)
Definition cacheDownWorld : World :=
  set_faults sampleWorld
    (mkFaults [] None (Some "connect ECONNREFUSED 127.0.0.1:6379") None None).

Definition queueDownWorld : World :=
  set_faults sampleWorld
    (mkFaults [] None None (Some "Connection is closed.") None).

(** P4 of the specification: outside BLOCKED, the status is BOOKED exactly
    when no capacity remains. *)
Definition statusCapacityConsistent (s : Slot) : Prop :=
  slot_status s = BLOCKED \/ (slot_status s = BOOKED <-> remainingCapacity s = 0).

Definition adminContext : AuthenticatedContext :=
  mkAuthContext (Some (mkAuthPayload "admin-1" ADMIN)) true.

Definition memberContext (user : string) : AuthenticatedContext :=
  mkAuthContext (Some (mkAuthPayload user MEMBER)) true.

(** [sampleWorld] after u-1 booked all four places of s-1 and an
    administrator then blocked the slot. *)
Definition fullInput : CreateBookingInput :=
  mkCreateBookingInput "u-1" "s-1" "v-1" 4 None.

Definition sampleFull : World :=
  (BookingService.createBooking fullInput sampleWorld).2.

Definition sampleFullBlocked : World :=
  (Mutation.blockSlot "s-1" (Some "maintenance") adminContext sampleFull).2.

Definition fullBlockedSlot : Slot :=
  mkSlot "s-1" "v-1" "2026-03-01" 200000000 203600000 4 0 BLOCKED None
         (<["blockedBy" := Some "admin-1"]> (<["blockReason" := Some "maintenance"]> ∅))
         None.

(** [sampleWorld] where the first commit hits a serialization conflict and a
    second one would go through, and where two commits in a row would
    conflict. *)
Definition conflictOnceWorld : World :=
  set_faults sampleWorld
    (mkFaults [Some "could not serialize access due to concurrent update"; None]
              None None None None).

Definition conflictTwiceWorld : World :=
  set_faults sampleWorld
    (mkFaults [Some "could not serialize access due to concurrent update";
               Some "could not serialize access due to concurrent update"]
              None None None None).

(** How many transactions a trace opens, and how many commits it attempts. *)
Definition transactionsStarted (t : list Call) : nat :=
  List.length (List.filter (fun c => match c with
                                     | CallStartTransaction _ => true
                                     | _ => false
                                     end) t).

Definition commitsAttempted (t : list Call) : nat :=
  List.length (List.filter (fun c => match c with
                                     | CallCommit => true
                                     | _ => false
                                     end) t).

(** A slot that is held: five places left, none of them bookable. *)
Definition heldSlot : Slot :=
  mkSlot "s-2" "v-1" "2026-03-01" 200000000 203600000 8 5 HELD None ∅
         (Some 27500000).

Definition heldWorld : World :=
  mkWorld (mkDatabase {["u-1" := sampleUser]} ∅ {["s-2" := heldSlot]})
          None ∅ 27200000 defaultEnv
          (mkEntropy "b-1" "0a1b2c3d-4e5f-4a6b-8c7d-9e8f7a6b5c4d" "k3j2x")
          noFaults [] [] [] [].

Definition heldInput : CreateBookingInput :=
  mkCreateBookingInput "u-1" "s-2" "v-1" 2 None.

(* ===================================================================== *)
(** * Further vocabulary and sample data *)
(* ===================================================================== *)

(** The Redis key of the lock named [key]. *)
Definition lockKeyOf (key : string) : string := "lock:" +:+ key.

(** [sampleWorld] after a caller locked slot s-1 for 15 seconds, and the
    same world five seconds, and twenty seconds, later. *)
Definition sampleLocked : World :=
  (RedisClient.acquireLock "booking:slot:s-1" 15000 sampleWorld).2.

Definition sampleLockToken : string := "lock:27200000:k3j2x".

Definition sampleLockedSoon : World := set_clock sampleLocked 27205000.

Definition sampleLockedLate : World := set_clock sampleLocked 27220000.

(** The Redis key under which the listing of a venue and day is cached. *)
Definition cacheKeyOf (venueId day : string) : string :=
  "slots:" +:+ venueId +:+ ":" +:+ day.

(** The places a booking takes from slot [slot]: its guest count while it
    is CONFIRMED, nothing otherwise. *)
Definition placesTaken (slot : string) (b : Booking) : Z :=
  if bool_decide (booking_status b = CONFIRMED) && String.eqb (slotId b) slot
  then guestCount b else 0.

Definition placesTakenBy (slot : string) (l : list Booking) : Z :=
  foldr (fun b acc => placesTaken slot b + acc) 0 l.

(** The guests of the CONFIRMED bookings of a slot, summed. *)
Definition confirmedGuestsOn (d : Database) (slot : string) : Z :=
  placesTakenBy slot (map_to_list (bookings d)).*2.

(** [Keeps I m]: the property [I] of the world, if it holds when [m]
    starts, holds when [m] ends, whether [m] returns or throws. *)
Definition Keeps {A} (I : World -> Prop) (m : M A) : Prop :=
  forall w, I w -> I (m w).2.






(** A codec for the concrete runs: it writes the keys of the slots, and
    reads back the one document it knows. *)
Definition sampleStringify (l : list Slot) : string :=
  "[" +:+ String.concat "," (slot_id <$> l) +:+ "]".

Definition sampleParse (s : string) : Error + list Slot :=
  if String.eqb s "[s-1]" then inr [sampleSlot]
  else inl (JsError "Unexpected token in JSON").

(** [sampleWorld] after the slots of venue v-1 on 2026-03-01 were listed. *)
Definition sampleListed : World :=
  (getAvailableSlots sampleStringify sampleParse "v-1" "2026-03-01" sampleWorld).2.

(** Whether the character [c] occurs in [s]. *)
Fixpoint occursIn (c : ascii) (s : string) : bool :=
  match s with
  | EmptyString => false
  | String a s' => Ascii.eqb a c || occursIn c s'
  end.

(** A verifier for the concrete runs: it accepts one token. *)
Definition sampleVerify (token : string) : option AuthPayload :=
  if String.eqb token "tok-u1" then Some (mkAuthPayload "u-1" MEMBER) else None.



(* ===================================================================== *)
(** * Lemmas and theorems *)
(* ===================================================================== *)

(** What a normal return of [createBooking] tells about the world before
    and after the call. *)
Lemma createBooking_Return_inv (input : CreateBookingInput) (w w1 : World)
    (b : Booking) :
  BookingService.createBooking input w = (Return b, w1) ->
  exists slot,
    slots (db w) !! create_slotId input = Some slot /\
    slot_status slot <> BLOCKED /\
    Slot.canAccommodate slot (create_guestCount input) = true /\
    b = mintedBooking input slot w /\
    db w1 = mkDatabase (users (db w))
              (<[nextBookingId (entropy w) := b]> (bookings (db w)))
              (<[slot_id slot := debitedSlot slot (create_guestCount input)]>
                 (slots (db w))).
Proof.
  intros H. mrun_in H.
  repeat mcase_in H.
  all: injection H as <- <-.
  all: wsimpl.
  all: eexists; split; [reflexivity|].
  all: split; [by eapply bool_decide_eq_false_1|].
  all: split; [by apply negb_false_iff|].
  all: split; [reflexivity|].
  all: unfold debitedSlot.
  all: match goal with Hr : (_ - _ =? 0) = _ |- _ => rewrite Hr end.
  all: reflexivity.
Qed.

(** ** The confirmation code *)

Lemma toUpperAscii_hex (c : ascii) :
  isLowerHex c = true -> isUpperHex (toUpperAscii c) = true.
Proof.
  destruct c as [[] [] [] [] [] [] [] []]; vm_compute; congruence.
Qed.

Lemma isLowerHex_not_hyphen (c : ascii) :
  isLowerHex c = true -> Ascii.eqb c "-"%char = false.
Proof.
  destruct c as [[] [] [] [] [] [] [] []]; vm_compute; congruence.
Qed.

Lemma substring_0_0 (s : string) : substring 0 0 s = "".
Proof. destruct s; reflexivity. Qed.

Lemma toUpperCase_length (s : string) :
  String.length (toUpperCase s) = String.length s.
Proof. induction s as [|c s IH]; simpl; [reflexivity | by f_equal]. Qed.

Lemma toUpperCase_hex (s : string) :
  allChars isLowerHex s = true -> allChars isUpperHex (toUpperCase s) = true.
Proof.
  induction s as [|c s IH]; cbn; [reflexivity|].
  intros [Hc Hs]%andb_prop. by rewrite (toUpperAscii_hex c Hc), IH.
Qed.

(** The first eight characters of a UUID are its first eight hexadecimal
    digits: removing the hyphens does not touch them. *)
Lemma uuid_first8 (u : string) :
  isUuid u = true ->
  substring 0 8 (removeHyphens u) = substring 0 8 u /\
  String.length (substring 0 8 u) = 8%nat /\
  allChars isLowerHex (substring 0 8 u) = true.
Proof.
  unfold isUuid, uuidShape. cbn [replicate app].
  intros H.
  do 8 (destruct u as [|? u]; cbn [matchesShape] in H; [discriminate H|];
        apply andb_prop in H; destruct H as [? H]).
  clear H.
  cbn [removeHyphens].
  repeat match goal with
         | Hc : isLowerHex ?c = true |- _ =>
             rewrite (isLowerHex_not_hyphen c Hc)
         end.
  cbn [substring]. rewrite !substring_0_0.
  cbn [String.length allChars]. repeat split; try reflexivity.
  repeat match goal with
         | Hc : isLowerHex ?c = true |- _ => rewrite Hc; clear Hc
         end.
  reflexivity.
Qed.

Lemma append_length (s t : string) :
  String.length (s +:+ t) = (String.length s + String.length t)%nat.
Proof. induction s as [|c s IH]; simpl; [reflexivity | by f_equal]. Qed.

(** C7. Every booking that [createBooking] returns carries a confirmation
    code made of the four characters RSV- followed by the first eight
    hexadecimal digits of the UUID drawn for it, in upper case; the code is
    twelve characters long.  The UUID is any string of the shape [uuidv4]
    produces. *)
Theorem confirmationCode_format (input : CreateBookingInput) (w : World)
    (b : Booking) :
  isUuid (nextUuid (entropy w)) = true ->
  (BookingService.createBooking input w).1 = Return b ->
  exists raw,
    confirmationCode b = Some ("RSV-" +:+ raw) /\
    raw = toUpperCase (substring 0 8 (nextUuid (entropy w))) /\
    String.length raw = 8%nat /\
    allChars isUpperHex raw = true /\
    String.length ("RSV-" +:+ raw) = 12%nat.
Proof.
  intros Hu Hret.
  destruct (BookingService.createBooking input w) as [c w1] eqn:Hrun.
  cbn in Hret. subst c.
  apply createBooking_Return_inv in Hrun as (slot & _ & _ & _ & -> & _).
  destruct (uuid_first8 _ Hu) as (Heq & Hlen & Hhex).
  exists (toUpperCase (substring 0 8 (nextUuid (entropy w)))).
  unfold mintedBooking. cbn [confirmationCode]. rewrite Heq.
  split; [reflexivity|]. split; [reflexivity|].
  assert (Hl : String.length (toUpperCase (substring 0 8 (nextUuid (entropy w)))) = 8%nat)
    by (by rewrite toUpperCase_length).
  split; [exact Hl|]. split; [by apply toUpperCase_hex|].
  rewrite append_length, Hl. reflexivity.
Qed.

Lemma confirmationCode_format_witness :
  exists raw,
    confirmationCode (mintedBooking sampleInput sampleSlot sampleWorld)
      = Some ("RSV-" +:+ raw) /\
    raw = "0A1B2C3D" /\
    String.length raw = 8%nat /\
    allChars isUpperHex raw = true /\
    String.length ("RSV-" +:+ raw) = 12%nat.
Proof.
  apply (confirmationCode_format sampleInput sampleWorld
           (mintedBooking sampleInput sampleSlot sampleWorld)).
  - vm_compute. reflexivity.
  - vm_compute. reflexivity.
Defined.

(** ** The lock manager *)

Lemma redisGet_delete r now k : redisGet (delete k r) now k = None.
Proof. unfold redisGet. by rewrite lookup_delete_eq. Qed.

(** C8. [releaseLock] is one compare-and-delete step on the Redis store (the
    whole script is a single transition of the store): the key is deleted
    exactly when its current value is the given lease token, and the result
    is [true] exactly in that case.  When the key has expired or holds
    another token the store is left as it is and the result is [false]; no
    other key and nothing outside Redis is touched. *)
Theorem releaseLock_compare_and_delete (key lockId : string) (w : World) :
  (RedisClient.releaseLock key lockId w).1
    = Return (bool_decide (redisGet (redis w) (clock w) ("lock:" +:+ key) = Some lockId)) /\
  (redisGet (redis w) (clock w) ("lock:" +:+ key) = Some lockId ->
     redis (RedisClient.releaseLock key lockId w).2 = delete ("lock:" +:+ key) (redis w) /\
     redisGet (redis (RedisClient.releaseLock key lockId w).2) (clock w) ("lock:" +:+ key) = None) /\
  (redisGet (redis w) (clock w) ("lock:" +:+ key) <> Some lockId ->
     redis (RedisClient.releaseLock key lockId w).2 = redis w) /\
  (forall e, redis w !! ("lock:" +:+ key) = Some e -> entryLive (clock w) e = false ->
     (RedisClient.releaseLock key lockId w).1 = Return false) /\
  (forall other, redisGet (redis w) (clock w) ("lock:" +:+ key) = Some other ->
     other <> lockId ->
     (RedisClient.releaseLock key lockId w).1 = Return false) /\
  (forall k', k' <> "lock:" +:+ key ->
     redis (RedisClient.releaseLock key lockId w).2 !! k' = redis w !! k') /\
  db (RedisClient.releaseLock key lockId w).2 = db w /\
  tx (RedisClient.releaseLock key lockId w).2 = tx w.
Proof.
  mrun. unfold releaseScript, redisDel.
  destruct (redisGet (redis w) (clock w) ("lock:" +:+ key)) as [v|] eqn:Hget.
  - assert (Hlive : forall e, redis w !! ("lock:" +:+ key) = Some e ->
                              entryLive (clock w) e = true).
    { intros e He. unfold redisGet in Hget. rewrite He in Hget.
      by destruct (entryLive (clock w) e). }
    case_bool_decide as Hv; cbn [fst snd]; split_and!; try done.
    + intros _. split; [done | apply redisGet_delete].
    + intros e He Hdead. rewrite (Hlive e He) in Hdead. discriminate.
    + intros other [= <-] Hne. congruence.
    + intros k' Hk'. by rewrite lookup_delete_ne.
  - rewrite bool_decide_eq_false_2 by discriminate. cbn [fst snd].
    split_and!; done.
Qed.

(** ** Debit and credit of a slot *)

Lemma canAccommodate_true (s : Slot) (g : Z) :
  Slot.canAccommodate s g = true <->
  slot_status s = AVAILABLE /\ 0 < remainingCapacity s /\ g <= remainingCapacity s.
Proof.
  unfold Slot.canAccommodate, Slot.isAvailable.
  rewrite !andb_true_iff, bool_decide_eq_true, Z.ltb_lt, Z.leb_le. tauto.
Qed.

Lemma credit_debit (s : Slot) (g : Z) :
  Slot.canAccommodate s g = true ->
  creditedSlot (debitedSlot s g) g = s.
Proof.
  intros (Hst & Hpos & Hle)%canAccommodate_true.
  destruct s as [i v d st en cap r status p md hu]. cbn in *. subst status.
  unfold debitedSlot, creditedSlot. cbn.
  destruct (r - g =? 0) eqn:Hz; cbn.
  - apply Z.eqb_eq in Hz. replace (r - g + g) with r by lia.
    rewrite (proj2 (Z.ltb_lt 0 r) Hpos). reflexivity.
  - replace (r - g + g) with r by lia. reflexivity.
Qed.

Lemma isCancellable_eq (b : Booking) (e : ProcessEnv) (now : Z) :
  Booking.isCancellable b e now
  = negb (bool_decide (booking_status b = CANCELLED)
          || bool_decide (booking_status b = COMPLETED)).
Proof. unfold Booking.isCancellable. by destruct (_ || _). Qed.

Lemma creditedSlot_eq (slot : Slot) (g : Z) :
  (if bool_decide (slot_status slot = BOOKED) && (0 <? remainingCapacity slot + g)
   then Slot_set_status (Slot_set_remainingCapacity slot (remainingCapacity slot + g))
                        AVAILABLE
   else Slot_set_remainingCapacity slot (remainingCapacity slot + g))
  = creditedSlot slot g.
Proof. reflexivity. Qed.

Lemma debitedSlot_fields (s : Slot) (g : Z) :
  remainingCapacity (debitedSlot s g) = remainingCapacity s - g /\
  slot_status (debitedSlot s g)
    = (if remainingCapacity s - g =? 0 then BOOKED else slot_status s) /\
  slot_id (debitedSlot s g) = slot_id s.
Proof. unfold debitedSlot. by destruct (_ =? 0). Qed.

Lemma creditedSlot_fields (s : Slot) (g : Z) :
  remainingCapacity (creditedSlot s g) = remainingCapacity s + g /\
  slot_status (creditedSlot s g)
    = (if bool_decide (slot_status s = BOOKED) && (0 <? remainingCapacity s + g)
       then AVAILABLE else slot_status s) /\
  slot_id (creditedSlot s g) = slot_id s.
Proof. unfold creditedSlot. by destruct (_ && _). Qed.

(** C5. A [createBooking] that returns, followed by a [cancelBooking] of the
    booking it returned that returns too, with no other write to the
    database in between, leaves the slot row as it was before the booking.
    In between, the row has [remainingCapacity] lowered by the guest count
    and status BOOKED if that reached 0; the cancel adds the guest count
    back and turns BOOKED into AVAILABLE when the result is positive. *)
Theorem create_then_cancel_restores_slot (input : CreateBookingInput)
    (cin : CancelBookingInput) (w w1 w1' w2 : World) (b b' : Booking)
    (slot : Slot) :
  slots (db w) !! create_slotId input = Some slot ->
  slot_id slot = create_slotId input ->
  BookingService.createBooking input w = (Return b, w1) ->
  db w1' = db w1 ->
  booking_id b = Some (cancel_bookingId cin) ->
  BookingService.cancelBooking cin w1' = (Return b', w2) ->
  exists s1 s2,
    slots (db w1) !! create_slotId input = Some s1 /\
    remainingCapacity s1 = remainingCapacity slot - create_guestCount input /\
    slot_status s1
      = (if remainingCapacity s1 =? 0 then BOOKED else slot_status slot) /\
    slots (db w2) !! create_slotId input = Some s2 /\
    remainingCapacity s2 = remainingCapacity s1 + create_guestCount input /\
    slot_status s2
      = (if bool_decide (slot_status s1 = BOOKED) && (0 <? remainingCapacity s2)
         then AVAILABLE else slot_status s1) /\
    remainingCapacity s2 = remainingCapacity slot /\
    s2 = slot.
Proof.
  intros Hslot Hid Hc Hdb Hbid Hx.
  apply createBooking_Return_inv in Hc as (slot' & Hs' & Hnb & Hacc & -> & Hdb1).
  rewrite Hslot in Hs'. injection Hs' as <-.
  injection Hbid as Hkey.
  pose proof (debitedSlot_fields slot (create_guestCount input)) as (Hr1 & Hst1 & _).
  pose proof (creditedSlot_fields (debitedSlot slot (create_guestCount input))
                (create_guestCount input)) as (Hr2 & Hst2 & _).
  rewrite (credit_debit _ _ Hacc) in Hr2, Hst2.
  exists (debitedSlot slot (create_guestCount input)), slot.
  split; [by rewrite Hdb1, Hid; apply lookup_insert_eq|].
  split; [exact Hr1|].
  split; [by rewrite Hr1|].
  split; [|split_and!; [exact Hr2 | by rewrite <- Hr2 in Hst2 | done | done]].
  (* the run of [cancelBooking] *)
  mrun_in Hx. rewrite Hdb, Hdb1 in Hx. wsimpl_in Hx.
  rewrite Hkey, lookup_insert_eq in Hx. unfold mintedBooking in Hx.
  mrun_in Hx. mcase_in Hx.
  rewrite isCancellable_eq in Hx. mrun_in Hx.
  rewrite !bool_decide_eq_false_2 in Hx by discriminate. mrun_in Hx.
  rewrite Hdb, Hdb1 in Hx. wsimpl_in Hx.
  rewrite Hid, lookup_insert_eq in Hx. mrun_in Hx.
  rewrite ?lookup_insert_eq in Hx. mrun_in Hx.
  rewrite !creditedSlot_eq, !(credit_debit _ _ Hacc), Hid in Hx.
  repeat mcase_in Hx.
  all: injection Hx as _ <-; wsimpl; apply lookup_insert_eq.
Qed.

Lemma create_then_cancel_restores_slot_witness :
  exists s1 s2,
    slots (db sampleBooked) !! create_slotId sampleInput = Some s1 /\
    remainingCapacity s1 = remainingCapacity sampleSlot - create_guestCount sampleInput /\
    slot_status s1
      = (if remainingCapacity s1 =? 0 then BOOKED else slot_status sampleSlot) /\
    slots (db (BookingService.cancelBooking sampleCancel sampleBooked).2)
      !! create_slotId sampleInput = Some s2 /\
    remainingCapacity s2 = remainingCapacity s1 + create_guestCount sampleInput /\
    slot_status s2
      = (if bool_decide (slot_status s1 = BOOKED) && (0 <? remainingCapacity s2)
         then AVAILABLE else slot_status s1) /\
    remainingCapacity s2 = remainingCapacity sampleSlot /\
    s2 = sampleSlot.
Proof.
  apply (create_then_cancel_restores_slot sampleInput sampleCancel sampleWorld
           sampleBooked sampleBooked
           (BookingService.cancelBooking sampleCancel sampleBooked).2
           sampleBooking
           (Booking_set_cancelled sampleBooking (clock sampleBooked)
                                  (cancel_reason sampleCancel)) sampleSlot).
  - vm_compute. reflexivity.
  - reflexivity.
  - vm_compute. reflexivity.
  - reflexivity.
  - reflexivity.
  - vm_compute. reflexivity.
Defined.

(** ** Cancellation *)




(** C1 (the code departs from the claim). The owner cancels booking b-1
    twelve hours before its slot starts, with the default window of 24
    hours: the current instant plus the window is past the start, and still
    [cancelBooking] returns the booking as CANCELLED and credits the two
    places back to the slot. *)
Theorem cancel_inside_window_succeeds :
  ~ (clock sampleBookedLate
       + envInt (BOOKING_CANCELLATION_WINDOW_HOURS (env sampleBookedLate)) 24
         * MS_PER_HOUR
     < startTime sampleSlot) /\
  startTime sampleSlot - clock sampleBookedLate = 12 * MS_PER_HOUR /\
  (BookingService.cancelBooking sampleCancel sampleBookedLate).1
    = Return (Booking_set_cancelled sampleBooking 156800000
                                    (Some "change of plans")) /\
  remainingCapacity <$> slots (db sampleBookedLate) !! "s-1" = Some 2 /\
  remainingCapacity
    <$> slots (db (BookingService.cancelBooking sampleCancel sampleBookedLate).2)
        !! "s-1" = Some 4 /\
  booking_status
    <$> bookings (db (BookingService.cancelBooking sampleCancel sampleBookedLate).2)
        !! "b-1" = Some CANCELLED.
Proof.
  split; [vm_compute; congruence|].
  split_and!; vm_compute; reflexivity.
Qed.

(** C2 (the code departs from the claim). The transaction of [createBooking]
    commits, then the cache invalidation fails (first world) or the job
    cannot be enqueued (second world): the call throws that failure instead
    of returning the booking, although the booking and the debited slot are
    in the committed database. *)
Theorem createBooking_post_commit_failure_throws :
  (BookingService.createBooking sampleInput cacheDownWorld).1
    = Throw (JsError "connect ECONNREFUSED 127.0.0.1:6379") /\
  bookings (db (BookingService.createBooking sampleInput cacheDownWorld).2) !! "b-1"
    = Some sampleBooking /\
  remainingCapacity
    <$> slots (db (BookingService.createBooking sampleInput cacheDownWorld).2) !! "s-1"
    = Some 2 /\
  (BookingService.createBooking sampleInput queueDownWorld).1
    = Throw (JsError "Connection is closed.") /\
  bookings (db (BookingService.createBooking sampleInput queueDownWorld).2) !! "b-1"
    = Some sampleBooking /\
  trace (BookingService.createBooking sampleInput queueDownWorld).2
    = [CallAcquireLock "lock:booking:slot:s-1"; CallConnect;
       CallStartTransaction "SERIALIZABLE"; CallCommit;
       CallCacheDel "slots:v-1:2026-03-01"; CallAddJob "booking:confirmed";
       CallRollback; CallRelease; CallReleaseLock "lock:booking:slot:s-1"].
Proof.
  split_and!; vm_compute; reflexivity.
Qed.

(** ** Administrative unblock *)

(** C9. For an authenticated administrator and an existing slot,
    [unblockSlot] writes the row back with status AVAILABLE whatever its
    status and remaining capacity were, and changes nothing else in it.  On
    a slot without remaining capacity the result is AVAILABLE with
    [remainingCapacity = 0], which breaks the consistency of status and
    capacity. *)
Theorem unblockSlot_unconditional (slotId : string) (ctx : AuthenticatedContext)
    (user : AuthPayload) (w : World) (s : Slot) :
  isAuthenticated ctx = true ->
  auth_user ctx = Some user ->
  auth_role user = ADMIN ->
  slots (db w) !! slotId = Some s ->
  slot_id s = slotId ->
  (Mutation.unblockSlot slotId ctx w).1 = Return (Slot_set_status s AVAILABLE) /\
  slots (db (Mutation.unblockSlot slotId ctx w).2) !! slotId
    = Some (Slot_set_status s AVAILABLE) /\
  slot_status (Slot_set_status s AVAILABLE) = AVAILABLE /\
  remainingCapacity (Slot_set_status s AVAILABLE) = remainingCapacity s /\
  (remainingCapacity s = 0 ->
   ~ statusCapacityConsistent (Slot_set_status s AVAILABLE)).
Proof.
  intros Hauth Huser Hrole Hs Hid.
  mrun. rewrite Hauth, Huser. mrun. rewrite Hrole.
  rewrite bool_decide_eq_true_2 by set_solver. mrun.
  rewrite Hs. mrun. rewrite Hid.
  split_and!; try done.
  - apply lookup_insert_eq.
  - intros Hzero [Hblocked | Hiff]; cbn in *; [discriminate|].
    apply Hiff in Hzero. discriminate.
Qed.

Lemma unblockSlot_unconditional_witness :
  (Mutation.unblockSlot "s-1" adminContext sampleFullBlocked).1
    = Return (Slot_set_status fullBlockedSlot AVAILABLE) /\
  slots (db (Mutation.unblockSlot "s-1" adminContext sampleFullBlocked).2) !! "s-1"
    = Some (Slot_set_status fullBlockedSlot AVAILABLE) /\
  slot_status (Slot_set_status fullBlockedSlot AVAILABLE) = AVAILABLE /\
  remainingCapacity (Slot_set_status fullBlockedSlot AVAILABLE)
    = remainingCapacity fullBlockedSlot /\
  (remainingCapacity fullBlockedSlot = 0 ->
   ~ statusCapacityConsistent (Slot_set_status fullBlockedSlot AVAILABLE)).
Proof.
  apply (unblockSlot_unconditional "s-1" adminContext
           (mkAuthPayload "admin-1" ADMIN) sampleFullBlocked fullBlockedSlot).
  - reflexivity.
  - reflexivity.
  - reflexivity.
  - vm_compute. reflexivity.
  - reflexivity.
Defined.

(** ** Which errors a computation can throw *)

Section Raises.
Context {A B : Type}.
Variable P : Error -> Prop.

Lemma RaisesAt_bind (m : M A) (k : A -> M B) (w : World) :
  RaisesAt P m w ->
  (forall a w1, m w = (Return a, w1) -> RaisesAt P (k a) w1) ->
  RaisesAt P (m ≫= k) w.
Proof.
  intros Hm Hk e w' Hrun. unfold mbind, M_bind in Hrun.
  destruct (m w) as [[a|e0] w1] eqn:Hmw.
  - exact (Hk a w1 eq_refl e w' Hrun).
  - injection Hrun as <- <-. exact (Hm e0 w1 Hmw).
Qed.

Lemma Raises_bind (m : M A) (k : A -> M B) :
  Raises P m -> (forall a, Raises P (k a)) -> Raises P (m ≫= k).
Proof. intros Hm Hk w. apply RaisesAt_bind; [apply Hm | intros; apply Hk]. Qed.

Lemma Raises_ret (a : A) : Raises P (mret a).
Proof. intros w e w' H. discriminate H. Qed.

Lemma Raises_gets (f : World -> A) : Raises P (gets f).
Proof. intros w e w' H. discriminate H. Qed.

Lemma Raises_throw (e : Error) : P e -> Raises P (@throw A e).
Proof. intros He w e' w' [= <- _]. exact He. Qed.

Lemma Raises_tryCatch (Q : Error -> Prop) (body : M A) (handler : Error -> M A) :
  Raises Q body -> (forall e, Q e -> Raises P (handler e)) ->
  Raises P (tryCatch body handler).
Proof.
  intros Hb Hh w e w' Hrun. unfold tryCatch in Hrun.
  destruct (body w) as [[a|e0] w1] eqn:Hbw; [discriminate Hrun|].
  exact (Hh e0 (Hb w e0 w1 Hbw) w1 e w' Hrun).
Qed.

Lemma RaisesAt_tryCatch (Q : Error -> Prop) (body : M A) (handler : Error -> M A)
    (w : World) :
  RaisesAt Q body w -> (forall e, Q e -> Raises P (handler e)) ->
  RaisesAt P (tryCatch body handler) w.
Proof.
  intros Hb Hh e w' Hrun. unfold tryCatch in Hrun.
  destruct (body w) as [[a|e0] w1] eqn:Hbw; [discriminate Hrun|].
  exact (Hh e0 (Hb e0 w1 Hbw) w1 e w' Hrun).
Qed.

Lemma Raises_tryFinally (body : M A) (fin : M unit) :
  Raises P body -> Raises P fin -> Raises P (tryFinally body fin).
Proof.
  intros Hb Hf w e w' Hrun. unfold tryFinally in Hrun.
  destruct (body w) as [c w1] eqn:Hbw.
  destruct (fin w1) as [[[]|e1] w2] eqn:Hfw.
  - injection Hrun as -> <-. exact (Hb w e w1 Hbw).
  - injection Hrun as <- <-. exact (Hf w1 e1 w2 Hfw).
Qed.
End Raises.

Lemma Raises_modify (P : Error -> Prop) (f : World -> World) : Raises P (modify f).
Proof. intros w e w' H. discriminate H. Qed.

Lemma Raises_record (P : Error -> Prop) (c : Call) : Raises P (record c).
Proof. apply Raises_modify. Qed.

Lemma Raises_throwIf (P : Error -> Prop) (c : bool) (e : Error) :
  (c = true -> P e) -> Raises P (throwIf c e).
Proof.
  intros He w e' w' H. destruct c; [|discriminate H].
  injection H as <- _. by apply He.
Qed.

Lemma Raises_failWhen (P : Error -> Prop) (f : option string) :
  (forall msg, P (JsError msg)) -> Raises P (failWhen f).
Proof.
  intros HP w e w' H. destruct f as [msg|]; [|discriminate H].
  injection H as <- _. apply HP.
Qed.

(** One syntax-directed step of the analysis. *)
Ltac raises_step :=
  lazymatch goal with
  | |- Raises _ (mbind _ _) => apply Raises_bind; [|intros ?]
  | |- Raises _ (mret _) => apply Raises_ret
  | |- Raises _ (gets _) => apply Raises_gets
  | |- Raises _ (modify _) => apply Raises_modify
  | |- Raises _ (record _) => apply Raises_record
  | |- Raises _ newDate => apply Raises_gets
  | |- Raises _ (throw _) => apply Raises_throw
  | |- Raises _ (throwIf _ _) => apply Raises_throwIf; intros _
  | |- Raises _ (failWhen _) => apply Raises_failWhen; intros ?
  | |- Raises _ (tryFinally _ _) => apply Raises_tryFinally
  | |- Raises ?P (tryCatch _ _) => apply (Raises_tryCatch P P); [|intros ? ?]
  | |- Raises _ (match ?x with Some _ => _ | None => _ end) => destruct x
  | |- Raises _ (let '(_, _) := ?x in _) => destruct x
  | |- Raises _ (if ?c then _ else _) => destruct c
  | |- Raises _ (userRepo_findOneActive _) => apply Raises_gets
  | |- Raises _ (bookingRepo_countConfirmed _) => apply Raises_gets
  | |- Raises _ (bookingRepo_findConfirmed _ _) => apply Raises_gets
  | |- Raises _ (bookingRepo_findOne _) => apply Raises_gets
  | |- Raises _ (bookingRepo_findOneWithSlot _) => apply Raises_gets
  | |- Raises _ (slotRepo_findOne _) => apply Raises_gets
  | |- Raises _ (slotRepo_save _) => apply Raises_modify
  | |- Raises _ (QueryRunner.getSlotForUpdate _) => apply Raises_gets
  | |- Raises _ (QueryRunner.saveSlot _) => apply Raises_modify
  | |- Raises _ (publishSlotUpdated _) => apply Raises_modify
  | |- Raises _ QueryRunner.connect => apply Raises_record
  | |- Raises _ QueryRunner.release => apply Raises_record
  | |- Raises _ (QueryRunner.startTransaction _) => unfold QueryRunner.startTransaction
  | |- Raises _ QueryRunner.commitTransaction => unfold QueryRunner.commitTransaction
  | |- Raises _ QueryRunner.rollbackTransaction => unfold QueryRunner.rollbackTransaction
  | |- Raises _ (QueryRunner.saveBooking _ _) => unfold QueryRunner.saveBooking
  | |- Raises _ (QueueService.addJob _ _) => unfold QueueService.addJob
  | |- Raises _ (NotificationService.send _) => unfold NotificationService.send
  | |- Raises _ (BookingService.invalidateSlotCache _ _) =>
      unfold BookingService.invalidateSlotCache
  | |- Raises _ (RedisClient.acquireLock _ _) => unfold RedisClient.acquireLock
  | |- Raises _ (RedisClient.releaseLock _ _) => unfold RedisClient.releaseLock
  | |- Raises _ (BookingService.createBookingPersist _ _) =>
      unfold BookingService.createBookingPersist
  | |- Raises _ (BookingService.createBookingBody _) =>
      unfold BookingService.createBookingBody
  | |- Raises _ (BookingService.cancelBookingBody _ _ _ _) =>
      unfold BookingService.cancelBookingBody
  end.

Ltac raises := repeat raises_step; try (cbn [errorCode]; congruence).

(** The same analysis for a goal about one world. *)
Ltac raises_at :=
  lazymatch goal with
  | |- RaisesAt ?P ?m ?w =>
      cut (Raises P m); [let H := fresh in intros H; exact (H w) | raises]
  end.

(** After it has been saved, a booking is only moved around: the second half
    of either operation throws nothing but infrastructure failures. *)
Lemma createBookingPersist_raises (input : CreateBookingInput) (slot : Slot) :
  Raises (fun e => errorCode e = None)
         (BookingService.createBookingPersist input slot).
Proof. unfold BookingService.createBookingPersist. raises. Qed.

Lemma cancelBookingBody_raises (b : Booking) (slot : option Slot) (user : string)
    (reason : option string) :
  Raises (fun e => errorCode e = None)
         (BookingService.cancelBookingBody b slot user reason).
Proof. unfold BookingService.cancelBookingBody. raises. Qed.

(** ** Authorization of a cancellation *)

Lemma handleError_raises {A} (P : Error -> Prop) (e : Error) :
  (forall m c s, errorCode e = Some c -> P (GraphQLError m c s)) ->
  P (GraphQLError "An unexpected error occurred" "INTERNAL_SERVER_ERROR" None) ->
  Raises P (@handleError A e).
Proof.
  intros Hcode Hint. destruct e as [m c s | m c s | m]; cbn [handleError].
  - apply Raises_throw. by apply Hcode.
  - apply Raises_throw. by apply Hcode.
  - by apply Raises_throw.
Qed.

(** Once the ownership test of [cancelBooking] has passed, the only domain
    error left is CANCELLATION_NOT_ALLOWED. *)
Lemma cancelBooking_owner_raises (cin : CancelBookingInput) (w : World)
    (b : Booking) :
  bookings (db w) !! cancel_bookingId cin = Some b ->
  userId b = cancel_userId cin ->
  RaisesAt (fun e => errorCode e <> Some "UNAUTHORIZED")
           (BookingService.cancelBooking cin) w.
Proof.
  intros Hb Hown. unfold BookingService.cancelBooking.
  apply RaisesAt_bind; [raises_at|].
  intros found w1 [= <- <-]. rewrite Hb. cbv zeta. cbn [fst snd].
  apply RaisesAt_bind.
  - apply Raises_throwIf. rewrite Hown, String.eqb_refl. discriminate.
  - intros _ w1 _. raises_at.
Qed.

(** C3 (amended). For an authenticated caller and an existing booking, the
    cancel mutation answers UNAUTHORIZED (403) exactly when the caller's
    user id differs from the booking's [userId]; the caller's role takes no
    part in it, so an ADMIN who does not own the booking is refused like
    any other non-owner, and nothing is written. *)
Theorem cancel_authorized_iff_owner (bookingId : string) (reason : option string)
    (ctx : AuthenticatedContext) (user : AuthPayload) (w : World) (b : Booking) :
  isAuthenticated ctx = true ->
  auth_user ctx = Some user ->
  bookings (db w) !! bookingId = Some b ->
  (thrownCode (Mutation.cancelBooking bookingId reason ctx w).1 = Some "UNAUTHORIZED"
   <-> userId b <> auth_userId user) /\
  (userId b <> auth_userId user ->
   (Mutation.cancelBooking bookingId reason ctx w)
   = (Throw (GraphQLError "Not authorized to cancel this booking" "UNAUTHORIZED"
                          (Some 403)), w)).
Proof.
  intros Hauth Huser Hb.
  assert (Hrefuse : userId b <> auth_userId user ->
    Mutation.cancelBooking bookingId reason ctx w
    = (Throw (GraphQLError "Not authorized to cancel this booking" "UNAUTHORIZED"
                           (Some 403)), w)).
  { intros Hne. mrun. rewrite Hauth, Huser. mrun. rewrite Hb. mrun.
    rewrite (proj2 (String.eqb_neq _ _) Hne). reflexivity. }
  split; [split|exact Hrefuse].
  - intros Hcode Hown.
    assert (HR : RaisesAt (fun e => errorCode e <> Some "UNAUTHORIZED")
                          (Mutation.cancelBooking bookingId reason ctx) w).
    { unfold Mutation.cancelBooking, requireAuth. rewrite Hauth, Huser.
      apply RaisesAt_bind; [raises_at|].
      intros ? w1 [= <- <-].
      apply (RaisesAt_tryCatch _ (fun e => errorCode e <> Some "UNAUTHORIZED")).
      - apply RaisesAt_bind.
        + exact (cancelBooking_owner_raises
                   (mkCancelBookingInput bookingId (auth_userId user) reason)
                   w b Hb Hown).
        + intros b' w1 _. raises_at.
      - intros e He. apply handleError_raises; [|discriminate].
        intros m c s Hc. cbn. congruence. }
    destruct (Mutation.cancelBooking bookingId reason ctx w) as [[b'|e] w'] eqn:Hrun;
      [discriminate Hcode|].
    exact (HR e w' Hrun Hcode).
  - intros Hne. by rewrite (Hrefuse Hne).
Qed.

Lemma cancel_authorized_iff_owner_witness :
  (thrownCode (Mutation.cancelBooking "b-1" None adminContext sampleBooked).1
     = Some "UNAUTHORIZED"
   <-> userId sampleBooking <> "admin-1") /\
  (userId sampleBooking <> "admin-1" ->
   (Mutation.cancelBooking "b-1" None adminContext sampleBooked)
   = (Throw (GraphQLError "Not authorized to cancel this booking" "UNAUTHORIZED"
                          (Some 403)), sampleBooked)).
Proof.
  apply (cancel_authorized_iff_owner "b-1" None adminContext
           (mkAuthPayload "admin-1" ADMIN) sampleBooked sampleBooking).
  - reflexivity.
  - reflexivity.
  - vm_compute. reflexivity.
Defined.

(** C3, as stated, fails: an administrator who does not own booking b-1 is
    refused with UNAUTHORIZED (403), although "owner or ADMIN" holds of the
    caller. *)
Lemma admin_cancel_of_foreign_booking_refused :
  bookings (db sampleBooked) !! "b-1" = Some sampleBooking /\
  auth_user adminContext = Some (mkAuthPayload "admin-1" ADMIN) /\
  (Mutation.cancelBooking "b-1" None adminContext sampleBooked).1
    = Throw (GraphQLError "Not authorized to cancel this booking" "UNAUTHORIZED"
                          (Some 403)) /\
  ~ (thrownCode (Mutation.cancelBooking "b-1" None adminContext sampleBooked).1
       <> Some "UNAUTHORIZED"
     <-> (userId sampleBooking = "admin-1"
          \/ auth_role (mkAuthPayload "admin-1" ADMIN) = ADMIN)).
Proof.
  assert (Hrun : (Mutation.cancelBooking "b-1" None adminContext sampleBooked).1
    = Throw (GraphQLError "Not authorized to cancel this booking" "UNAUTHORIZED"
                          (Some 403))) by (vm_compute; reflexivity).
  split_and!; [vm_compute; reflexivity | reflexivity | exact Hrun |].
  rewrite Hrun. cbn. intros [_ H]. apply H; [by right | reflexivity].
Qed.

(** ** A commit that fails *)

Lemma redisSetPxNx_free r now k v ttl :
  redisGet r now k = None ->
  redisSetPxNx r now k v ttl = (true, <[k := mkRedisEntry v (Some (now + ttl))]> r).
Proof. unfold redisSetPxNx. by intros ->. Qed.

Lemma redisSetPxNx_held r now k v ttl :
  redisGet r now k <> None -> redisSetPxNx r now k v ttl = (false, r).
Proof. unfold redisSetPxNx. by destruct (redisGet r now k). Qed.

(** With the lock acquired, nothing in [createBooking] throws SLOT_LOCKED. *)
Lemma createBooking_SLOT_LOCKED_iff (input : CreateBookingInput) (w : World) :
  thrownCode (BookingService.createBooking input w).1 = Some "SLOT_LOCKED"
  <-> redisGet (redis w) (clock w) (slotLockKey (create_slotId input)) <> None.
Proof.
  unfold slotLockKey. split.
  - intros Hcode Hfree.
    assert (HR : RaisesAt (fun e => errorCode e <> Some "SLOT_LOCKED")
                          (BookingService.createBooking input) w).
    { unfold BookingService.createBooking.
      apply RaisesAt_bind; [raises_at|].
      intros lockId w1 Hrun. mrun_in Hrun.
      rewrite (redisSetPxNx_free _ _ _ _ _ Hfree) in Hrun. wsimpl_in Hrun.
      injection Hrun as <- _. raises_at. }
    destruct (BookingService.createBooking input w) as [[b|e] w'] eqn:Hrun;
      [discriminate Hcode|].
    exact (HR e w' Hrun Hcode).
  - intros Hheld. mrun. rewrite (redisSetPxNx_held _ _ _ _ _ Hheld). reflexivity.
Qed.

(** C4 (amended). When every check of [createBooking] passes and the commit
    fails, nothing is retried: the call opens one transaction, attempts one
    commit, rolls back, releases the runner and the lock, and rethrows the
    error of the commit as it is; the database is unchanged.  SLOT_LOCKED is
    thrown only when the lock cannot be acquired. *)
Theorem createBooking_commit_failure_not_retried
    (input : CreateBookingInput) (w : World) (s : Slot) (u : User) (msg : string) :
  redisGet (redis w) (clock w) (slotLockKey (create_slotId input)) = None ->
  findActiveUser (db w) (create_userId input) = Some u ->
  Z.of_nat (List.length (confirmedBookingsOf (db w) (create_userId input)))
    < envInt (MAX_CONCURRENT_BOOKINGS_PER_USER (env w)) 5 ->
  slots (db w) !! create_slotId input = Some s ->
  slot_status s <> BLOCKED ->
  Slot.canAccommodate s (create_guestCount input) = true ->
  Slot.isPast s (clock w) = false ->
  startTime s <= clock w + envInt (MAX_BOOKING_ADVANCE_DAYS (env w)) 90 * MS_PER_DAY ->
  confirmedBookingsOn (db w) (create_userId input) (create_slotId input) = [] ->
  head (commitFaults (faults w)) = Some (Some msg) ->
  rollbackFault (faults w) = None ->
  (BookingService.createBooking input w).1 = Throw (JsError msg) /\
  thrownCode (BookingService.createBooking input w).1 <> Some "SLOT_LOCKED" /\
  trace (BookingService.createBooking input w).2
    = (trace w ++ [CallAcquireLock (slotLockKey (create_slotId input));
                   CallConnect; CallStartTransaction "SERIALIZABLE"; CallCommit;
                   CallRollback; CallRelease;
                   CallReleaseLock (slotLockKey (create_slotId input))])%list /\
  db (BookingService.createBooking input w).2 = db w /\
  tx (BookingService.createBooking input w).2 = None /\
  commitFaults (faults (BookingService.createBooking input w).2)
    = tail (commitFaults (faults w)) /\
  redisGet (redis (BookingService.createBooking input w).2) (clock w)
           (slotLockKey (create_slotId input)) = None.
Proof.
  intros Hlock Hu Hcap Hs Hnb Hacc Hpast Hadv Hdup Hcommit Hrb.
  pose proof (proj1 (createBooking_SLOT_LOCKED_iff input w)) as Hlocked.
  unfold slotLockKey in *.
  revert Hlocked.
  mrun. rewrite (redisSetPxNx_free _ _ _ _ _ Hlock). mrun.
  rewrite Hu. mrun.
  rewrite (proj2 (Z.leb_gt _ _) Hcap). mrun.
  rewrite Hs. mrun.
  rewrite (bool_decide_eq_false_2 _ Hnb). mrun.
  rewrite Hacc. mrun. rewrite Hpast. mrun.
  rewrite (proj2 (Z.ltb_ge _ _) Hadv). mrun.
  rewrite Hdup. mrun. rewrite Hcommit. mrun. rewrite Hrb. mrun.
  intros _.
  assert (Hheld : redisGet
            (<["lock:" +:+ ("booking:slot:" +:+ create_slotId input) :=
               mkRedisEntry ("lock:" +:+ pretty (clock w) +:+ ":" +:+ nextRandom (entropy w))
                            (Some (clock w + 15000))]> (redis w))
            (clock w) ("lock:" +:+ ("booking:slot:" +:+ create_slotId input))
          = Some ("lock:" +:+ pretty (clock w) +:+ ":" +:+ nextRandom (entropy w))).
  { unfold redisGet. rewrite lookup_insert_eq. cbn [entryLive expiresAt entry_value].
    by rewrite (proj2 (Z.ltb_lt _ _)) by lia. }
  unfold releaseScript, redisDel. rewrite Hheld.
  rewrite bool_decide_eq_true_2 by reflexivity. cbn [fst snd].
  split_and!; try done.
  - by rewrite <- !app_assoc.
  - apply redisGet_delete.
Qed.

Lemma createBooking_commit_failure_not_retried_witness :
  (BookingService.createBooking sampleInput conflictOnceWorld).1
    = Throw (JsError "could not serialize access due to concurrent update") /\
  thrownCode (BookingService.createBooking sampleInput conflictOnceWorld).1
    <> Some "SLOT_LOCKED" /\
  trace (BookingService.createBooking sampleInput conflictOnceWorld).2
    = (trace conflictOnceWorld
       ++ [CallAcquireLock (slotLockKey "s-1");
           CallConnect; CallStartTransaction "SERIALIZABLE"; CallCommit;
           CallRollback; CallRelease;
           CallReleaseLock (slotLockKey "s-1")])%list /\
  db (BookingService.createBooking sampleInput conflictOnceWorld).2
    = db conflictOnceWorld /\
  tx (BookingService.createBooking sampleInput conflictOnceWorld).2 = None /\
  commitFaults (faults (BookingService.createBooking sampleInput conflictOnceWorld).2)
    = tail (commitFaults (faults conflictOnceWorld)) /\
  redisGet (redis (BookingService.createBooking sampleInput conflictOnceWorld).2)
           (clock conflictOnceWorld) (slotLockKey "s-1") = None.
Proof.
  apply (createBooking_commit_failure_not_retried sampleInput conflictOnceWorld
           sampleSlot sampleUser
           "could not serialize access due to concurrent update").
  - vm_compute. reflexivity.
  - vm_compute. reflexivity.
  - vm_compute. reflexivity.
  - vm_compute. reflexivity.
  - discriminate.
  - vm_compute. reflexivity.
  - vm_compute. reflexivity.
  - vm_compute. discriminate.
  - vm_compute. reflexivity.
  - reflexivity.
  - reflexivity.
Defined.

(** C4, as stated, fails.  In [conflictOnceWorld] the first commit conflicts
    and the next one would succeed: the call is not retried (one
    transaction start in the trace, the second commit outcome is never
    consumed), the caller gets the conflict, although running the operation
    again right away returns the booking.  In [conflictTwiceWorld] the
    caller gets the conflict of the first commit, not SLOT_LOCKED. *)
Lemma commit_conflict_surfaces_without_retry :
  (BookingService.createBooking sampleInput conflictOnceWorld).1
    = Throw (JsError "could not serialize access due to concurrent update") /\
  transactionsStarted
    (trace (BookingService.createBooking sampleInput conflictOnceWorld).2) = 1%nat /\
  commitsAttempted
    (trace (BookingService.createBooking sampleInput conflictOnceWorld).2) = 1%nat /\
  commitFaults (faults (BookingService.createBooking sampleInput conflictOnceWorld).2)
    = [None] /\
  (BookingService.createBooking sampleInput
     (BookingService.createBooking sampleInput conflictOnceWorld).2).1
    = Return sampleBooking /\
  (BookingService.createBooking sampleInput conflictTwiceWorld).1
    = Throw (JsError "could not serialize access due to concurrent update") /\
  thrownCode (BookingService.createBooking sampleInput conflictTwiceWorld).1
    <> Some "SLOT_LOCKED".
Proof.
  split_and!; vm_compute; congruence.
Qed.

(** ** The precondition gauntlet *)

(** What the duplicate query finds. *)
Lemma confirmedBookingsOn_nonempty (d : Database) (user slot : string) :
  confirmedBookingsOn d user slot <> []
  <-> exists key b, bookings d !! key = Some b /\ userId b = user /\
                    slotId b = slot /\ booking_status b = CONFIRMED.
Proof.
  unfold confirmedBookingsOn. split.
  - intros Hne.
    destruct (List.filter _ _) as [|b l] eqn:Hf; [done|].
    assert (Hin : List.In b (b :: l)) by (by left).
    rewrite <- Hf in Hin. apply List.filter_In in Hin as [Hin Hp].
    apply list_elem_of_In, list_elem_of_fmap in Hin as ([key b0] & -> & Hin).
    apply elem_of_map_to_list in Hin.
    unfold isConfirmedBookingOf in Hp.
    apply andb_prop in Hp as [[Hu Hst]%andb_prop Hs].
    exists key, b0. cbn. split; [done|].
    cbn in Hu, Hst, Hs.
    apply String.eqb_eq in Hu, Hs. apply bool_decide_eq_true in Hst. done.
  - intros (key & b & Hb & Hu & Hs & Hst) Hempty.
    assert (Hin : List.In b (List.filter
              (fun b => isConfirmedBookingOf user b && String.eqb (slotId b) slot)
              (map_to_list (bookings d)).*2)).
    { apply List.filter_In. split.
      - apply list_elem_of_In, list_elem_of_fmap. exists (key, b).
        split; [done|]. by apply elem_of_map_to_list.
      - unfold isConfirmedBookingOf.
        rewrite (proj2 (String.eqb_eq _ _) Hu), (proj2 (String.eqb_eq _ _) Hs).
        by rewrite bool_decide_eq_true_2. }
    rewrite Hempty in Hin. destruct Hin.
Qed.

(** The outcome of the gauntlet as one decision list. *)
Lemma createBooking_gauntlet_code (input : CreateBookingInput) (w : World)
    (s : Slot) (u : User) :
  redisGet (redis w) (clock w) (slotLockKey (create_slotId input)) = None ->
  findActiveUser (db w) (create_userId input) = Some u ->
  Z.of_nat (List.length (confirmedBookingsOf (db w) (create_userId input)))
    < envInt (MAX_CONCURRENT_BOOKINGS_PER_USER (env w)) 5 ->
  slots (db w) !! create_slotId input = Some s ->
  rollbackFault (faults w) = None ->
  thrownCode (BookingService.createBooking input w).1
  = if bool_decide (slot_status s = BLOCKED) then Some "SLOT_BLOCKED"
    else if negb (Slot.canAccommodate s (create_guestCount input))
         then Some "INSUFFICIENT_CAPACITY"
    else if Slot.isPast s (clock w) then Some "SLOT_IN_PAST"
    else if clock w + envInt (MAX_BOOKING_ADVANCE_DAYS (env w)) 90 * MS_PER_DAY
            <? startTime s
         then Some "ADVANCE_LIMIT_EXCEEDED"
    else if negb (isNull (head (confirmedBookingsOn (db w) (create_userId input)
                                                    (create_slotId input))))
         then Some "DUPLICATE_BOOKING"
    else None.
Proof.
  intros Hlock Hu Hcap Hs Hrb. unfold slotLockKey in Hlock.
  munfold_checks; wsimpl.
  rewrite (redisSetPxNx_free _ _ _ _ _ Hlock). munfold_checks; wsimpl.
  rewrite Hu. munfold_checks; wsimpl.
  rewrite (proj2 (Z.leb_gt _ _) Hcap). munfold_checks; wsimpl.
  rewrite Hs. munfold_checks; wsimpl.
  destruct (bool_decide (slot_status s = BLOCKED));
    munfold_checks; wsimpl; [by rewrite Hrb|].
  destruct (negb (Slot.canAccommodate s (create_guestCount input)));
    munfold_checks; wsimpl; [by rewrite Hrb|].
  destruct (Slot.isPast s (clock w)); munfold_checks; wsimpl; [by rewrite Hrb|].
  destruct (_ <? startTime s); munfold_checks; wsimpl; [by rewrite Hrb|].
  destruct (negb (isNull _)); munfold_checks; wsimpl; [by rewrite Hrb|].
  match goal with
  | |- context [BookingService.createBookingPersist input s ?w1] =>
      pose proof (createBookingPersist_raises input s w1) as Hraise;
      destruct (BookingService.createBookingPersist input s w1) as [[b|e] w2]
        eqn:Hp
  end.
  - reflexivity.
  - specialize (Hraise e w2 Hp). munfold_checks; wsimpl.
    destruct (rollbackFault (faults w2)); munfold_checks; wsimpl; done.
Qed.

Lemma canAccommodate_false (s : Slot) (g : Z) :
  Slot.canAccommodate s g = false <->
  slot_status s <> AVAILABLE \/ remainingCapacity s <= 0 \/ remainingCapacity s < g.
Proof.
  rewrite <- not_true_iff_false, canAccommodate_true. split.
  - intros H.
    destruct (decide (slot_status s = AVAILABLE)); [|tauto].
    destruct (Z_lt_le_dec 0 (remainingCapacity s)); [|tauto].
    destruct (Z_lt_le_dec (remainingCapacity s) g); [tauto|].
    exfalso. apply H. done.
  - intros [H | [H | H]] (H1 & H2 & H3); [done | lia | lia].
Qed.

(** C6 (amended). For a [createBooking] that reaches the gauntlet (lock
    acquired, user active and under the cap, slot found; the rollback does
    not fail), the checks fire in order and the first failure wins:
    SLOT_BLOCKED, then INSUFFICIENT_CAPACITY, then SLOT_IN_PAST, then
    ADVANCE_LIMIT_EXCEEDED, then DUPLICATE_BOOKING, and no domain error when
    all pass.  INSUFFICIENT_CAPACITY is raised exactly when the slot is not
    BLOCKED and cannot accommodate the request, that is when its status is
    not AVAILABLE, or [remainingCapacity <= 0], or
    [remainingCapacity < guestCount]. *)
Theorem createBooking_gauntlet_order (input : CreateBookingInput) (w : World)
    (s : Slot) (u : User) :
  redisGet (redis w) (clock w) (slotLockKey (create_slotId input)) = None ->
  findActiveUser (db w) (create_userId input) = Some u ->
  Z.of_nat (List.length (confirmedBookingsOf (db w) (create_userId input)))
    < envInt (MAX_CONCURRENT_BOOKINGS_PER_USER (env w)) 5 ->
  slots (db w) !! create_slotId input = Some s ->
  rollbackFault (faults w) = None ->
  (slot_status s = BLOCKED ->
   thrownCode (BookingService.createBooking input w).1 = Some "SLOT_BLOCKED") /\
  (slot_status s <> BLOCKED ->
   Slot.canAccommodate s (create_guestCount input) = false ->
   thrownCode (BookingService.createBooking input w).1
     = Some "INSUFFICIENT_CAPACITY") /\
  (Slot.canAccommodate s (create_guestCount input) = true ->
   endTime s < clock w ->
   thrownCode (BookingService.createBooking input w).1 = Some "SLOT_IN_PAST") /\
  (Slot.canAccommodate s (create_guestCount input) = true ->
   clock w <= endTime s ->
   clock w + envInt (MAX_BOOKING_ADVANCE_DAYS (env w)) 90 * MS_PER_DAY
     < startTime s ->
   thrownCode (BookingService.createBooking input w).1
     = Some "ADVANCE_LIMIT_EXCEEDED") /\
  (Slot.canAccommodate s (create_guestCount input) = true ->
   clock w <= endTime s ->
   startTime s
     <= clock w + envInt (MAX_BOOKING_ADVANCE_DAYS (env w)) 90 * MS_PER_DAY ->
   (exists key b, bookings (db w) !! key = Some b /\
                  userId b = create_userId input /\
                  slotId b = create_slotId input /\
                  booking_status b = CONFIRMED) ->
   thrownCode (BookingService.createBooking input w).1 = Some "DUPLICATE_BOOKING") /\
  (Slot.canAccommodate s (create_guestCount input) = true ->
   clock w <= endTime s ->
   startTime s
     <= clock w + envInt (MAX_BOOKING_ADVANCE_DAYS (env w)) 90 * MS_PER_DAY ->
   ~ (exists key b, bookings (db w) !! key = Some b /\
                    userId b = create_userId input /\
                    slotId b = create_slotId input /\
                    booking_status b = CONFIRMED) ->
   thrownCode (BookingService.createBooking input w).1 = None) /\
  (thrownCode (BookingService.createBooking input w).1
     = Some "INSUFFICIENT_CAPACITY"
   <-> slot_status s <> BLOCKED /\
       (slot_status s <> AVAILABLE \/ remainingCapacity s <= 0
        \/ remainingCapacity s < create_guestCount input)).
Proof.
  intros Hlock Hu Hcap Hs Hrb.
  rewrite (createBooking_gauntlet_code input w s u Hlock Hu Hcap Hs Hrb).
  pose proof (confirmedBookingsOn_nonempty (db w) (create_userId input)
                (create_slotId input)) as Hdup.
  assert (Hacc_nb : Slot.canAccommodate s (create_guestCount input) = true ->
                    bool_decide (slot_status s = BLOCKED) = false).
  { intros (Hst & _)%canAccommodate_true.
    apply bool_decide_eq_false_2. congruence. }
  unfold Slot.isPast.
  split_and!.
  - intros Hb. by rewrite bool_decide_eq_true_2.
  - intros Hnb Hacc. by rewrite bool_decide_eq_false_2, Hacc.
  - intros Hacc Hpast. rewrite (Hacc_nb Hacc), Hacc. cbn [negb].
    by rewrite (proj2 (Z.ltb_lt _ _) Hpast).
  - intros Hacc Hpast Hadv. rewrite (Hacc_nb Hacc), Hacc. cbn [negb].
    by rewrite (proj2 (Z.ltb_ge _ _) Hpast), (proj2 (Z.ltb_lt _ _) Hadv).
  - intros Hacc Hpast Hadv Hex. rewrite (Hacc_nb Hacc), Hacc. cbn [negb].
    rewrite (proj2 (Z.ltb_ge _ _) Hpast), (proj2 (Z.ltb_ge _ _) Hadv).
    apply Hdup in Hex. by destruct (confirmedBookingsOn _ _ _).
  - intros Hacc Hpast Hadv Hnex. rewrite (Hacc_nb Hacc), Hacc. cbn [negb].
    rewrite (proj2 (Z.ltb_ge _ _) Hpast), (proj2 (Z.ltb_ge _ _) Hadv).
    destruct (confirmedBookingsOn _ _ _) eqn:Hl; [done|].
    exfalso. apply Hnex, Hdup. done.
  - rewrite <- canAccommodate_false.
    case_bool_decide as Hb; [split; [discriminate | tauto]|].
    destruct (Slot.canAccommodate s (create_guestCount input)); cbn [negb].
    + split; [|intros [_ ?]; discriminate].
      repeat case_match; discriminate.
    + tauto.
Qed.

Lemma createBooking_gauntlet_order_witness :
  thrownCode (BookingService.createBooking heldInput heldWorld).1
    = Some "INSUFFICIENT_CAPACITY"
  <-> slot_status heldSlot <> BLOCKED /\
      (slot_status heldSlot <> AVAILABLE \/ remainingCapacity heldSlot <= 0
       \/ remainingCapacity heldSlot < create_guestCount heldInput).
Proof.
  apply (createBooking_gauntlet_order heldInput heldWorld heldSlot sampleUser).
  - vm_compute. reflexivity.
  - vm_compute. reflexivity.
  - vm_compute. reflexivity.
  - vm_compute. reflexivity.
  - reflexivity.
Defined.

(** C6, as stated, fails: on a HELD slot with five places left, a request
    for two is refused with INSUFFICIENT_CAPACITY although
    [remainingCapacity < guestCount] does not hold. *)
Lemma insufficient_capacity_on_held_slot :
  slots (db heldWorld) !! create_slotId heldInput = Some heldSlot /\
  remainingCapacity heldSlot = 5 /\
  create_guestCount heldInput = 2 /\
  (BookingService.createBooking heldInput heldWorld).1
    = Throw (BookingError "Insufficient capacity. Available: 5, Requested: 2"
                          "INSUFFICIENT_CAPACITY" 400) /\
  ~ (thrownCode (BookingService.createBooking heldInput heldWorld).1
       = Some "INSUFFICIENT_CAPACITY"
     <-> remainingCapacity heldSlot < create_guestCount heldInput).
Proof.
  assert (Hrun : (BookingService.createBooking heldInput heldWorld).1
    = Throw (BookingError "Insufficient capacity. Available: 5, Requested: 2"
                          "INSUFFICIENT_CAPACITY" 400))
    by (vm_compute; reflexivity).
  split_and!; [vm_compute; reflexivity | reflexivity | reflexivity | exact Hrun |].
  rewrite Hrun. cbn. intros [H _]. specialize (H eq_refl). lia.
Qed.

(* ===================================================================== *)
(** * Further properties of the modelled code *)
(* ===================================================================== *)

(** ** The lock manager: leases *)

(** What [acquireLock] does, in one equation. *)
Lemma acquireLock_run (key : string) (ttlMs : Z) (w : World) :
  RedisClient.acquireLock key ttlMs w
  = (Return (if (redisSetPxNx (redis w) (clock w) (lockKeyOf key)
                   ("lock:" +:+ pretty (clock w) +:+ ":" +:+ nextRandom (entropy w))
                   ttlMs).1
             then Some ("lock:" +:+ pretty (clock w) +:+ ":" +:+ nextRandom (entropy w))
             else None),
     set_redis (set_trace w (trace w ++ [CallAcquireLock (lockKeyOf key)]))
       (redisSetPxNx (redis w) (clock w) (lockKeyOf key)
          ("lock:" +:+ pretty (clock w) +:+ ":" +:+ nextRandom (entropy w))
          ttlMs).2).
Proof. reflexivity. Qed.

(** A successful [acquireLock] stores its token under the key, to expire
    [ttlMs] after the current instant. *)
Lemma acquireLock_Some_inv (key : string) (ttlMs : Z) (w w1 : World) (id : string) :
  RedisClient.acquireLock key ttlMs w = (Return (Some id), w1) ->
  redisGet (redis w) (clock w) (lockKeyOf key) = None /\
  redis w1 = <[lockKeyOf key := mkRedisEntry id (Some (clock w + ttlMs))]> (redis w).
Proof.
  rewrite acquireLock_run. unfold redisSetPxNx.
  destruct (redisGet (redis w) (clock w) (lockKeyOf key)); cbn [fst snd];
    intros [= <- <-]; done.
Qed.

(** What [releaseLock] does, in one equation. *)
Lemma releaseLock_run (key lockId : string) (w : World) :
  RedisClient.releaseLock key lockId w
  = (Return ((releaseScript (redis w) (clock w) (lockKeyOf key) lockId).1 =? 1),
     set_redis (set_trace w (trace w ++ [CallReleaseLock (lockKeyOf key)]))
       (releaseScript (redis w) (clock w) (lockKeyOf key) lockId).2).
Proof. reflexivity. Qed.

Lemma releaseScript_held r now k v :
  redisGet r now k = Some v -> releaseScript r now k v = (1, delete k r).
Proof.
  intros H. unfold releaseScript, redisDel. rewrite H.
  by rewrite bool_decide_eq_true_2.
Qed.

Lemma releaseScript_not_held r now k v :
  redisGet r now k <> Some v -> releaseScript r now k v = (0, r).
Proof.
  intros H. unfold releaseScript. by rewrite bool_decide_eq_false_2.
Qed.

(** X1. While a lease is running nobody else can take the lock, and once
    its time is up anybody can: after a successful [acquireLock] with
    lifetime [ttlMs], a second [acquireLock] on the same key (the key not
    having been written in between) returns null and leaves Redis as it is
    when it comes before the expiry instant, and obtains the lock when it
    comes at or after it. *)
Theorem acquireLock_excludes_until_expiry (key : string) (ttlMs ttlMs' : Z)
    (w w1 w1' : World) (id : string) :
  RedisClient.acquireLock key ttlMs w = (Return (Some id), w1) ->
  redis w1' !! lockKeyOf key = redis w1 !! lockKeyOf key ->
  (clock w1' < clock w + ttlMs ->
   (RedisClient.acquireLock key ttlMs' w1').1 = Return None /\
   redis (RedisClient.acquireLock key ttlMs' w1').2 = redis w1') /\
  (clock w + ttlMs <= clock w1' ->
   exists id',
     (RedisClient.acquireLock key ttlMs' w1').1 = Return (Some id') /\
     redis (RedisClient.acquireLock key ttlMs' w1').2 !! lockKeyOf key
       = Some (mkRedisEntry id' (Some (clock w1' + ttlMs')))).
Proof.
  intros [_ Hr1]%acquireLock_Some_inv Hsame.
  rewrite Hr1, lookup_insert_eq in Hsame.
  rewrite acquireLock_run. unfold redisSetPxNx, redisGet. rewrite Hsame.
  cbn [entryLive expiresAt entry_value fst snd].
  split; intros Ht.
  - by rewrite (proj2 (Z.ltb_lt _ _) Ht).
  - rewrite (proj2 (Z.ltb_ge _ _) Ht). cbn [fst snd]. eexists. split; [done|].
    apply lookup_insert_eq.
Qed.

(** X2. Acquire, then release with the token received, before the lease
    runs out: [releaseLock] returns true, the key is free again, and every
    other key of Redis is as it was before the lock was taken. *)
Theorem acquire_release_round_trip (key : string) (ttlMs : Z)
    (w w1 w1' : World) (id : string) :
  RedisClient.acquireLock key ttlMs w = (Return (Some id), w1) ->
  redis w1' = redis w1 ->
  clock w1' < clock w + ttlMs ->
  (RedisClient.releaseLock key id w1').1 = Return true /\
  redisGet (redis (RedisClient.releaseLock key id w1').2) (clock w1')
           (lockKeyOf key) = None /\
  (forall k', k' <> lockKeyOf key ->
     redis (RedisClient.releaseLock key id w1').2 !! k' = redis w !! k').
Proof.
  intros [_ Hr1]%acquireLock_Some_inv Hsame Ht.
  assert (Hheld : redisGet (redis w1') (clock w1') (lockKeyOf key) = Some id).
  { unfold redisGet. rewrite Hsame, Hr1, lookup_insert_eq.
    cbn [entryLive expiresAt entry_value]. by rewrite (proj2 (Z.ltb_lt _ _) Ht). }
  rewrite releaseLock_run, (releaseScript_held _ _ _ _ Hheld).
  cbn [fst snd redis set_redis]. split_and!.
  - reflexivity.
  - apply redisGet_delete.
  - intros k' Hk'. rewrite Hsame, Hr1.
    by rewrite lookup_delete_ne, lookup_insert_ne.
Qed.

Lemma acquireLock_excludes_until_expiry_witness :
  ((clock sampleLockedSoon < clock sampleWorld + 15000 ->
    (RedisClient.acquireLock "booking:slot:s-1" 15000 sampleLockedSoon).1 = Return None /\
    redis (RedisClient.acquireLock "booking:slot:s-1" 15000 sampleLockedSoon).2
      = redis sampleLockedSoon) /\
   (clock sampleWorld + 15000 <= clock sampleLockedSoon ->
    exists id',
      (RedisClient.acquireLock "booking:slot:s-1" 15000 sampleLockedSoon).1
        = Return (Some id') /\
      redis (RedisClient.acquireLock "booking:slot:s-1" 15000 sampleLockedSoon).2
        !! lockKeyOf "booking:slot:s-1"
        = Some (mkRedisEntry id' (Some (clock sampleLockedSoon + 15000))))).
Proof.
  apply (acquireLock_excludes_until_expiry "booking:slot:s-1" 15000 15000
           sampleWorld sampleLocked sampleLockedSoon sampleLockToken).
  - vm_compute. reflexivity.
  - reflexivity.
Defined.

Lemma acquire_release_round_trip_witness :
  (RedisClient.releaseLock "booking:slot:s-1" sampleLockToken sampleLockedSoon).1
    = Return true /\
  redisGet (redis (RedisClient.releaseLock "booking:slot:s-1" sampleLockToken
                     sampleLockedSoon).2)
           (clock sampleLockedSoon) (lockKeyOf "booking:slot:s-1") = None /\
  (forall k', k' <> lockKeyOf "booking:slot:s-1" ->
     redis (RedisClient.releaseLock "booking:slot:s-1" sampleLockToken
              sampleLockedSoon).2 !! k' = redis sampleWorld !! k').
Proof.
  apply (acquire_release_round_trip "booking:slot:s-1" 15000
           sampleWorld sampleLocked sampleLockedSoon sampleLockToken).
  - vm_compute. reflexivity.
  - reflexivity.
  - vm_compute. reflexivity.
Defined.

(** X3. A token other than the holder's never releases a running lease:
    after a successful [acquireLock] that returned [id2], a [releaseLock]
    with another token [id1] (say that of an earlier holder whose lease ran
    out) returns false and leaves Redis as it is, the lock still reading
    [id2]. *)
Theorem stale_release_keeps_new_lease (key : string) (ttlMs : Z)
    (w w1 w1' : World) (id1 id2 : string) :
  RedisClient.acquireLock key ttlMs w = (Return (Some id2), w1) ->
  id1 <> id2 ->
  redis w1' = redis w1 ->
  clock w1' < clock w + ttlMs ->
  (RedisClient.releaseLock key id1 w1').1 = Return false /\
  redis (RedisClient.releaseLock key id1 w1').2 = redis w1' /\
  redisGet (redis (RedisClient.releaseLock key id1 w1').2) (clock w1')
           (lockKeyOf key) = Some id2.
Proof.
  intros [_ Hr1]%acquireLock_Some_inv Hne Hsame Ht.
  assert (Hheld : redisGet (redis w1') (clock w1') (lockKeyOf key) = Some id2).
  { unfold redisGet. rewrite Hsame, Hr1, lookup_insert_eq.
    cbn [entryLive expiresAt entry_value]. by rewrite (proj2 (Z.ltb_lt _ _) Ht). }
  rewrite releaseLock_run, releaseScript_not_held by (rewrite Hheld; congruence).
  cbn [fst snd redis set_redis]. done.
Qed.

Lemma stale_release_keeps_new_lease_witness :
  (RedisClient.releaseLock "booking:slot:s-1" "lock:27100000:zzzzz" sampleLockedSoon).1
    = Return false /\
  redis (RedisClient.releaseLock "booking:slot:s-1" "lock:27100000:zzzzz"
           sampleLockedSoon).2 = redis sampleLockedSoon /\
  redisGet (redis (RedisClient.releaseLock "booking:slot:s-1" "lock:27100000:zzzzz"
                     sampleLockedSoon).2)
           (clock sampleLockedSoon) (lockKeyOf "booking:slot:s-1")
    = Some sampleLockToken.
Proof.
  apply (stale_release_keeps_new_lease "booking:slot:s-1" 15000
           sampleWorld sampleLocked sampleLockedSoon
           "lock:27100000:zzzzz" sampleLockToken).
  - vm_compute. reflexivity.
  - discriminate.
  - reflexivity.
  - vm_compute. reflexivity.
Defined.

(** X4. The reconnection policy gives up exactly from the eleventh attempt
    on; before that the delay is 200 ms per attempt made, so it never
    exceeds 2000 ms and the cap of 5000 ms is never reached. *)
Theorem retryStrategy_delay (times : Z) :
  (retryStrategy times = None <-> 10 < times) /\
  (forall delay, retryStrategy times = Some delay ->
     delay = times * 200 /\ delay <= 2000 /\ delay < 5000).
Proof.
  unfold retryStrategy. destruct (Z.ltb_spec 10 times) as [Hgt | Hle].
  - split; [done|]. intros delay [=].
  - split; [split; [discriminate | lia]|].
    intros delay [= <-]. lia.
Qed.

(** ** Redis keys *)

Lemma redisDel_get_same r now k : redisGet (redisDel r now k).2 now k = None.
Proof.
  unfold redisDel. destruct (redisGet r now k) eqn:H; cbn [snd]; [|done].
  apply redisGet_delete.
Qed.

Lemma redisDel_get_other r now k k' :
  k' <> k -> redisGet (redisDel r now k).2 now k' = redisGet r now k'.
Proof.
  intros Hne. unfold redisDel. destruct (redisGet r now k); cbn [snd]; [|done].
  unfold redisGet. by rewrite lookup_delete_ne.
Qed.

Lemma releaseScript_get_other r now k v k' :
  k' <> k -> redisGet (releaseScript r now k v).2 now k' = redisGet r now k'.
Proof.
  intros Hne. unfold releaseScript. case_bool_decide; [|done].
  by apply redisDel_get_other.
Qed.

Lemma releaseScript_get_none r now k v k' :
  redisGet r now k' = None -> redisGet (releaseScript r now k v).2 now k' = None.
Proof.
  intros Hnone. destruct (decide (k' = k)) as [->|Hne].
  - unfold releaseScript. case_bool_decide; [|done]. apply redisDel_get_same.
  - by rewrite releaseScript_get_other.
Qed.

Lemma redisGet_insert_live r now k v ttl :
  0 < ttl -> redisGet (<[k := mkRedisEntry v (Some (now + ttl))]> r) now k = Some v.
Proof.
  intros Hpos. unfold redisGet. rewrite lookup_insert_eq.
  cbn [entryLive expiresAt entry_value]. by rewrite (proj2 (Z.ltb_lt _ _)) by lia.
Qed.

Lemma redisGet_insert_other r now k k' e :
  k' <> k -> redisGet (<[k := e]> r) now k' = redisGet r now k'.
Proof. intros Hne. unfold redisGet. by rewrite lookup_insert_ne. Qed.

Lemma cacheKey_not_lockKey (venueId day slotId : string) :
  cacheKeyOf venueId day <> slotLockKey slotId.
Proof. discriminate. Qed.

(** Some hypothesis equates two distinct constructors once computed. *)
Ltac absurd_hyp :=
  exfalso;
  match goal with
  | H : _ = _ |- _ => cbn [fst snd isNull head negb] in H; discriminate H
  end.

(** ** What a returning [createBooking] has checked and done *)

Lemma createBooking_Return_effects (input : CreateBookingInput) (w w1 : World)
    (b : Booking) :
  BookingService.createBooking input w = (Return b, w1) ->
  exists slot u,
    redisGet (redis w) (clock w) (slotLockKey (create_slotId input)) = None /\
    findActiveUser (db w) (create_userId input) = Some u /\
    Z.of_nat (List.length (confirmedBookingsOf (db w) (create_userId input)))
      < envInt (MAX_CONCURRENT_BOOKINGS_PER_USER (env w)) 5 /\
    slots (db w) !! create_slotId input = Some slot /\
    Slot.canAccommodate slot (create_guestCount input) = true /\
    Slot.isPast slot (clock w) = false /\
    startTime slot
      <= clock w + envInt (MAX_BOOKING_ADVANCE_DAYS (env w)) 90 * MS_PER_DAY /\
    confirmedBookingsOn (db w) (create_userId input) (create_slotId input) = [] /\
    b = mintedBooking input slot w /\
    db w1 = mkDatabase (users (db w))
              (<[nextBookingId (entropy w) := b]> (bookings (db w)))
              (<[slot_id slot := debitedSlot slot (create_guestCount input)]>
                 (slots (db w))) /\
    tx w1 = None /\
    clock w1 = clock w /\
    jobs w1 = (jobs w ++ [mkJob "booking:confirmed"
                 [("bookingId", nextBookingId (entropy w));
                  ("userId", create_userId input);
                  ("confirmationCode", default "" (confirmationCode b))]])%list /\
    published w1 = published w /\
    redisGet (redis w1) (clock w) (slotLockKey (create_slotId input)) = None /\
    redisGet (redis w1) (clock w) (cacheKeyOf (create_venueId input) (date slot))
      = None /\
    (forall k, k <> slotLockKey (create_slotId input) ->
               k <> cacheKeyOf (create_venueId input) (date slot) ->
               redisGet (redis w1) (clock w) k = redisGet (redis w) (clock w) k).
Proof.
  intros H. unfold slotLockKey, cacheKeyOf. mrun_in H.
  repeat mcase_in H.
  all: injection H as <- <-.
  all: wsimpl.
  all: repeat match goal with
         | Hc : negb _ = false |- _ => apply negb_false_iff in Hc
         | Hc : (_ <=? _) = false |- _ => apply Z.leb_gt in Hc
         | Hc : (_ <? startTime _) = false |- _ => apply Z.ltb_ge in Hc
         | Hc : (redisSetPxNx _ _ _ _ _).1 = true |- _ =>
             unfold redisSetPxNx in Hc
         end.
  all: destruct (redisGet (redis w) (clock w)
                   ("lock:" +:+ ("booking:slot:" +:+ create_slotId input)))
         eqn:Hlock; [absurd_hyp|].
  all: destruct (findActiveUser (db w) (create_userId input)) as [u|] eqn:Hu;
         [|absurd_hyp].
  all: destruct (confirmedBookingsOn (db w) (create_userId input)
                   (create_slotId input)) eqn:Hdup; [|absurd_hyp].
  all: rewrite (redisSetPxNx_free _ _ _ _ _ Hlock); cbn [fst snd].
  all: eexists _, u.
  all: split_and!; try done.
  all: try (unfold debitedSlot;
            match goal with Hr : (_ - _ =? 0) = _ |- _ => by rewrite Hr end).
  all: first
    [ rewrite releaseScript_held;
      [ apply redisGet_delete
      | rewrite redisDel_get_other by discriminate;
        by apply redisGet_insert_live ]
    | apply releaseScript_get_none, redisDel_get_same
    | intros k Hk1 Hk2;
      by rewrite releaseScript_get_other, redisDel_get_other,
                 redisGet_insert_other ].
Qed.

(** X5. No double booking: after a [createBooking] that returned, and as
    long as the database is what that call left, a further [createBooking]
    by the same user for the same slot never returns a booking, whatever the
    guest count, the venue given and the state of Redis. *)
Theorem createBooking_twice_never_returns (input input2 : CreateBookingInput)
    (w w1 w1' : World) (b b2 : Booking) :
  BookingService.createBooking input w = (Return b, w1) ->
  db w1' = db w1 ->
  create_userId input2 = create_userId input ->
  create_slotId input2 = create_slotId input ->
  (BookingService.createBooking input2 w1').1 <> Return b2.
Proof.
  intros H1 Hdb Huser Hslot Hret.
  apply createBooking_Return_effects in H1
    as (slot & u & _ & _ & _ & _ & _ & _ & _ & _ & Hb & Hdb1 & _).
  destruct (BookingService.createBooking input2 w1') as [c w2] eqn:H2.
  cbn [fst] in Hret. subst c.
  apply createBooking_Return_effects in H2
    as (slot2 & u2 & _ & _ & _ & _ & _ & _ & _ & Hnone & _).
  assert (Hsome : confirmedBookingsOn (db w1') (create_userId input2)
                    (create_slotId input2) <> []).
  { apply confirmedBookingsOn_nonempty.
    exists (nextBookingId (entropy w)), b. rewrite Hdb, Hdb1. cbn [bookings].
    rewrite lookup_insert_eq, Huser, Hslot, Hb. done. }
  by rewrite Hnone in Hsome.
Qed.

Lemma createBooking_twice_never_returns_witness :
  (BookingService.createBooking fullInput sampleBooked).1 <> Return sampleBooking.
Proof.
  apply (createBooking_twice_never_returns sampleInput fullInput sampleWorld
           sampleBooked sampleBooked sampleBooking sampleBooking).
  - vm_compute. reflexivity.
  - reflexivity.
  - reflexivity.
  - reflexivity.
Defined.

(** X6. The slot row a returning [createBooking] leaves behind is sound
    whatever it was before: its remaining capacity is the old one minus the
    guest count and is not negative, its status is BOOKED exactly when
    nothing remains and AVAILABLE otherwise, its capacity is untouched, and
    if the guest count is not negative and the old remaining capacity was
    within the capacity, so is the new one. *)
Theorem createBooking_leaves_sound_slot (input : CreateBookingInput)
    (w w1 : World) (b : Booking) (slot : Slot) :
  BookingService.createBooking input w = (Return b, w1) ->
  slots (db w) !! create_slotId input = Some slot ->
  slot_id slot = create_slotId input ->
  exists slot',
    slots (db w1) !! create_slotId input = Some slot' /\
    remainingCapacity slot' = remainingCapacity slot - create_guestCount input /\
    0 <= remainingCapacity slot' /\
    (slot_status slot' = BOOKED <-> remainingCapacity slot' = 0) /\
    (slot_status slot' = AVAILABLE <-> 0 < remainingCapacity slot') /\
    capacity slot' = capacity slot /\
    (0 <= create_guestCount input ->
     remainingCapacity slot <= capacity slot ->
     remainingCapacity slot' <= capacity slot').
Proof.
  intros H Hs Hid.
  apply createBooking_Return_effects in H
    as (slot0 & u & _ & _ & _ & Hs0 & Hacc & _ & _ & _ & _ & Hdb1 & _).
  rewrite Hs in Hs0. injection Hs0 as <-.
  apply canAccommodate_true in Hacc as (Hst & Hpos & Hle).
  exists (debitedSlot slot (create_guestCount input)).
  split; [by rewrite Hdb1, Hid; apply lookup_insert_eq|].
  unfold debitedSlot.
  destruct (Z.eqb_spec (remainingCapacity slot - create_guestCount input) 0)
    as [Hz | Hnz]; cbn [remainingCapacity slot_status capacity
                        Slot_set_status Slot_set_remainingCapacity];
    rewrite ?Hst; split_and!; try done; try lia.
  - split; [discriminate | lia].
  - split; [lia | done].
Qed.

Lemma createBooking_leaves_sound_slot_witness :
  exists slot',
    slots (db sampleFull) !! create_slotId fullInput = Some slot' /\
    remainingCapacity slot' = remainingCapacity sampleSlot - create_guestCount fullInput /\
    0 <= remainingCapacity slot' /\
    (slot_status slot' = BOOKED <-> remainingCapacity slot' = 0) /\
    (slot_status slot' = AVAILABLE <-> 0 < remainingCapacity slot') /\
    capacity slot' = capacity sampleSlot /\
    (0 <= create_guestCount fullInput ->
     remainingCapacity sampleSlot <= capacity sampleSlot ->
     remainingCapacity slot' <= capacity slot').
Proof.
  apply (createBooking_leaves_sound_slot fullInput sampleWorld sampleFull
           (mintedBooking fullInput sampleSlot sampleWorld) sampleSlot).
  - vm_compute. reflexivity.
  - vm_compute. reflexivity.
  - reflexivity.
Defined.

Lemma createBooking_locked_run (input : CreateBookingInput) (w : World) :
  redisGet (redis w) (clock w) (slotLockKey (create_slotId input)) <> None ->
  BookingService.createBooking input w
  = (Throw (BookingError "This slot is currently being processed. Please try again."
                         "SLOT_LOCKED" 409),
     set_trace w (trace w ++ [CallAcquireLock (slotLockKey (create_slotId input))])).
Proof.
  intros Hheld. unfold slotLockKey in *. mrun.
  rewrite (redisSetPxNx_held _ _ _ _ _ Hheld). mrun.
  by destruct w.
Qed.

(** X7. A [createBooking] that finds the slot locked throws SLOT_LOCKED
    (409) having done nothing but ask for the lock: no transaction is
    opened, the database and the queue are untouched, and Redis is left as
    it is, so the holder's lock is neither released nor replaced. *)
Theorem createBooking_locked_touches_nothing (input : CreateBookingInput)
    (w : World) :
  redisGet (redis w) (clock w) (slotLockKey (create_slotId input)) <> None ->
  BookingService.createBooking input w
  = (Throw (BookingError "This slot is currently being processed. Please try again."
                         "SLOT_LOCKED" 409),
     set_trace w (trace w ++ [CallAcquireLock (slotLockKey (create_slotId input))])).
Proof. apply createBooking_locked_run. Qed.

Lemma createBooking_locked_touches_nothing_witness :
  BookingService.createBooking sampleInput sampleLockedSoon
  = (Throw (BookingError "This slot is currently being processed. Please try again."
                         "SLOT_LOCKED" 409),
     set_trace sampleLockedSoon
       (trace sampleLockedSoon ++ [CallAcquireLock (slotLockKey "s-1")])).
Proof.
  apply (createBooking_locked_touches_nothing sampleInput sampleLockedSoon).
  vm_compute. discriminate.
Defined.

(** ** Conservation of places *)

Lemma placesTakenBy_Permutation (slot : string) (l l' : list Booking) :
  l ≡ₚ l' -> placesTakenBy slot l = placesTakenBy slot l'.
Proof.
  unfold placesTakenBy.
  induction 1 as [|b l l' _ IH|b b' l|l l' l'' _ IH1 _ IH2]; cbn [foldr].
  - reflexivity.
  - by rewrite IH.
  - lia.
  - by rewrite IH1.
Qed.

Lemma filter_length_Permutation {A} (f : A -> bool) (l l' : list A) :
  l ≡ₚ l' -> List.length (List.filter f l) = List.length (List.filter f l').
Proof.
  induction 1 as [|b l l' _ IH|b b' l|l l' l'' _ IH1 _ IH2]; cbn.
  - reflexivity.
  - destruct (f b); cbn; by rewrite IH.
  - destruct (f b), (f b'); reflexivity.
  - by rewrite IH1.
Qed.

Lemma values_insert_fresh {V} (m : gmap string V) (k : string) (v : V) :
  m !! k = None -> (map_to_list (<[k := v]> m)).*2 ≡ₚ v :: (map_to_list m).*2.
Proof. intros Hk. by rewrite map_to_list_insert. Qed.

Lemma values_insert_present {V} (m : gmap string V) (k : string) (v v' : V) :
  m !! k = Some v ->
  (map_to_list m).*2 ≡ₚ v :: (map_to_list (delete k m)).*2 /\
  (map_to_list (<[k := v']> m)).*2 ≡ₚ v' :: (map_to_list (delete k m)).*2.
Proof.
  intros Hk. split.
  - rewrite <- (insert_delete_id m k v Hk) at 1.
    apply values_insert_fresh, lookup_delete_eq.
  - rewrite <- insert_delete_eq. apply values_insert_fresh, lookup_delete_eq.
Qed.

(** X8. No over-allocation through [createBooking]: when the call returns
    (the key given to the new booking being a new one), the places taken
    by CONFIRMED bookings of the slot plus its remaining capacity are what
    they were before, and for every other slot the places taken have not
    changed. *)
Theorem createBooking_conserves_places (input : CreateBookingInput)
    (w w1 : World) (b : Booking) (slot : Slot) :
  BookingService.createBooking input w = (Return b, w1) ->
  bookings (db w) !! nextBookingId (entropy w) = None ->
  slots (db w) !! create_slotId input = Some slot ->
  slot_id slot = create_slotId input ->
  exists slot',
    slots (db w1) !! create_slotId input = Some slot' /\
    confirmedGuestsOn (db w1) (create_slotId input) + remainingCapacity slot'
      = confirmedGuestsOn (db w) (create_slotId input) + remainingCapacity slot /\
    (forall other, other <> create_slotId input ->
       confirmedGuestsOn (db w1) other = confirmedGuestsOn (db w) other).
Proof.
  intros H Hfresh Hs Hid.
  apply createBooking_Return_effects in H
    as (slot0 & u & _ & _ & _ & Hs0 & _ & _ & _ & _ & Hb & Hdb1 & _).
  rewrite Hs in Hs0. injection Hs0 as <-.
  exists (debitedSlot slot (create_guestCount input)).
  split; [by rewrite Hdb1, Hid; apply lookup_insert_eq|].
  unfold confirmedGuestsOn. rewrite Hdb1. cbn [bookings].
  pose proof (values_insert_fresh (bookings (db w)) _ b Hfresh) as Hperm.
  split.
  - rewrite (placesTakenBy_Permutation _ _ _ Hperm).
    destruct (debitedSlot_fields slot (create_guestCount input)) as (-> & _).
    unfold placesTakenBy. cbn [foldr]. unfold placesTaken at 1. subst b.
    cbn [mintedBooking booking_status slotId guestCount].
    rewrite bool_decide_eq_true_2, String.eqb_refl by reflexivity.
    cbn [andb]. lia.
  - intros other Hne. rewrite (placesTakenBy_Permutation _ _ _ Hperm).
    unfold placesTakenBy. cbn [foldr]. unfold placesTaken at 1. subst b.
    cbn [mintedBooking booking_status slotId guestCount].
    rewrite (proj2 (String.eqb_neq _ _)) by congruence.
    rewrite andb_false_r. lia.
Qed.

Lemma createBooking_conserves_places_witness :
  exists slot',
    slots (db sampleBooked) !! create_slotId sampleInput = Some slot' /\
    confirmedGuestsOn (db sampleBooked) (create_slotId sampleInput)
      + remainingCapacity slot'
      = confirmedGuestsOn (db sampleWorld) (create_slotId sampleInput)
        + remainingCapacity sampleSlot /\
    (forall other, other <> create_slotId sampleInput ->
       confirmedGuestsOn (db sampleBooked) other
       = confirmedGuestsOn (db sampleWorld) other).
Proof.
  apply (createBooking_conserves_places sampleInput sampleWorld sampleBooked
           sampleBooking sampleSlot).
  - vm_compute. reflexivity.
  - vm_compute. reflexivity.
  - vm_compute. reflexivity.
  - reflexivity.
Defined.

(** X9. The cap on concurrent bookings holds through [createBooking]: when
    the call returns (the key given to the new booking being a new one),
    the user had fewer CONFIRMED bookings than the cap allows, has exactly
    one more afterwards, and so is still within the cap. *)
Theorem createBooking_respects_cap (input : CreateBookingInput)
    (w w1 : World) (b : Booking) :
  BookingService.createBooking input w = (Return b, w1) ->
  bookings (db w) !! nextBookingId (entropy w) = None ->
  List.length (confirmedBookingsOf (db w1) (create_userId input))
    = S (List.length (confirmedBookingsOf (db w) (create_userId input))) /\
  Z.of_nat (List.length (confirmedBookingsOf (db w1) (create_userId input)))
    <= envInt (MAX_CONCURRENT_BOOKINGS_PER_USER (env w)) 5.
Proof.
  intros H Hfresh.
  apply createBooking_Return_effects in H
    as (slot & u & _ & _ & Hcap & _ & _ & _ & _ & _ & Hb & Hdb1 & _).
  assert (Hlen : List.length (confirmedBookingsOf (db w1) (create_userId input))
    = S (List.length (confirmedBookingsOf (db w) (create_userId input)))).
  { unfold confirmedBookingsOf. rewrite Hdb1. cbn [bookings].
    rewrite (filter_length_Permutation _ _ _
               (values_insert_fresh (bookings (db w)) _ b Hfresh)).
    cbn [List.filter]. unfold isConfirmedBookingOf at 1. subst b.
    cbn [mintedBooking booking_status userId].
    by rewrite String.eqb_refl, bool_decide_eq_true_2. }
  split; [exact Hlen|]. rewrite Hlen. lia.
Qed.

Lemma createBooking_respects_cap_witness :
  List.length (confirmedBookingsOf (db sampleBooked) (create_userId sampleInput))
    = S (List.length (confirmedBookingsOf (db sampleWorld) (create_userId sampleInput))) /\
  Z.of_nat (List.length (confirmedBookingsOf (db sampleBooked) (create_userId sampleInput)))
    <= envInt (MAX_CONCURRENT_BOOKINGS_PER_USER (env sampleWorld)) 5.
Proof.
  apply (createBooking_respects_cap sampleInput sampleWorld sampleBooked
           sampleBooking).
  - vm_compute. reflexivity.
  - vm_compute. reflexivity.
Defined.

(** The [catch] block of both operations, run on a domain error. *)
Ltac rollback_case w :=
  destruct (rollbackFault (faults w)); munfold_checks; wsimpl;
  intros Hcode; [discriminate Hcode | done].

(** X10. A [createBooking] refused with a domain error (any error that
    carries a code) has written nothing: the committed database, the queue,
    the notifications sent and the events published are what they were. *)
Theorem createBooking_refused_writes_nothing (input : CreateBookingInput)
    (w : World) (code : string) :
  thrownCode (BookingService.createBooking input w).1 = Some code ->
  db (BookingService.createBooking input w).2 = db w /\
  jobs (BookingService.createBooking input w).2 = jobs w /\
  notifications (BookingService.createBooking input w).2 = notifications w /\
  published (BookingService.createBooking input w).2 = published w.
Proof.
  destruct (redisGet (redis w) (clock w) (slotLockKey (create_slotId input)))
    as [holder|] eqn:Hlock.
  { rewrite createBooking_locked_run by (rewrite Hlock; discriminate). done. }
  unfold slotLockKey in Hlock.
  munfold_checks; wsimpl.
  rewrite (redisSetPxNx_free _ _ _ _ _ Hlock). munfold_checks; wsimpl.
  destruct (isNull (findActiveUser _ _)); munfold_checks; wsimpl;
    [rollback_case w|].
  destruct (_ <=? _); munfold_checks; wsimpl; [rollback_case w|].
  destruct (slots (db w) !! create_slotId input) as [s|];
    munfold_checks; wsimpl; [|rollback_case w].
  destruct (bool_decide (slot_status s = BLOCKED));
    munfold_checks; wsimpl; [rollback_case w|].
  destruct (negb (Slot.canAccommodate s (create_guestCount input)));
    munfold_checks; wsimpl; [rollback_case w|].
  destruct (Slot.isPast s (clock w)); munfold_checks; wsimpl; [rollback_case w|].
  destruct (_ <? startTime s); munfold_checks; wsimpl; [rollback_case w|].
  destruct (negb (isNull _)); munfold_checks; wsimpl; [rollback_case w|].
  match goal with
  | |- context [BookingService.createBookingPersist input s ?w1] =>
      pose proof (createBookingPersist_raises input s w1) as Hraise;
      destruct (BookingService.createBookingPersist input s w1) as [[b|e] w2]
        eqn:Hp
  end.
  - discriminate.
  - specialize (Hraise e w2 Hp). munfold_checks; wsimpl.
    destruct (rollbackFault (faults w2)); munfold_checks; wsimpl;
      intros Hcode; congruence.
Qed.

Lemma createBooking_refused_writes_nothing_witness :
  db (BookingService.createBooking heldInput heldWorld).2 = db heldWorld /\
  jobs (BookingService.createBooking heldInput heldWorld).2 = jobs heldWorld /\
  notifications (BookingService.createBooking heldInput heldWorld).2
    = notifications heldWorld /\
  published (BookingService.createBooking heldInput heldWorld).2
    = published heldWorld.
Proof.
  apply (createBooking_refused_writes_nothing heldInput heldWorld
           "INSUFFICIENT_CAPACITY").
  vm_compute. reflexivity.
Defined.

(** ** What a computation leaves untouched *)

Section Keeps.
Context {A B : Type}.
Variable I : World -> Prop.

Lemma Keeps_bind (m : M A) (k : A -> M B) :
  Keeps I m -> (forall a, Keeps I (k a)) -> Keeps I (m ≫= k).
Proof.
  intros Hm Hk w Hw. unfold mbind, M_bind.
  specialize (Hm w Hw). destruct (m w) as [[a|e] w1]; cbn [snd] in *.
  - by apply Hk.
  - exact Hm.
Qed.

Lemma Keeps_ret (a : A) : Keeps I (mret a).
Proof. by intros w Hw. Qed.

Lemma Keeps_gets (f : World -> A) : Keeps I (gets f).
Proof. by intros w Hw. Qed.

Lemma Keeps_throw (e : Error) : Keeps I (@throw A e).
Proof. by intros w Hw. Qed.

Lemma Keeps_tryCatch (body : M A) (handler : Error -> M A) :
  Keeps I body -> (forall e, Keeps I (handler e)) ->
  Keeps I (tryCatch body handler).
Proof.
  intros Hb Hh w Hw. unfold tryCatch.
  specialize (Hb w Hw). destruct (body w) as [[a|e] w1]; cbn [snd] in *.
  - exact Hb.
  - by apply Hh.
Qed.

Lemma Keeps_tryFinally (body : M A) (fin : M unit) :
  Keeps I body -> Keeps I fin -> Keeps I (tryFinally body fin).
Proof.
  intros Hb Hf w Hw. unfold tryFinally.
  specialize (Hb w Hw). destruct (body w) as [c w1]; cbn [snd] in *.
  specialize (Hf w1 Hb). by destruct (fin w1) as [[[]|e] w2].
Qed.
End Keeps.

Lemma Keeps_modify (I : World -> Prop) (f : World -> World) :
  (forall w, I w -> I (f w)) -> Keeps I (modify f).
Proof. intros Hf w Hw. by apply Hf. Qed.

Lemma Keeps_throwIf (I : World -> Prop) (c : bool) (e : Error) :
  Keeps I (throwIf c e).
Proof. intros w Hw. by destruct c. Qed.

Lemma Keeps_failWhen (I : World -> Prop) (f : option string) :
  Keeps I (failWhen f).
Proof. intros w Hw. by destruct f. Qed.


(** One syntax-directed step; a [modify] leaves the preservation of the
    property by the update as a goal. *)
Ltac keeps_step :=
  lazymatch goal with
  | |- Keeps _ (mbind _ _) => apply Keeps_bind; [|intros ?]
  | |- Keeps _ (mret _) => apply Keeps_ret
  | |- Keeps _ (gets _) => apply Keeps_gets
  | |- Keeps _ newDate => apply Keeps_gets
  | |- Keeps _ (throw _) => apply Keeps_throw
  | |- Keeps _ (throwIf _ _) => apply Keeps_throwIf
  | |- Keeps _ (failWhen _) => apply Keeps_failWhen
  | |- Keeps _ (tryFinally _ _) => apply Keeps_tryFinally
  | |- Keeps _ (tryCatch _ _) => apply Keeps_tryCatch; [|intros ?]
  | |- Keeps _ (modify _) => apply Keeps_modify
  | |- Keeps _ (record _) => unfold record
  | |- Keeps _ (match ?x with Some _ => _ | None => _ end) => destruct x
  | |- Keeps _ (let '(_, _) := ?x in _) => destruct x
  | |- Keeps _ (if ?c then _ else _) => destruct c
  | |- Keeps _ (userRepo_findOneActive _) => apply Keeps_gets
  | |- Keeps _ (bookingRepo_countConfirmed _) => apply Keeps_gets
  | |- Keeps _ (bookingRepo_findConfirmed _ _) => apply Keeps_gets
  | |- Keeps _ (bookingRepo_findOne _) => apply Keeps_gets
  | |- Keeps _ (bookingRepo_findOneWithSlot _) => apply Keeps_gets
  | |- Keeps _ (slotRepo_findOne _) => apply Keeps_gets
  | |- Keeps _ (slotRepo_save _) => unfold slotRepo_save
  | |- Keeps _ (QueryRunner.getSlotForUpdate _) => apply Keeps_gets
  | |- Keeps _ (QueryRunner.saveSlot _) => unfold QueryRunner.saveSlot
  | |- Keeps _ (publishSlotUpdated _) => unfold publishSlotUpdated
  | |- Keeps _ QueryRunner.connect => unfold QueryRunner.connect
  | |- Keeps _ QueryRunner.release => unfold QueryRunner.release
  | |- Keeps _ (QueryRunner.startTransaction _) => unfold QueryRunner.startTransaction
  | |- Keeps _ QueryRunner.commitTransaction => unfold QueryRunner.commitTransaction
  | |- Keeps _ QueryRunner.rollbackTransaction => unfold QueryRunner.rollbackTransaction
  | |- Keeps _ (QueryRunner.saveBooking _ _) => unfold QueryRunner.saveBooking
  | |- Keeps _ (QueueService.addJob _ _) => unfold QueueService.addJob
  | |- Keeps _ (NotificationService.send _) => unfold NotificationService.send
  | |- Keeps _ (BookingService.invalidateSlotCache _ _) =>
      unfold BookingService.invalidateSlotCache
  | |- Keeps _ (RedisClient.acquireLock _ _) => unfold RedisClient.acquireLock
  | |- Keeps _ (RedisClient.releaseLock _ _) => unfold RedisClient.releaseLock
  | |- Keeps _ (BookingService.createBookingPersist _ _) =>
      unfold BookingService.createBookingPersist
  | |- Keeps _ (BookingService.createBookingBody _) =>
      unfold BookingService.createBookingBody
  | |- Keeps _ (BookingService.cancelBookingBody _ _ _ _) =>
      unfold BookingService.cancelBookingBody
  end.

Ltac keeps := repeat keeps_step.

Lemma redisDel_lookup_other r now k k' :
  k' <> k -> (redisDel r now k).2 !! k' = r !! k'.
Proof.
  intros Hne. unfold redisDel. destruct (redisGet r now k); cbn [snd]; [|done].
  by rewrite lookup_delete_ne.
Qed.


(** [createBooking] is [createBookingWith] on a connection in good order. *)
Lemma createBooking_on_good_connection (input : CreateBookingInput) :
  BookingService.createBooking input
  = createBookingWith QueryRunner.connect
      (QueryRunner.startTransaction "SERIALIZABLE") QueryRunner.release input.
Proof. reflexivity. Qed.






(** ** [cancelBooking] *)

(** The database a [cancelBooking] of row [b] that returns commits: the
    booking row replaced by its cancelled version, and the slot row, when
    there is one, credited. *)
Lemma cancelBooking_Return_effects (cin : CancelBookingInput) (w w1 : World)
    (b' : Booking) :
  (forall b, bookings (db w) !! cancel_bookingId cin = Some b ->
             booking_id b = Some (cancel_bookingId cin)) ->
  BookingService.cancelBooking cin w = (Return b', w1) ->
  exists b,
    bookings (db w) !! cancel_bookingId cin = Some b /\
    userId b = cancel_userId cin /\
    booking_status b <> CANCELLED /\
    booking_status b <> COMPLETED /\
    b' = Booking_set_cancelled b (clock w) (cancel_reason cin) /\
    users (db w1) = users (db w) /\
    bookings (db w1) = <[cancel_bookingId cin := b']> (bookings (db w)) /\
    slots (db w1)
      = match slots (db w) !! slotId b with
        | Some slot => <[slot_id slot := creditedSlot slot (guestCount b)]> (slots (db w))
        | None => slots (db w)
        end /\
    tx w1 = None /\
    clock w1 = clock w /\
    jobs w1
      = (jobs w ++ [mkJob "booking:cancelled"
                      [("bookingId", cancel_bookingId cin);
                       ("userId", cancel_userId cin);
                       ("slotId", slotId b)]])%list /\
    published w1 = published w /\
    redisGet (redis w1) (clock w) (cacheKeyOf (booking_venueId b) (bookingDate b))
      = None.
Proof.
  intros Hkey Hx. mrun_in Hx.
  destruct (bookings (db w) !! cancel_bookingId cin) as [b|] eqn:Hb;
    mrun_in Hx; [|discriminate Hx].
  specialize (Hkey b eq_refl). exists b.
  destruct (String.eqb (userId b) (cancel_userId cin)) eqn:Hown;
    mrun_in Hx; [|discriminate Hx].
  apply String.eqb_eq in Hown.
  rewrite isCancellable_eq in Hx.
  destruct (bool_decide (booking_status b = CANCELLED)) eqn:Hc;
    mrun_in Hx; [discriminate Hx|].
  destruct (bool_decide (booking_status b = COMPLETED)) eqn:Hd;
    mrun_in Hx; [discriminate Hx|].
  apply bool_decide_eq_false_1 in Hc, Hd.
  destruct (slots (db w) !! slotId b) as [slot|] eqn:Hslot; mrun_in Hx.
  2: { destruct (rollbackFault (faults w)); mrun_in Hx; discriminate Hx. }
  rewrite Hkey in Hx. mrun_in Hx. rewrite ?Hslot in Hx. mrun_in Hx.
  rewrite ?creditedSlot_eq, ?Hkey in Hx. wsimpl_in Hx.
  pose proof (creditedSlot_fields slot (guestCount b)) as (_ & _ & Hsid).
  rewrite Hsid in Hx.
  repeat mcase_in Hx.
  all: injection Hx as <- <-; wsimpl; split_and!; try done.
  all: try (by rewrite Hown).
  all: apply redisDel_get_same.
Qed.

Lemma bind_Throw_inv {A B} (m : M A) (k : A -> M B) (w w' : World) (e : Error) :
  (m ≫= k) w = (Throw e, w') ->
  m w = (Throw e, w') \/
  exists a w1, m w = (Return a, w1) /\ k a w1 = (Throw e, w').
Proof.
  unfold mbind, M_bind. destruct (m w) as [[a|e1] w1]; cbn beta iota; intros Hx.
  - right. by exists a, w1.
  - injection Hx as -> ->. by left.
Qed.

Lemma throwIf_inv (c : bool) (e0 e : Error) (w w' : World) :
  throwIf c e0 w = (Throw e, w') -> c = true /\ e = e0 /\ w' = w.
Proof.
  destruct c; unfold throwIf, throw, mret, M_ret; intros Hx;
    [by injection Hx as <- <- | discriminate Hx].
Qed.

Lemma throwIf_Return_inv (c : bool) (e0 : Error) (u : unit) (w w' : World) :
  throwIf c e0 w = (Return u, w') -> c = false /\ w' = w.
Proof.
  destruct c; unfold throwIf, throw, mret, M_ret; intros Hx;
    [discriminate Hx | by injection Hx as <-].
Qed.

(** X12. A [cancelBooking] that is refused with a domain error has done
    nothing at all: the three checks run before the transaction is opened,
    so the world, its call trace included, is the one the call started in.
    The only such errors are BOOKING_NOT_FOUND, UNAUTHORIZED and
    CANCELLATION_NOT_ALLOWED. *)
Theorem cancelBooking_refused_changes_nothing (cin : CancelBookingInput)
    (w : World) (code : string) :
  thrownCode (BookingService.cancelBooking cin w).1 = Some code ->
  (BookingService.cancelBooking cin w).2 = w /\
  (code = "BOOKING_NOT_FOUND" \/ code = "UNAUTHORIZED"
   \/ code = "CANCELLATION_NOT_ALLOWED").
Proof.
  destruct (BookingService.cancelBooking cin w) as [[b'|e] w'] eqn:Hx;
    cbn [fst snd thrownCode]; [discriminate|].
  intros Hcode. unfold BookingService.cancelBooking in Hx.
  apply bind_Throw_inv in Hx as [Hx | (found & w1 & Hf & Hx)]; [discriminate Hx|].
  injection Hf as <- <-.
  destruct (bookings (db w) !! cancel_bookingId cin) as [b|].
  2: { injection Hx as <- <-. injection Hcode as <-. auto. }
  apply bind_Throw_inv in Hx as [Hx | ([] & w1 & Hf & Hx)].
  { apply throwIf_inv in Hx as (_ & -> & ->). injection Hcode as <-. auto. }
  apply throwIf_Return_inv in Hf as (_ & ->).
  apply bind_Throw_inv in Hx as [Hx | (cancellable & w1 & Hf & Hx)]; [discriminate Hx|].
  injection Hf as <- <-.
  apply bind_Throw_inv in Hx as [Hx | ([] & w1 & Hf & Hx)].
  { apply throwIf_inv in Hx as (_ & -> & ->). injection Hcode as <-. auto. }
  apply throwIf_Return_inv in Hf as (_ & ->).
  exfalso. revert Hx Hcode.
  match goal with
  | |- ?m w = _ -> _ => assert (Hr : Raises (fun e => errorCode e = None) m) by raises
  end.
  intros Hx Hcode. apply Hr in Hx. congruence.
Qed.

Lemma cancelBooking_refused_changes_nothing_witness :
  (BookingService.cancelBooking
     (mkCancelBookingInput "b-1" "u-2" None) sampleBooked).2 = sampleBooked /\
  ("UNAUTHORIZED" = "BOOKING_NOT_FOUND" \/ "UNAUTHORIZED" = "UNAUTHORIZED"
   \/ "UNAUTHORIZED" = "CANCELLATION_NOT_ALLOWED").
Proof.
  apply (cancelBooking_refused_changes_nothing
           (mkCancelBookingInput "b-1" "u-2" None) sampleBooked "UNAUTHORIZED").
  vm_compute. reflexivity.
Defined.

(** X13. A booking is cancelled at most once: after a [cancelBooking] that
    returned, the same request on the database it committed is refused
    with CANCELLATION_NOT_ALLOWED, and that second call changes nothing. *)
Theorem cancelBooking_twice_refused (cin : CancelBookingInput)
    (w w1 w1' : World) (b' : Booking) :
  (forall b, bookings (db w) !! cancel_bookingId cin = Some b ->
             booking_id b = Some (cancel_bookingId cin)) ->
  BookingService.cancelBooking cin w = (Return b', w1) ->
  db w1' = db w1 ->
  thrownCode (BookingService.cancelBooking cin w1').1
    = Some "CANCELLATION_NOT_ALLOWED" /\
  (BookingService.cancelBooking cin w1').2 = w1'.
Proof.
  intros Hkey Hx Hdb.
  apply (cancelBooking_Return_effects _ _ _ _ Hkey) in Hx
    as (b & _ & Hown & _ & _ & -> & _ & Hbk & _).
  mrun. rewrite Hdb, Hbk, lookup_insert_eq. mrun.
  rewrite Hown, String.eqb_refl. mrun.
  rewrite isCancellable_eq. wsimpl.
  rewrite bool_decide_eq_true_2 by reflexivity. done.
Qed.

Lemma cancelBooking_twice_refused_witness :
  thrownCode (BookingService.cancelBooking sampleCancel
                (BookingService.cancelBooking sampleCancel sampleBooked).2).1
    = Some "CANCELLATION_NOT_ALLOWED" /\
  (BookingService.cancelBooking sampleCancel
     (BookingService.cancelBooking sampleCancel sampleBooked).2).2
  = (BookingService.cancelBooking sampleCancel sampleBooked).2.
Proof.
  apply (cancelBooking_twice_refused sampleCancel sampleBooked
           (BookingService.cancelBooking sampleCancel sampleBooked).2
           (BookingService.cancelBooking sampleCancel sampleBooked).2
           (Booking_set_cancelled sampleBooking (clock sampleBooked)
                                  (cancel_reason sampleCancel))).
  - intros b Hb. vm_compute in Hb. injection Hb as <-. reflexivity.
  - vm_compute. reflexivity.
  - reflexivity.
Defined.

(** X14. What a cancellation does to the allocation of a slot: when
    [cancelBooking] returns and the slot has a row, the remaining capacity
    rises by the guest count whatever the status of the booking was, so
    remaining capacity plus the places of CONFIRMED bookings is conserved
    exactly when the booking was CONFIRMED; for a booking in another state
    (PENDING, NO_SHOW) the sum grows by its guest count. *)
Theorem cancelBooking_credits_places (cin : CancelBookingInput)
    (w w1 : World) (b b' : Booking) (slot : Slot) :
  BookingService.cancelBooking cin w = (Return b', w1) ->
  bookings (db w) !! cancel_bookingId cin = Some b ->
  booking_id b = Some (cancel_bookingId cin) ->
  slots (db w) !! slotId b = Some slot ->
  slot_id slot = slotId b ->
  exists slot',
    slots (db w1) !! slotId b = Some slot' /\
    remainingCapacity slot' = remainingCapacity slot + guestCount b /\
    confirmedGuestsOn (db w1) (slotId b) + remainingCapacity slot'
      = confirmedGuestsOn (db w) (slotId b) + remainingCapacity slot
        + (if bool_decide (booking_status b = CONFIRMED) then 0 else guestCount b).
Proof.
  intros Hx Hb Hid Hslot Hsid.
  apply cancelBooking_Return_effects in Hx
    as (b0 & Hb0 & _ & Hnc & _ & -> & _ & Hbk & Hsl & _).
  2: { intros b1 Hb1. rewrite Hb in Hb1. by injection Hb1 as <-. }
  rewrite Hb in Hb0. injection Hb0 as <-.
  rewrite Hslot, Hsid in Hsl.
  exists (creditedSlot slot (guestCount b)).
  destruct (creditedSlot_fields slot (guestCount b)) as (Hr & _).
  split; [by rewrite Hsl; apply lookup_insert_eq|].
  split; [exact Hr|]. rewrite Hr.
  unfold confirmedGuestsOn. rewrite Hbk.
  destruct (values_insert_present (bookings (db w)) _ b
              (Booking_set_cancelled b (clock w) (cancel_reason cin)) Hb)
    as [Hold Hnew].
  rewrite (placesTakenBy_Permutation _ _ _ Hold),
          (placesTakenBy_Permutation _ _ _ Hnew).
  unfold placesTakenBy. cbn [foldr]. unfold placesTaken at 1 3.
  cbn [Booking_set_cancelled booking_status slotId guestCount].
  rewrite String.eqb_refl.
  rewrite ?(bool_decide_eq_false_2 (CANCELLED = CONFIRMED)) by discriminate.
  destruct (bool_decide (booking_status b = CONFIRMED)); cbn [andb]; lia.
Qed.

Lemma cancelBooking_credits_places_witness :
  exists slot',
    slots (db (BookingService.cancelBooking sampleCancel sampleBooked).2)
      !! slotId sampleBooking = Some slot' /\
    remainingCapacity slot'
      = remainingCapacity (debitedSlot sampleSlot 2) + guestCount sampleBooking /\
    confirmedGuestsOn (db (BookingService.cancelBooking sampleCancel sampleBooked).2)
                      (slotId sampleBooking) + remainingCapacity slot'
      = confirmedGuestsOn (db sampleBooked) (slotId sampleBooking)
        + remainingCapacity (debitedSlot sampleSlot 2)
        + (if bool_decide (booking_status sampleBooking = CONFIRMED) then 0
           else guestCount sampleBooking).
Proof.
  apply (cancelBooking_credits_places sampleCancel sampleBooked
           (BookingService.cancelBooking sampleCancel sampleBooked).2
           sampleBooking
           (Booking_set_cancelled sampleBooking (clock sampleBooked)
                                  (cancel_reason sampleCancel))
           (debitedSlot sampleSlot 2)).
  - vm_compute. reflexivity.
  - vm_compute. reflexivity.
  - reflexivity.
  - vm_compute. reflexivity.
  - reflexivity.
Defined.

(** X15. [cancelBooking] takes no lock and breaks none: on every path,
    returning or throwing, the Redis entry under the lock key of any slot
    is the one it found, so a cancellation neither waits for a booking in
    progress on the slot nor disturbs the lease that booking holds. *)
Theorem cancelBooking_leaves_locks (cin : CancelBookingInput) (w : World)
    (slot : string) :
  redis (BookingService.cancelBooking cin w).2 !! slotLockKey slot
  = redis w !! slotLockKey slot.
Proof.
  assert (Hk : Keeps (fun w' => redis w' !! slotLockKey slot
                                = redis w !! slotLockKey slot)
                     (BookingService.cancelBooking cin)).
  { unfold BookingService.cancelBooking. keeps.
    all: intros w' Hw'; cbn; try done.
    all: by rewrite redisDel_lookup_other. }
  by apply Hk.
Qed.

(** ** The resolvers *)




Lemma requireAuth_Throw_inv (ctx : AuthenticatedContext) (e : Error)
    (w w' : World) :
  requireAuth ctx w = (Throw e, w') ->
  e = JsError "Authentication required" /\ w' = w.
Proof.
  unfold requireAuth. destruct (isAuthenticated ctx), (auth_user ctx); try done.
  all: by intros [= <- <-].
Qed.

Lemma cancelBooking_service_raises (cin : CancelBookingInput) :
  Raises (fun e => errorCode e = None
                   \/ errorCode e = Some "BOOKING_NOT_FOUND"
                   \/ errorCode e = Some "UNAUTHORIZED"
                   \/ errorCode e = Some "CANCELLATION_NOT_ALLOWED")
         (BookingService.cancelBooking cin).
Proof.
  unfold BookingService.cancelBooking.
  repeat raises_step; cbn [errorCode]; auto.
Qed.

(** X16. What the [cancelBooking] mutation can throw: either the plain
    error of [requireAuth] (which is raised outside the [try], so it does
    not pass through [handleError]) with nothing done, or a GraphQL error
    whose code is BOOKING_NOT_FOUND, UNAUTHORIZED, CANCELLATION_NOT_ALLOWED
    or INTERNAL_SERVER_ERROR. *)
Theorem cancelBooking_resolver_errors (bookingId : string)
    (reason : option string) (ctx : AuthenticatedContext) (w w' : World)
    (e : Error) :
  Mutation.cancelBooking bookingId reason ctx w = (Throw e, w') ->
  (e = JsError "Authentication required" /\ w' = w) \/
  exists message code status,
    e = GraphQLError message code status /\
    (code = "BOOKING_NOT_FOUND" \/ code = "UNAUTHORIZED"
     \/ code = "CANCELLATION_NOT_ALLOWED" \/ code = "INTERNAL_SERVER_ERROR").
Proof.
  intros Hx. unfold Mutation.cancelBooking in Hx.
  apply bind_Throw_inv in Hx as [Hx | (user & w1 & _ & Hx)].
  { left. by apply requireAuth_Throw_inv in Hx. }
  right. revert Hx.
  match goal with
  | |- tryCatch ?body ?h w1 = _ -> ?G =>
      assert (Hr : Raises (fun e => exists message code status,
                    e = GraphQLError message code status /\
                    (code = "BOOKING_NOT_FOUND" \/ code = "UNAUTHORIZED"
                     \/ code = "CANCELLATION_NOT_ALLOWED"
                     \/ code = "INTERNAL_SERVER_ERROR"))
                  (tryCatch body h))
  end.
  { eapply Raises_tryCatch.
    - apply Raises_bind; [apply cancelBooking_service_raises|].
      intros b. repeat raises_step.
    - intros e0 He0. apply handleError_raises.
      + intros m c s Hc. exists m, c, s. split; [done|].
        cbv beta in He0. rewrite Hc in He0.
        destruct He0 as [He0 | [He0 | [He0 | He0]]]; try discriminate He0;
          injection He0 as ->; auto.
      + eexists _, _, _. split; [done|]. auto. }
  intros Hx. exact (Hr _ _ _ Hx).
Qed.

Lemma cancelBooking_resolver_errors_witness :
  (GraphQLError "Not authorized to cancel this booking" "UNAUTHORIZED" (Some 403)
     = JsError "Authentication required" /\ sampleBooked = sampleBooked) \/
  exists message code status,
    GraphQLError "Not authorized to cancel this booking" "UNAUTHORIZED" (Some 403)
      = GraphQLError message code status /\
    (code = "BOOKING_NOT_FOUND" \/ code = "UNAUTHORIZED"
     \/ code = "CANCELLATION_NOT_ALLOWED" \/ code = "INTERNAL_SERVER_ERROR").
Proof.
  apply (cancelBooking_resolver_errors "b-1" None adminContext sampleBooked
           sampleBooked
           (GraphQLError "Not authorized to cancel this booking" "UNAUTHORIZED"
                         (Some 403))).
  vm_compute. reflexivity.
Defined.



(** X18. Every guarded resolver turns an unauthenticated request away
    before it does anything: with no verified user in the context,
    [booking], [bookingByConfirmationCode], [cancelBooking], [blockSlot]
    and [unblockSlot] all throw the plain error "Authentication required"
    (not a GraphQL error: [requireAuth] is called outside every [try]) and
    leave the world as it was. *)
Theorem guarded_resolvers_require_authentication (ctx : AuthenticatedContext)
    (w : World) (id code : string) (reason : option string) :
  isAuthenticated ctx = false \/ auth_user ctx = None ->
  Query.booking id ctx w = (Throw (JsError "Authentication required"), w) /\
  Query.bookingByConfirmationCode code ctx w
    = (Throw (JsError "Authentication required"), w) /\
  Mutation.cancelBooking id reason ctx w
    = (Throw (JsError "Authentication required"), w) /\
  Mutation.blockSlot id reason ctx w
    = (Throw (JsError "Authentication required"), w) /\
  Mutation.unblockSlot id ctx w
    = (Throw (JsError "Authentication required"), w).
Proof.
  intros Hanon.
  assert (Hauth : requireAuth ctx w
                  = (Throw (JsError "Authentication required"), w)).
  { unfold requireAuth. destruct Hanon as [-> | ->]; [done|].
    by destruct (isAuthenticated ctx). }
  unfold Query.booking, Query.bookingByConfirmationCode, Mutation.cancelBooking,
    Mutation.blockSlot, Mutation.unblockSlot, requireRole.
  unfold mbind, M_bind. by rewrite Hauth.
Qed.

Lemma guarded_resolvers_require_authentication_witness :
  Query.booking "b-1" (mkAuthContext None false) sampleBooked
    = (Throw (JsError "Authentication required"), sampleBooked) /\
  Query.bookingByConfirmationCode "RSV-0A1B2C3D" (mkAuthContext None false)
                                  sampleBooked
    = (Throw (JsError "Authentication required"), sampleBooked) /\
  Mutation.cancelBooking "b-1" None (mkAuthContext None false) sampleBooked
    = (Throw (JsError "Authentication required"), sampleBooked) /\
  Mutation.blockSlot "b-1" None (mkAuthContext None false) sampleBooked
    = (Throw (JsError "Authentication required"), sampleBooked) /\
  Mutation.unblockSlot "b-1" (mkAuthContext None false) sampleBooked
    = (Throw (JsError "Authentication required"), sampleBooked).
Proof.
  apply (guarded_resolvers_require_authentication (mkAuthContext None false)
           sampleBooked "b-1" "RSV-0A1B2C3D" None).
  left. reflexivity.
Defined.

(** X19. Blocking and unblocking are for administrators only: for an
    authenticated caller whose role is not ADMIN, whether or not the slot
    exists, both mutations throw "Insufficient permissions. Required:
    admin" and leave the world as it was. *)
Theorem slot_blocking_requires_admin (ctx : AuthenticatedContext)
    (user : AuthPayload) (w : World) (slotId : string) (reason : option string) :
  isAuthenticated ctx = true ->
  auth_user ctx = Some user ->
  auth_role user <> ADMIN ->
  Mutation.blockSlot slotId reason ctx w
    = (Throw (JsError "Insufficient permissions. Required: admin"), w) /\
  Mutation.unblockSlot slotId ctx w
    = (Throw (JsError "Insufficient permissions. Required: admin"), w).
Proof.
  intros Hauth Huser Hrole.
  assert (Hreq : requireRole ctx [ADMIN] w
                 = (Throw (JsError "Insufficient permissions. Required: admin"), w)).
  { unfold requireRole, requireAuth. rewrite Hauth, Huser.
    unfold mbind, M_bind, mret, M_ret.
    rewrite bool_decide_eq_false_2; [done|].
    intros Hin. apply list_elem_of_singleton in Hin. done. }
  unfold Mutation.blockSlot, Mutation.unblockSlot.
  unfold mbind, M_bind. by rewrite Hreq.
Qed.

Lemma slot_blocking_requires_admin_witness :
  Mutation.blockSlot "s-1" (Some "maintenance") (memberContext "u-1") sampleWorld
    = (Throw (JsError "Insufficient permissions. Required: admin"), sampleWorld) /\
  Mutation.unblockSlot "s-1" (memberContext "u-1") sampleWorld
    = (Throw (JsError "Insufficient permissions. Required: admin"), sampleWorld).
Proof.
  apply (slot_blocking_requires_admin (memberContext "u-1")
           (mkAuthPayload "u-1" MEMBER) sampleWorld "s-1" (Some "maintenance")).
  - reflexivity.
  - reflexivity.
  - discriminate.
Defined.

(** X20. Blocking a slot and unblocking it again does not give the slot
    back as it was. The capacity columns are untouched, but the status
    ends up AVAILABLE whatever it was before the block (a BOOKED slot with
    nothing left becomes AVAILABLE), and the metadata keeps the [blockedBy]
    and [blockReason] entries that [blockSlot] wrote. Neither mutation
    touches a booking, the cache or the event stream. *)
Theorem block_then_unblock (slotId : string) (reason : option string)
    (ctx : AuthenticatedContext) (user : AuthPayload) (w : World) (slot : Slot) :
  isAuthenticated ctx = true ->
  auth_user ctx = Some user ->
  auth_role user = ADMIN ->
  slots (db w) !! slotId = Some slot ->
  slot_id slot = slotId ->
  exists slot2 w2,
    (Mutation.blockSlot slotId reason ctx;; Mutation.unblockSlot slotId ctx) w
      = (Return slot2, w2) /\
    slots (db w2) = <[slotId := slot2]> (slots (db w)) /\
    slot2 = Slot_set_metadata (Slot_set_status slot AVAILABLE)
              (<["blockedBy" := Some (auth_userId user)]>
                 (<["blockReason" := reason]> (slot_metadata slot))) /\
    remainingCapacity slot2 = remainingCapacity slot /\
    bookings (db w2) = bookings (db w) /\
    redis w2 = redis w /\
    published w2 = published w.
Proof.
  intros Hauth Huser Hrole Hslot Hid.
  eexists _, _. split.
  - mrun. rewrite Hauth, Huser. mrun.
    rewrite Hrole, bool_decide_eq_true_2 by apply list_elem_of_here. mrun.
    rewrite Hslot. mrun. rewrite Hid, lookup_insert_eq. mrun.
    reflexivity.
  - wsimpl. rewrite Hid, insert_insert_eq. split_and!; done.
Qed.

Lemma block_then_unblock_witness :
  exists slot2 w2,
    (Mutation.blockSlot "s-1" (Some "maintenance") adminContext;;
     Mutation.unblockSlot "s-1" adminContext) sampleFull
      = (Return slot2, w2) /\
    slots (db w2) = <["s-1" := slot2]> (slots (db sampleFull)) /\
    slot2 = Slot_set_metadata (Slot_set_status (debitedSlot sampleSlot 4) AVAILABLE)
              (<["blockedBy" := Some "admin-1"]>
                 (<["blockReason" := Some "maintenance"]>
                    (slot_metadata (debitedSlot sampleSlot 4)))) /\
    remainingCapacity slot2 = remainingCapacity (debitedSlot sampleSlot 4) /\
    bookings (db w2) = bookings (db sampleFull) /\
    redis w2 = redis sampleFull /\
    published w2 = published sampleFull.
Proof.
  apply (block_then_unblock "s-1" (Some "maintenance") adminContext
           (mkAuthPayload "admin-1" ADMIN) sampleFull (debitedSlot sampleSlot 4)).
  - reflexivity.
  - reflexivity.
  - reflexivity.
  - vm_compute. reflexivity.
  - reflexivity.
Defined.

(** X21. Who may read a booking through the [booking] query: for an
    authenticated caller and an existing booking, the query returns the
    booking exactly when the caller owns it or is an ADMIN, and answers
    FORBIDDEN otherwise; it never changes the world. *)
Theorem booking_query_visibility (id : string) (ctx : AuthenticatedContext)
    (user : AuthPayload) (w : World) (b : Booking) :
  isAuthenticated ctx = true ->
  auth_user ctx = Some user ->
  bookings (db w) !! id = Some b ->
  (Query.booking id ctx w).2 = w /\
  ((userId b = auth_userId user \/ auth_role user = ADMIN) ->
   (Query.booking id ctx w).1 = Return b) /\
  (~ (userId b = auth_userId user \/ auth_role user = ADMIN) ->
   (Query.booking id ctx w).1 = Throw (GraphQLError "Not authorized" "FORBIDDEN" None)).
Proof.
  intros Hauth Huser Hb.
  unfold Query.booking, getBookingById. mrun.
  rewrite Hauth, Huser, Hb. mrun.
  destruct (String.eqb (userId b) (auth_userId user)) eqn:Hown;
    [apply String.eqb_eq in Hown | apply String.eqb_neq in Hown];
    destruct (bool_decide (auth_role user = ADMIN)) eqn:Hadm;
    [apply bool_decide_eq_true_1 in Hadm | eapply bool_decide_eq_false_1 in Hadm
    |apply bool_decide_eq_true_1 in Hadm | eapply bool_decide_eq_false_1 in Hadm];
    cbn [negb andb fst snd]; split_and!; try done; intros Hv; try tauto.
Qed.

Lemma booking_query_visibility_witness :
  (Query.booking "b-1" adminContext sampleBooked).2 = sampleBooked /\
  ((userId sampleBooking = "admin-1" \/ ADMIN = ADMIN) ->
   (Query.booking "b-1" adminContext sampleBooked).1 = Return sampleBooking) /\
  (~ (userId sampleBooking = "admin-1" \/ ADMIN = ADMIN) ->
   (Query.booking "b-1" adminContext sampleBooked).1
   = Throw (GraphQLError "Not authorized" "FORBIDDEN" None)).
Proof.
  apply (booking_query_visibility "b-1" adminContext
           (mkAuthPayload "admin-1" ADMIN) sampleBooked sampleBooking).
  - reflexivity.
  - reflexivity.
  - vm_compute. reflexivity.
Defined.

Lemma head_filter_Some {A} (f : A -> bool) (l : list A) (a : A) :
  head (List.filter f l) = Some a -> f a = true /\ In a l.
Proof.
  intros Hh. assert (Hin : In a (List.filter f l)).
  { destruct (List.filter f l) as [|a0 l0]; [done|].
    injection Hh as ->. by left. }
  apply filter_In in Hin. tauto.
Qed.

Lemma head_filter_exists {A} (f : A -> bool) (l : list A) (a : A) :
  In a l -> f a = true -> exists a', head (List.filter f l) = Some a'.
Proof.
  intros Hin Hf. assert (Hin' : In a (List.filter f l)) by by apply filter_In.
  destruct (List.filter f l) as [|a0 l0]; [done|]. by exists a0.
Qed.

Lemma In_values {V} (m : gmap string V) (v : V) :
  In v (map_to_list m).*2 <-> exists k, m !! k = Some v.
Proof.
  rewrite <- list_elem_of_In, list_elem_of_fmap. split.
  - intros ([k v'] & -> & Hin). exists k. by apply elem_of_map_to_list.
  - intros (k & Hk). exists (k, v). split; [done|]. by apply elem_of_map_to_list.
Qed.

(** X22. The lookup by confirmation code checks that the caller is
    authenticated and nothing else: whoever the caller is, the query
    finds a booking whenever some booking carries the code, the booking it
    returns is a row of the database that carries the code, and the world
    is unchanged. Ownership and role play no part. *)
Theorem bookingByConfirmationCode_any_caller (code : string)
    (ctx : AuthenticatedContext) (user : AuthPayload) (w : World) :
  isAuthenticated ctx = true ->
  auth_user ctx = Some user ->
  exists found,
    Query.bookingByConfirmationCode code ctx w = (Return found, w) /\
    (forall b, found = Some b ->
       confirmationCode b = Some code /\
       exists key, bookings (db w) !! key = Some b) /\
    (forall key b, bookings (db w) !! key = Some b ->
       confirmationCode b = Some code -> found <> None).
Proof.
  intros Hauth Huser.
  unfold Query.bookingByConfirmationCode, getBookingByConfirmationCode.
  mrun. rewrite Hauth, Huser. mrun. eexists. split; [reflexivity|]. split.
  - intros b Hb. apply head_filter_Some in Hb as [Hcode Hin].
    apply bool_decide_eq_true_1 in Hcode. by apply In_values in Hin.
  - intros key b Hb Hcode.
    destruct (head_filter_exists
                (fun b => bool_decide (confirmationCode b = Some code))
                (map_to_list (bookings (db w))).*2 b) as [b0 ->]; [| |done].
    + apply In_values. by exists key.
    + by apply bool_decide_eq_true_2.
Qed.

Lemma bookingByConfirmationCode_any_caller_witness :
  exists found,
    Query.bookingByConfirmationCode "RSV-0A1B2C3D" (memberContext "u-2")
                                    sampleBooked
      = (Return found, sampleBooked) /\
    (forall b, found = Some b ->
       confirmationCode b = Some "RSV-0A1B2C3D" /\
       exists key, bookings (db sampleBooked) !! key = Some b) /\
    (forall key b, bookings (db sampleBooked) !! key = Some b ->
       confirmationCode b = Some "RSV-0A1B2C3D" -> found <> None).
Proof.
  apply (bookingByConfirmationCode_any_caller "RSV-0A1B2C3D"
           (memberContext "u-2") (mkAuthPayload "u-2" MEMBER) sampleBooked).
  - reflexivity.
  - reflexivity.
Defined.

(** ** The listing of available slots and its cache *)

Lemma redisGet_None_later r now now' k :
  redisGet r now k = None -> now <= now' -> redisGet r now' k = None.
Proof.
  unfold redisGet, entryLive. destruct (r !! k) as [e|]; [|done].
  destruct (expiresAt e) as [t|]; [|done].
  destruct (now <? t) eqn:Hlt; [done|]. intros _ Hle.
  apply Z.ltb_ge in Hlt. by rewrite (proj2 (Z.ltb_ge now' t)) by lia.
Qed.

#[local] Instance startsNoLater_total : Total startsNoLater.
Proof. intros a b. unfold startsNoLater. lia. Qed.

Lemma isListed_true (venueId day : string) (now : Z) (s : Slot) :
  isListed venueId day now s = true <->
  slot_venueId s = venueId /\ date s = day /\ slot_status s = AVAILABLE /\
  0 < remainingCapacity s /\ now < startTime s.
Proof.
  unfold isListed. rewrite !andb_true_iff, !String.eqb_eq, bool_decide_eq_true,
    !Z.ltb_lt. tauto.
Qed.

Lemma availableSlotsQuery_elem (d : Database) (venueId day : string) (now : Z)
    (s : Slot) :
  s ∈ availableSlotsQuery d venueId day now <->
  (exists key, slots d !! key = Some s) /\
  slot_venueId s = venueId /\ date s = day /\ slot_status s = AVAILABLE /\
  0 < remainingCapacity s /\ now < startTime s.
Proof.
  unfold availableSlotsQuery. rewrite merge_sort_Permutation.
  rewrite list_elem_of_In, filter_In, In_values, isListed_true. tauto.
Qed.

Section Availability.
Variable JSON_stringify : list Slot -> string.
Variable JSON_parse : string -> Error + list Slot.

Lemma getAvailableSlots_miss_run (venueId day : string) (w : World) :
  redisGet (redis w) (clock w) (cacheKeyOf venueId day) = None ->
  getAvailableSlots JSON_stringify JSON_parse venueId day w
  = (Return (availableSlotsQuery (db w) venueId day (clock w)),
     set_redis w
       (<[cacheKeyOf venueId day :=
          mkRedisEntry
            (JSON_stringify (availableSlotsQuery (db w) venueId day (clock w)))
            (Some (clock w + 60000))]> (redis w))).
Proof.
  intros Hmiss. unfold getAvailableSlots, cacheKeyOf in *. mrun.
  rewrite Hmiss. reflexivity.
Qed.

Lemma getAvailableSlots_hit_run (venueId day json : string) (w : World) :
  redisGet (redis w) (clock w) (cacheKeyOf venueId day) = Some json ->
  json <> "" ->
  getAvailableSlots JSON_stringify JSON_parse venueId day w
  = returnParsed JSON_parse json w.
Proof.
  intros Hhit Hne. unfold getAvailableSlots, cacheKeyOf in *. mrun.
  rewrite Hhit. by rewrite (proj2 (String.eqb_neq json "") Hne).
Qed.

(** X23. A listing that misses the cache answers from the database: the
    slots it returns are exactly the rows of the venue and the day that
    are AVAILABLE, have capacity left and start in the future, in
    ascending order of start time; it stores their encoding under the
    cache key with an expiry 60 s ahead and writes nothing else. *)
Theorem getAvailableSlots_miss (venueId day : string) (w : World) :
  redisGet (redis w) (clock w) (cacheKeyOf venueId day) = None ->
  exists l,
    getAvailableSlots JSON_stringify JSON_parse venueId day w
    = (Return l,
       set_redis w (<[cacheKeyOf venueId day :=
                      mkRedisEntry (JSON_stringify l) (Some (clock w + 60000))]>
                      (redis w))) /\
    Sorted startsNoLater l /\
    (forall s, s ∈ l <->
       (exists key, slots (db w) !! key = Some s) /\
       slot_venueId s = venueId /\ date s = day /\ slot_status s = AVAILABLE /\
       0 < remainingCapacity s /\ clock w < startTime s).
Proof.
  intros Hmiss. exists (availableSlotsQuery (db w) venueId day (clock w)).
  split; [by apply getAvailableSlots_miss_run|]. split.
  - apply Sorted_merge_sort, _.
  - intros s. apply availableSlotsQuery_elem.
Qed.

(** X24. The listing is served from the cache for 60 s. After a listing
    that missed the cache, a listing of the same venue and day made while
    the entry is in place and less than 60 000 ms have passed decodes the
    stored document, whatever the database holds by then, and changes
    nothing; from 60 000 ms on it reads the database again. *)
Theorem getAvailableSlots_cached_for_60s (venueId day : string) (w w' : World) :
  redisGet (redis w) (clock w) (cacheKeyOf venueId day) = None ->
  JSON_stringify (availableSlotsQuery (db w) venueId day (clock w)) <> "" ->
  redis w' !! cacheKeyOf venueId day
  = redis (getAvailableSlots JSON_stringify JSON_parse venueId day w).2
      !! cacheKeyOf venueId day ->
  (clock w' < clock w + 60000 ->
   getAvailableSlots JSON_stringify JSON_parse venueId day w'
   = (match JSON_parse
              (JSON_stringify (availableSlotsQuery (db w) venueId day (clock w)))
      with
      | inr slots => Return slots
      | inl error => Throw error
      end, w')) /\
  (clock w + 60000 <= clock w' ->
   (getAvailableSlots JSON_stringify JSON_parse venueId day w').1
   = Return (availableSlotsQuery (db w') venueId day (clock w'))).
Proof.
  intros Hmiss Hne Hentry.
  rewrite (getAvailableSlots_miss_run _ _ _ Hmiss) in Hentry.
  cbn [snd redis set_redis] in Hentry. rewrite lookup_insert_eq in Hentry.
  split.
  - intros Hsoon.
    rewrite (getAvailableSlots_hit_run venueId day
               (JSON_stringify (availableSlotsQuery (db w) venueId day (clock w)))).
    + unfold returnParsed. by destruct (JSON_parse _).
    + unfold redisGet. rewrite Hentry. cbn [entryLive expiresAt entry_value].
      by rewrite (proj2 (Z.ltb_lt _ _) Hsoon).
    + exact Hne.
  - intros Hlate. rewrite getAvailableSlots_miss_run; [done|].
    unfold redisGet. rewrite Hentry. cbn [entryLive expiresAt entry_value].
    by rewrite (proj2 (Z.ltb_ge _ _) Hlate).
Qed.

(** X25. A booking makes the next listing fresh: after a [createBooking]
    that returned, a listing of the venue named in the request on the day
    of the slot, made at any later instant with the cache and the
    database as the booking left them, misses the cache and reports the
    committed rows. *)
Theorem createBooking_then_listing_fresh (input : CreateBookingInput)
    (w w1 w2 : World) (b : Booking) (slot : Slot) :
  BookingService.createBooking input w = (Return b, w1) ->
  slots (db w) !! create_slotId input = Some slot ->
  db w2 = db w1 ->
  redis w2 = redis w1 ->
  clock w <= clock w2 ->
  (getAvailableSlots JSON_stringify JSON_parse (create_venueId input)
                     (date slot) w2).1
  = Return (availableSlotsQuery (db w1) (create_venueId input) (date slot)
                                (clock w2)).
Proof.
  intros Hx Hslot Hdb Hredis Hclock.
  apply createBooking_Return_effects in Hx
    as (slot0 & u & _ & _ & _ & Hs0 & _ & _ & _ & _ & _ & _ & _ & _ & _ & _ & _
        & Hcache & _).
  rewrite Hslot in Hs0. injection Hs0 as <-.
  rewrite getAvailableSlots_miss_run; [by rewrite Hdb|].
  rewrite Hredis. by apply (redisGet_None_later _ (clock w)).
Qed.

End Availability.

Lemma getAvailableSlots_miss_witness :
  exists l,
    getAvailableSlots sampleStringify sampleParse "v-1" "2026-03-01" sampleWorld
    = (Return l,
       set_redis sampleWorld
         (<[cacheKeyOf "v-1" "2026-03-01" :=
            mkRedisEntry (sampleStringify l) (Some (clock sampleWorld + 60000))]>
            (redis sampleWorld))) /\
    Sorted startsNoLater l /\
    (forall s, s ∈ l <->
       (exists key, slots (db sampleWorld) !! key = Some s) /\
       slot_venueId s = "v-1" /\ date s = "2026-03-01" /\
       slot_status s = AVAILABLE /\
       0 < remainingCapacity s /\ clock sampleWorld < startTime s).
Proof.
  apply (getAvailableSlots_miss sampleStringify sampleParse "v-1" "2026-03-01"
           sampleWorld).
  vm_compute. reflexivity.
Defined.

Lemma getAvailableSlots_cached_for_60s_witness :
  (clock (set_clock sampleFull 27230000) < clock sampleWorld + 60000 ->
   getAvailableSlots sampleStringify sampleParse "v-1" "2026-03-01"
     (set_redis (set_clock sampleFull 27230000) (redis sampleListed))
   = (match sampleParse
              (sampleStringify
                 (availableSlotsQuery (db sampleWorld) "v-1" "2026-03-01"
                                      (clock sampleWorld)))
      with
      | inr slots => Return slots
      | inl error => Throw error
      end,
      set_redis (set_clock sampleFull 27230000) (redis sampleListed))) /\
  (clock sampleWorld + 60000 <= clock (set_clock sampleFull 27230000) ->
   (getAvailableSlots sampleStringify sampleParse "v-1" "2026-03-01"
      (set_redis (set_clock sampleFull 27230000) (redis sampleListed))).1
   = Return (availableSlotsQuery (db sampleFull) "v-1" "2026-03-01" 27230000)).
Proof.
  apply (getAvailableSlots_cached_for_60s sampleStringify sampleParse
           "v-1" "2026-03-01" sampleWorld
           (set_redis (set_clock sampleFull 27230000) (redis sampleListed))).
  - vm_compute. reflexivity.
  - vm_compute. discriminate.
  - reflexivity.
Defined.

Lemma createBooking_then_listing_fresh_witness :
  (getAvailableSlots sampleStringify sampleParse (create_venueId sampleInput)
                     (date sampleSlot) sampleBooked).1
  = Return (availableSlotsQuery (db sampleBooked) (create_venueId sampleInput)
                                (date sampleSlot) (clock sampleBooked)).
Proof.
  apply (createBooking_then_listing_fresh sampleStringify sampleParse
           sampleInput sampleWorld sampleBooked sampleBooked sampleBooking
           sampleSlot).
  - vm_compute. reflexivity.
  - vm_compute. reflexivity.
  - reflexivity.
  - reflexivity.
  - vm_compute. discriminate.
Defined.

(** ** The request context *)

Lemma splitOn_no_sep (sep : ascii) (s : string) :
  occursIn sep s = false -> splitOn sep s = [s].
Proof.
  induction s as [|c s IH]; cbn [occursIn splitOn]; [done|].
  intros Hno. apply orb_false_iff in Hno as [Hc Hs].
  by rewrite Hc, (IH Hs).
Qed.

Lemma splitOn_not_nil (sep : ascii) (s : string) : splitOn sep s <> [].
Proof.
  destruct s as [|c s]; cbn [splitOn]; [done|].
  destruct (Ascii.eqb c sep); [done|]. by destruct (splitOn sep s).
Qed.

Lemma splitOn_join (sep : ascii) (s : string) :
  String.concat (String sep "") (splitOn sep s) = s.
Proof.
  induction s as [|c s IH]; cbn [splitOn]; [done|].
  pose proof (splitOn_not_nil sep s) as Hnil.
  destruct (Ascii.eqb c sep) eqn:Hc.
  - apply Ascii.eqb_eq in Hc as ->.
    destruct (splitOn sep s) as [|p ps]; [done|].
    cbn [String.concat] in *. by rewrite IH.
  - destruct (splitOn sep s) as [|p ps]; [done|].
    destruct ps as [|p' ps]; cbn [String.concat] in *; by rewrite <- IH.
Qed.

Lemma splitOn_parts (sep : ascii) (s : string) :
  Forall (fun part => occursIn sep part = false) (splitOn sep s).
Proof.
  induction s as [|c s IH]; cbn [splitOn].
  - by constructor.
  - destruct (Ascii.eqb c sep) eqn:Hc.
    + by constructor.
    + destruct (splitOn sep s) as [|p ps].
      * constructor; [|done]. cbn [occursIn]. by rewrite Hc.
      * inversion IH as [|? ? Hp Hps]; subst. constructor; [|done].
        cbn [occursIn]. by rewrite Hc, Hp.
Qed.

(** [extractTokenFromHeader] accepts exactly the headers made of the word
    Bearer, one space, and a token without a space. *)
Lemma extractTokenFromHeader_Some (header : option string) (token : string) :
  extractTokenFromHeader header = Some token <->
  header = Some ("Bearer " +:+ token) /\ occursIn " " token = false.
Proof.
  split.
  - destruct header as [h|]; cbn [extractTokenFromHeader]; [|done].
    destruct (String.eqb h ""); [done|].
    pose proof (splitOn_join " " h) as Hjoin.
    pose proof (splitOn_parts " " h) as Hparts.
    destruct (splitOn " " h) as [|scheme [|tok [|? ?]]]; try done.
    destruct (String.eqb scheme "Bearer") eqn:Hs; [|done].
    apply String.eqb_eq in Hs as ->. intros [= ->].
    split; [by rewrite <- Hjoin|].
    inversion Hparts as [|? ? _ Hrest]; subst.
    by inversion Hrest.
  - intros [-> Hno]. cbn [extractTokenFromHeader].
    cbv beta iota delta [String.append]. cbn.
    by rewrite (splitOn_no_sep _ _ Hno).
Qed.

Section Authentication.
Variable verifyToken : string -> option AuthPayload.

(** X26. Authentication end to end: [requireAuth] lets the context built
    by [getAuthContext] through, with payload [user], exactly when the
    [Authorization] header is the word Bearer, one space and a non-empty
    token without a space that [verifyToken] accepts with that payload.
    Any other header (missing, another scheme, more than one space, a
    rejected token) gives a context that [requireAuth] refuses. *)
Theorem bearer_authentication (authorization : option string)
    (user : AuthPayload) (w : World) :
  requireAuth (getAuthContext verifyToken authorization) w = (Return user, w)
  <->
  exists token,
    authorization = Some ("Bearer " +:+ token) /\
    token <> "" /\
    occursIn " " token = false /\
    verifyToken token = Some user.
Proof.
  unfold getAuthContext. split.
  - destruct (extractTokenFromHeader authorization) as [token|] eqn:Hx;
      [|discriminate].
    apply extractTokenFromHeader_Some in Hx as [-> Hno].
    destruct (String.eqb token "") eqn:Hempty; [discriminate|].
    apply String.eqb_neq in Hempty.
    destruct (verifyToken token) as [payload|] eqn:Hv; [|discriminate].
    intros [= ->]. by exists token.
  - intros (token & -> & Hne & Hno & Hv).
    rewrite (proj2 (extractTokenFromHeader_Some _ token)) by done.
    by rewrite (proj2 (String.eqb_neq token "") Hne), Hv.
Qed.

End Authentication.

Lemma bearer_authentication_witness :
  requireAuth (getAuthContext sampleVerify (Some "Bearer tok-u1")) sampleWorld
  = (Return (mkAuthPayload "u-1" MEMBER), sampleWorld).
Proof.
  apply (bearer_authentication sampleVerify (Some "Bearer tok-u1")
           (mkAuthPayload "u-1" MEMBER) sampleWorld).
  exists "tok-u1". split_and!; [reflexivity | discriminate | reflexivity | reflexivity].
Defined.

(** ** What a cancellation does not look at *)



(** ** Notifications and the insert hook *)

(** X29. [NotificationService.send] never throws, whatever SNS does: it
    returns, having delivered the payload or not, and touches neither the
    database, nor Redis, nor the queue, nor the event stream. *)
Theorem send_never_throws (payload : NotificationPayload) (w : World) :
  exists w',
    NotificationService.send payload w = (Return tt, w') /\
    (notifications w' = notifications w
     \/ notifications w' = (notifications w ++ [payload])%list) /\
    db w' = db w /\ tx w' = tx w /\ redis w' = redis w /\ jobs w' = jobs w /\
    published w' = published w.
Proof.
  mrun. destruct (String.eqb (SNS_TOPIC_ARN (env w)) ""); mrun.
  - eexists. split; [reflexivity|]. wsimpl. split_and!; auto.
  - destruct (snsFault (faults w)); mrun.
    + eexists. split; [reflexivity|]. wsimpl. split_and!; auto.
    + eexists. split; [reflexivity|]. wsimpl. split_and!; auto.
Qed.

(** X30. The insert hook mints a code once: a booking that went through
    [generateConfirmationCode] keeps its code when the hook runs again,
    whatever UUID the second run draws. *)
Theorem generateConfirmationCode_idempotent (b : Booking) (uuid uuid' : string) :
  Booking.generateConfirmationCode (Booking.generateConfirmationCode b uuid) uuid'
  = Booking.generateConfirmationCode b uuid.
Proof.
  unfold Booking.generateConfirmationCode.
  destruct (Booking.hasConfirmationCode b) eqn:Hhas; cbn [negb].
  - by rewrite Hhas.
  - unfold Booking.hasConfirmationCode.
    cbn [confirmationCode Booking_set_confirmationCode].
    cbv beta iota delta [String.append]. reflexivity.
Qed.
